(** * minikube: pkg/minikube/cluster/cluster.go

    A shallow embedding of the host lifecycle controller (StartHost,
    createHost, StopHost, DeleteHost, GetHostStatus), of the host-facing
    address resolver (GetVMHostIP, getIPForInterface) and of the 9p mount
    command builder (GetMountCommand, GetMountCleanupCommand), followed by the
    properties the specification states about them.

    Go values are modelled as follows.
    - A Go [string] is a Rocq [string] (a sequence of 8-bit characters).
    - A Go [(T, error)] result whose value is nil on failure is the sum
      [T + error]; a bare [error] result is [option error] ([None] is nil).
    - A [*host.Host] is a record value: every [api.Load] hands out a fresh
      object, so no aliasing is involved; the private fields of the driver
      object behind [h.Driver] belong to the world.
    - The libmachine store, the drivers, the provisioner, the ISO downloader,
      the host network stack and the VirtualBox management tool are external
      collaborators: they are the fields of the record [API], functions over
      an abstract world [W].  Every call made through [API] is written to a
      trace of [Event]s, next to console output and log lines.
    - [exit.Usage]/[exit.WithError] (process termination) and run-time panics
      are the two abnormal outcomes of the monad [M]. *)

From Stdlib Require Import String Ascii List ZArith NArith Bool.
From Stdlib Require Import DecimalString HexadecimalString.
From Stdlib.Strings Require Import Byte.
From Stdlib Require Import Lia.
Import ListNotations.
Local Open Scope list_scope.
Local Open Scope string_scope.

(** ** Strings *)

Module Str.

Definition nl : string := String (ascii_of_nat 10) EmptyString.
Definition dquote : string := String (ascii_of_nat 34) EmptyString.

(** Number of (possibly overlapping) occurrences of [pat] in [s]. *)
Fixpoint occurrences (pat s : string) : nat :=
  (if prefix pat s then 1 else 0) +
  match s with
  | EmptyString => 0
  | String _ s' => occurrences pat s'
  end.

Fixpoint drop (n : nat) (s : string) : string :=
  match n, s with
  | S n', String _ s' => drop n' s'
  | _, _ => s
  end.

Fixpoint concat_all (l : list string) : string :=
  match l with
  | [] => EmptyString
  | s :: l' => s ++ concat_all l'
  end.

(** [%d] of a Go [int], [uitoa] of an unsigned value. *)
Definition itoa (z : Z) : string :=
  DecimalString.NilZero.string_of_int (Z.to_int z).
Definition uitoa (n : N) : string :=
  DecimalString.NilZero.string_of_uint (N.to_uint n).

End Str.

(** ** regexp: the two patterns of GetVMHostIP

    Both regular expressions have the shape [pre(.*?)post] with [pre] and
    [post] literal.  [FindStringSubmatch] returns the leftmost match; the
    lazy group takes the shortest run of characters other than a newline
    that is followed by [post].  The result is [whole; group], or [None]
    for Go's nil slice when nothing matches. *)

Module Regexp.

Definition is_newline (c : ascii) : bool := Ascii.eqb c (ascii_of_nat 10).

Fixpoint lazy_until (post s : string) : option string :=
  if prefix post s then Some EmptyString
  else match s with
       | EmptyString => None
       | String c s' =>
           if is_newline c then None
           else option_map (String c) (lazy_until post s')
       end.

Fixpoint FindStringSubmatch (pre post s : string) : option (list string) :=
  match (if prefix pre s
         then lazy_until post (Str.drop (String.length pre) s)
         else None) with
  | Some g => Some [pre ++ g ++ post; g]
  | None =>
      match s with
      | EmptyString => None
      | String _ s' => FindStringSubmatch pre post s'
      end
  end.

End Regexp.

(** ** net.IP *)

Module Net.

(** An IP address is a byte slice; nil and the empty slice are both []. *)
Definition IP := list byte.

Definition v4InV6Prefix : list byte :=
  [x00; x00; x00; x00; x00; x00; x00; x00; x00; x00; xff; xff].

Definition IPv4 (a b c d : byte) : IP := (v4InV6Prefix ++ [a; b; c; d])%list.

Definition isZeros (p : list byte) : bool := forallb (Byte.eqb x00) p.

(** [ip.To4()]: the 4-byte form, or [None] (nil) when there is none. *)
Definition To4 (ip : IP) : option IP :=
  if Nat.eqb (length ip) 4 then Some ip
  else if Nat.eqb (length ip) 16 && isZeros (firstn 10 ip)
          && Byte.eqb (nth 10 ip x00) xff && Byte.eqb (nth 11 ip x00) xff
       then Some (skipn 12 ip)
       else None.

(** [dtoi]: the decimal digits at the head of [s], their value and the rest;
    [None] when [s] starts with no digit. *)
Definition digit (c : ascii) : option N :=
  let n := N_of_ascii c in
  if (48 <=? n)%N && (n <=? 57)%N then Some (n - 48)%N else None.

Fixpoint dtoi_from (acc : N) (s : string) : N * string :=
  match s with
  | EmptyString => (acc, s)
  | String c s' =>
      match digit c with
      | Some d => dtoi_from (acc * 10 + d)%N s'
      | None => (acc, s)
      end
  end.

Definition dtoi (s : string) : option (N * string) :=
  match s with
  | EmptyString => None
  | String c _ =>
      match digit c with
      | Some _ => Some (dtoi_from 0%N s)
      | None => None
      end
  end.

Definition octet (s : string) : option (byte * string) :=
  match dtoi s with
  | Some (n, rest) =>
      match Byte.of_N n with
      | Some b => Some (b, rest)
      | None => None
      end
  | None => None
  end.

Definition dotted (s : string) : option (byte * string) :=
  match s with
  | String "." s' => octet s'
  | _ => None
  end.

(** [net.ParseIP] on a dotted quad; nil ([]) on a malformed one.  The file
    only parses dotted-quad literals, so the IPv6 branch of the parser is
    left out: text without a dot parses to nil here. *)
Definition ParseIP (s : string) : IP :=
  match octet s with
  | Some (a, s1) =>
      match dotted s1 with
      | Some (b, s2) =>
          match dotted s2 with
          | Some (c, s3) =>
              match dotted s3 with
              | Some (d, EmptyString) => IPv4 a b c d
              | _ => []
              end
          | None => []
          end
      | None => []
      end
  | None => []
  end.

(** The eight 16-bit groups of a 16-byte address. *)
Fixpoint groups (p : list byte) : list N :=
  match p with
  | hi :: lo :: p' => (Byte.to_N hi * 256 + Byte.to_N lo)%N :: groups p'
  | _ => []
  end.

(** Length of the run of zero groups at the head of [g]. *)
Fixpoint zero_run (g : list N) : nat :=
  match g with
  | 0%N :: g' => S (zero_run g')
  | _ => 0
  end.

(** The first longest run of zero groups, as (start, length), scanning from
    group index [i]; a run, once measured, is skipped as a whole. *)
Fixpoint longest_run (fuel i : nat) (g : list N) (best : nat * nat) : nat * nat :=
  match fuel with
  | 0 => best
  | S fuel' =>
      match g with
      | [] => best
      | _ :: g' =>
          let r := zero_run g in
          if Nat.ltb (snd best) r
          then longest_run fuel' (i + r + 1) (skipn (r + 1) g) (i, r)
          else longest_run fuel' (i + 1) g' best
      end
  end.

Definition hex (n : N) : string :=
  HexadecimalString.NilZero.string_of_uint (N.to_hex_uint n).

Definition join_colon (g : list N) : string :=
  match g with
  | [] => EmptyString
  | x :: g' => hex x ++ Str.concat_all (map (fun y => ":" ++ hex y) g')
  end.

Definition hexByte (b : byte) : string :=
  let n := Byte.to_N b in hex (n / 16) ++ hex (n mod 16).

(** [ip.String()]. *)
Definition IP_String (ip : IP) : string :=
  match ip with
  | [] => "<nil>"
  | _ =>
      match To4 ip with
      | Some [a; b; c; d] =>
          Str.uitoa (Byte.to_N a) ++ "." ++ Str.uitoa (Byte.to_N b) ++ "." ++
          Str.uitoa (Byte.to_N c) ++ "." ++ Str.uitoa (Byte.to_N d)
      | _ =>
          if Nat.eqb (length ip) 16 then
            let g := groups ip in
            let '(e0, r) := longest_run 8 0 g (0, 0) in
            if Nat.leb r 1 then join_colon g
            else join_colon (firstn e0 g) ++ "::" ++ join_colon (skipn (e0 + r) g)
          else "?" ++ Str.concat_all (map hexByte ip)
      end
  end.

(** A [net.Addr] as [Interface.Addrs] returns them: an [*net.IPNet] (address
    and mask) or a value of another dynamic type, such as the [*net.IPAddr]
    the Windows implementation returns for anycast addresses. *)
Inductive Addr : Type :=
| IPNet (ip : IP) (mask : list byte)
| IPAddr (ip : IP) (zone : string).

Record Interface : Type := mkInterface { Index : Z; IfName : string }.

End Net.

(** ** Data model *)

(** libmachine/state: the driver state enumeration and its text. *)
Module state.

Inductive State : Set :=
| None | Running | Paused | Saved | Stopped | Stopping | Starting | Error | Timeout.

Definition State_String (s : State) : string :=
  match s with
  | None => EmptyString
  | Running => "Running"
  | Paused => "Paused"
  | Saved => "Saved"
  | Stopped => "Stopped"
  | Stopping => "Stopping"
  | Starting => "Starting"
  | Error => "Error"
  | Timeout => "Timeout"
  end.

Definition eqb (a b : State) : bool :=
  match a, b with
  | None, None | Running, Running | Paused, Paused | Saved, Saved
  | Stopped, Stopped | Stopping, Stopping | Starting, Starting
  | Error, Error | Timeout, Timeout => true
  | _, _ => false
  end.

End state.

(** Modelled from the spec: the error values of the repository's other
    packages, [RetriableError] (pkg/util: it wraps an underlying failure and
    carries the original cause) and [ErrDriverNotFound] (the registry's
    NotFound), next to Go's own: [errorString] for [errors.New]/[Errorf]
    values and for any error a collaborator makes up, [withMessage] for
    [errors.Wrap], [ErrHostAlreadyInState] for libmachine's mcnerror. *)
Inductive error : Type :=
| errorString (msg : string)
| withMessage (cause : error) (msg : string)
| ErrDriverNotFound
| ErrHostAlreadyInState (Name : string) (State : state.State)
| RetriableError (Err : error).

Definition Wrap (err : error) (msg : string) : error := withMessage err msg.

(** config.MachineConfig (the fields this file reads; [Downloader] is the
    collaborator [CacheMinikubeISOFromURL] of [API]). *)
Module cfg.
Record MachineConfig : Type := mkMachineConfig {
  MinikubeISO : string;
  Memory : Z;
  CPUs : Z;
  DiskSize : Z;
  VMDriver : string;
  DockerEnv : list string;
  InsecureRegistry : list string;
  RegistryMirror : list string;
  DockerOpt : list string
}.
End cfg.

(** libmachine/engine.Options (the fields [engineOptions] sets; the others
    keep their zero value). *)
Module engine.
Record Options : Type := mkOptions {
  ArbitraryFlags : list string;
  Env : list string;
  InsecureRegistry : list string;
  RegistryMirror : list string
}.
End engine.

Module auth.
Record Options : Type := mkOptions { CertDir : string; StorePath : string }.
End auth.

Module swarm.
Record Options : Type := mkOptions { IsSwarm : bool }.
End swarm.

Module drivers.
(** What this file sees of a driver object: the result of [DriverName()]. *)
Record Driver : Type := mkDriver { DriverName : string }.
End drivers.

Module host.
Record Options : Type := mkOptions {
  EngineOptions : engine.Options;
  SwarmOptions : swarm.Options;
  AuthOptions : auth.Options
}.
Record Host : Type := mkHost {
  Name : string;
  DriverName : string;
  Driver : drivers.Driver;
  HostOptions : Options;
  RawDriver : string
}.

Definition set_HostOptions (h : Host) (o : Options) : Host :=
  mkHost (Name h) (DriverName h) (Driver h) o (RawDriver h).
Definition set_EngineOptions (h : Host) (e : engine.Options) : Host :=
  set_HostOptions h
    (mkOptions e (SwarmOptions (HostOptions h)) (AuthOptions (HostOptions h))).
Definition set_AuthOptions (h : Host) (a : auth.Options) : Host :=
  set_HostOptions h
    (mkOptions (EngineOptions (HostOptions h)) (SwarmOptions (HostOptions h)) a).
End host.

Module registry.
(** Modelled from the spec: the driver registry resolves a kind to a
    factory, and a factory builds a driver-specific configuration object from
    a MachineConfig.  A driver object, as [ConfigCreator] builds it before
    [json.Marshal], is a list of fields. *)
Definition DriverObject := list (string * string).
Record DriverDef : Type := mkDriverDef {
  ConfigCreator : cfg.MachineConfig -> DriverObject
}.
End registry.

Module provision.
Record Provisioner : Type := mkProvisioner { ProvisionerName : string }.
End provision.

(** ** Events *)

(** An argument of a console or log line. *)
Inductive Arg : Type :=
| AStr (s : string)
| AInt (z : Z)
| AState (s : state.State)
| AErr (e : option error)
| AConfig (c : cfg.MachineConfig)
| AEngine (e : engine.Options).

Inductive Event : Type :=
(* libmachine.API: the machine store *)
| EvExists (name : string)
| EvLoad (name : string)
| EvSave (h : host.Host)
| EvNewHost (driverName : string) (rawDriver : string)
| EvCreate (h : host.Host)
| EvRemove (name : string)
(* h.Driver *)
| EvGetState (h : host.Host)
| EvStart (h : host.Host)
| EvDriverRemove (h : host.Host)
(* methods of host.Host *)
| EvStop (h : host.Host)
| EvRunSSHCommand (h : host.Host) (command : string)
| EvConfigureAuth (h : host.Host)
(* provision *)
| EvDetectProvisioner (d : drivers.Driver)
| EvProvision (p : provision.Provisioner)
    (s : swarm.Options) (a : auth.Options) (e : engine.Options)
(* config.Downloader *)
| EvCacheMinikubeISOFromURL (url : string)
(* net, os/exec, time *)
| EvInterfaceByName (name : string)
| EvAddrs (i : Net.Interface)
| EvCommandOutput (cmd : string) (args : list string)
| EvSleep (seconds : Z)
(* console and glog *)
| EvConsoleOut (text : string)
| EvConsoleWarning (format : string) (args : list Arg)
| EvConsoleOutStyle (style format : string) (args : list Arg)
| EvGlog (severity format : string) (args : list Arg).

(** Console output and log lines, as opposed to calls on a collaborator. *)
Definition is_output (e : Event) : bool :=
  match e with
  | EvConsoleOut _ | EvConsoleWarning _ _ | EvConsoleOutStyle _ _ _
  | EvGlog _ _ _ => true
  | _ => false
  end.

Definition is_warning (e : Event) : bool :=
  match e with EvConsoleWarning _ _ => true | _ => false end.

(** The calls on collaborators in a trace. *)
Definition effects (t : list Event) : list Event :=
  filter (fun e => negb (is_output e)) t.

Definition is_creation (e : Event) : bool :=
  match e with EvCreate _ | EvNewHost _ _ => true | _ => false end.
Definition is_save (e : Event) : bool :=
  match e with EvSave _ => true | _ => false end.
Definition is_start (e : Event) : bool :=
  match e with EvStart _ => true | _ => false end.
Definition is_store_write (e : Event) : bool :=
  match e with
  | EvSave _ | EvCreate _ | EvNewHost _ _ | EvRemove _ => true
  | _ => false
  end.

Definition count (p : Event -> bool) (t : list Event) : nat :=
  length (filter p t).

(** ** Collaborators *)

(** Modelled from the spec: the settings and well-known constants this file
    reads from other packages of the repository, taken as parameters:
    [cfg.GetMachineName()], the [viper] flag of the deprecation notice,
    [constants.GetMinipath()], [constants.DefaultMachineName],
    [pkgutil.DefaultServiceCIDR] and [detectVBoxManageCmd()]. *)
Record Env : Type := mkEnv {
  MachineName : string;
  ShowDriverDeprecationNotification : bool;
  Minipath : string;
  DefaultMachineName : string;
  DefaultServiceCIDR : string;
  VBoxManageCmd : string
}.

(** The external collaborators over a world [W]. *)
Record API (W : Type) : Type := mkAPI {
  (* libmachine.API *)
  Exists : string -> W -> (bool + error) * W;
  Load : string -> W -> (host.Host + error) * W;
  Save : host.Host -> W -> option error * W;
  NewHost : string -> string -> W -> (host.Host + error) * W;
  Create : host.Host -> W -> option error * W;
  Remove : string -> W -> option error * W;
  (* drivers.Driver, through h.Driver *)
  GetState : host.Host -> W -> (state.State * option error) * W;
  Start : host.Host -> W -> option error * W;
  DriverRemove : host.Host -> W -> option error * W;
  (* host.Host *)
  Stop : host.Host -> W -> option error * W;
  RunSSHCommand : host.Host -> string -> W -> (string * option error) * W;
  ConfigureAuth : host.Host -> W -> option error * W;
  (* provision *)
  DetectProvisioner : drivers.Driver -> W -> (provision.Provisioner + error) * W;
  Provision : provision.Provisioner -> swarm.Options -> auth.Options ->
              engine.Options -> W -> option error * W;
  (* config.Downloader *)
  CacheMinikubeISOFromURL : string -> W -> option error * W;
  (* registry and encoding/json: reads of process-wide tables, no effect *)
  registry_Driver : string -> registry.DriverDef + error;
  json_Marshal : registry.DriverObject -> string + error;
  (* net and os/exec *)
  InterfaceByName : string -> W -> (option Net.Interface * option error) * W;
  Addrs : Net.Interface -> W -> (list Net.Addr * option error) * W;
  CommandOutput : string -> list string -> W -> (string + error) * W
}.

Arguments Exists {W}.
Arguments Load {W}.
Arguments Save {W}.
Arguments NewHost {W}.
Arguments Create {W}.
Arguments Remove {W}.
Arguments GetState {W}.
Arguments Start {W}.
Arguments DriverRemove {W}.
Arguments Stop {W}.
Arguments RunSSHCommand {W}.
Arguments ConfigureAuth {W}.
Arguments DetectProvisioner {W}.
Arguments Provision {W}.
Arguments CacheMinikubeISOFromURL {W}.
Arguments registry_Driver {W}.
Arguments json_Marshal {W}.
Arguments InterfaceByName {W}.
Arguments Addrs {W}.
Arguments CommandOutput {W}.

(** ** The monad of the embedding *)

(** Modelled from the spec: the calls of the repository's exit package,
    which end the process with a classified exit condition (a usage error,
    or a generic failure with its cause). *)
Inductive ExitCall : Type :=
| exit_Usage (msg : string)
| exit_WithError (msg : string) (err : error).

Inductive Outcome (A : Type) : Type :=
| Ret (a : A)
| Exited (x : ExitCall)
| Panicked (msg : string).

Arguments Ret {A}.
Arguments Exited {A}.
Arguments Panicked {A}.

(** A computation maps a world to its outcome, the world it leaves and the
    events it produced, oldest first. *)
Definition M (W A : Type) : Type := W -> Outcome A * W * list Event.

Definition ret {W A} (a : A) : M W A := fun w => (Ret a, w, []).

Definition bind {W A B} (m : M W A) (f : A -> M W B) : M W B :=
  fun w =>
    match m w with
    | (Ret a, w1, t1) =>
        match f a w1 with
        | (o, w2, t2) => (o, w2, (t1 ++ t2)%list)
        end
    | (Exited x, w1, t1) => (Exited x, w1, t1)
    | (Panicked msg, w1, t1) => (Panicked msg, w1, t1)
    end.

(** A call on a collaborator, recorded as [ev]. *)
Definition call {W A} (ev : Event) (f : W -> A * W) : M W A :=
  fun w => match f w with (a, w1) => (Ret a, w1, [ev]) end.

(** An event that leaves the world alone: console output, a log line. *)
Definition emit {W} (ev : Event) : M W unit := fun w => (Ret tt, w, [ev]).

Definition exit {W A} (x : ExitCall) : M W A := fun w => (Exited x, w, []).
Definition panic {W A} (msg : string) : M W A := fun w => (Panicked msg, w, []).

Declare Scope go_scope.
Delimit Scope go_scope with go.
Notation "x <- c1 ;; c2" := (bind c1 (fun x => c2))
  (at level 100, c1 at next level, right associativity) : go_scope.
Notation "c1 ;; c2" := (bind c1 (fun _ => c2))
  (at level 100, right associativity) : go_scope.

(** ** html/template, as far as [mountTemplate] needs it

    A template is text with actions of the form [{{.Field}}].  Executing it
    writes the text as it is and, for each action, the field of the data
    formatted ([%d] for an int) and passed through the HTML escaper of the
    text context. *)

Module Template.

Inductive Node : Type :=
| TextNode (text : string)
| FieldNode (field : string).

Inductive Value : Type :=
| VString (s : string)
| VInt (z : Z).

Definition text_node (acc : string) : list Node :=
  match acc with
  | EmptyString => []
  | _ => [TextNode acc]
  end.

Definition field_node (body : string) : option Node :=
  match body with
  | String "." (String c name) => Some (FieldNode (String c name))
  | _ => None
  end.

Definition snoc (s : string) (c : ascii) : string := s ++ String c EmptyString.

(** [Parse]: [None] is a parse error (an action left open, or an action that
    is not a field). *)
Fixpoint Parse_from (inAction : bool) (acc : string) (s : string)
  : option (list Node) :=
  match s with
  | EmptyString => if inAction then None else Some (text_node acc)
  | String "{" (String "{" rest) =>
      if inAction then None
      else option_map (app (text_node acc)) (Parse_from true EmptyString rest)
  | String "}" (String "}" rest) =>
      if inAction then
        match field_node acc with
        | Some n => option_map (cons n) (Parse_from false EmptyString rest)
        | None => None
        end
      else Parse_from false (snoc (snoc acc "}") "}") rest
  | String c rest => Parse_from inAction (snoc acc c) rest
  end.

Definition Parse (text : string) : option (list Node) :=
  Parse_from false EmptyString text.

(** The replacement table of the HTML escaper. *)
Definition escape_char (c : ascii) : string :=
  match nat_of_ascii c with
  | 0 => String (ascii_of_nat 239) (String (ascii_of_nat 191)
           (String (ascii_of_nat 189) EmptyString))
  | 34 => "&#34;"
  | 38 => "&amp;"
  | 39 => "&#39;"
  | 43 => "&#43;"
  | 60 => "&lt;"
  | 62 => "&gt;"
  | _ => String c EmptyString
  end.

Fixpoint htmlEscape (s : string) : string :=
  match s with
  | EmptyString => EmptyString
  | String c s' => escape_char c ++ htmlEscape s'
  end.

Definition print (v : Value) : string :=
  match v with
  | VString s => s
  | VInt z => Str.itoa z
  end.

Fixpoint lookup (data : list (string * Value)) (field : string) : option Value :=
  match data with
  | [] => Datatypes.None
  | (k, v) :: data' => if String.eqb k field then Some v else lookup data' field
  end.

(** [Execute]: the output, or the error of an action on a missing field. *)
Fixpoint Execute (t : list Node) (data : list (string * Value)) : string + error :=
  match t with
  | [] => inl EmptyString
  | TextNode text :: t' =>
      match Execute t' data with
      | inl out => inl (text ++ out)
      | inr err => inr err
      end
  | FieldNode f :: t' =>
      match lookup data f with
      | Some v =>
          match Execute t' data with
          | inl out => inl (htmlEscape (print v) ++ out)
          | inr err => inr err
          end
      | Datatypes.None => inr (errorString ("can't evaluate field " ++ f))
      end
  end.

End Template.

(** ** cluster.go *)

Definition lines (indent : string) (l : list string) : string :=
  match l with
  | [] => EmptyString
  | x :: l' => x ++ Str.concat_all (map (fun y => Str.nl ++ indent ++ y) l')
  end.

Definition tab : string := String (ascii_of_nat 9) EmptyString.

Definition kvmDeprecation : string :=
  lines (tab ++ tab ++ tab ++ tab)
    ["The kvm driver is deprecated and support for it will be removed in a future release.";
     "Please consider switching to the kvm2 driver, which is intended to replace the kvm driver.";
     "See https://github.com/kubernetes/minikube/blob/master/docs/drivers.md#kvm2-driver for more information.";
     "To disable this message, run [minikube config set WantShowDriverDeprecationNotification false]"].

Definition xhyveDeprecation : string :=
  lines EmptyString
    ["The xhyve driver is deprecated and support for it will be removed in a future release.";
     "Please consider switching to the hyperkit driver, which is intended to replace the xhyve driver.";
     "See https://github.com/kubernetes/minikube/blob/master/docs/drivers.md#hyperkit-driver for more information.";
     "To disable this message, run [minikube config set WantShowDriverDeprecationNotification false]"].

Definition vmwarefusionDeprecation : string :=
  lines (tab ++ tab ++ tab ++ tab)
    ["The vmwarefusion driver is deprecated and support for it will be removed in a future release.";
     "Please consider switching to the new vmware unified driver, which is intended to replace the vmwarefusion driver.";
     "See https://github.com/kubernetes/minikube/blob/master/docs/drivers.md#vmware-unified-driver for more information.";
     "To disable this message, run [minikube config set WantShowDriverDeprecationNotification false]"].

Definition mountTemplate : string :=
  Str.nl ++
  "sudo mkdir -p {{.Path}} || true;" ++ Str.nl ++
  "sudo mount -t 9p -o trans=tcp,port={{.Port}},dfltuid={{.UID}},dfltgid={{.GID}},version={{.Version}},msize={{.Msize}} {{.IP}} {{.Path}};" ++ Str.nl ++
  "sudo chmod 775 {{.Path}} || true;".

(** The patterns [`"VSwitch": "(.*?)",`] and [`hostonlyadapter2="(.*?)"`],
    each as its literal head and tail around the lazy group. *)
Definition vswitch_pre : string :=
  Str.dquote ++ "VSwitch" ++ Str.dquote ++ ": " ++ Str.dquote.
Definition vswitch_post : string := Str.dquote ++ ",".
Definition hostonly_pre : string := "hostonlyadapter2=" ++ Str.dquote.
Definition hostonly_post : string := Str.dquote.

Definition index_out_of_range : string := "runtime error: index out of range".

Section Cluster.

Context {W : Type}.
Variable api : API W.
Variable env : Env.

Local Open Scope go_scope.

(** *** Calls on the collaborators *)

Definition GetMachineName : string := MachineName env.

Definition api_Exists (name : string) : M W (bool + error) :=
  call (EvExists name) (Exists api name).
Definition api_Load (name : string) : M W (host.Host + error) :=
  call (EvLoad name) (Load api name).
Definition api_Save (h : host.Host) : M W (option error) :=
  call (EvSave h) (Save api h).
Definition api_NewHost (driverName rawDriver : string) : M W (host.Host + error) :=
  call (EvNewHost driverName rawDriver) (NewHost api driverName rawDriver).
Definition api_Create (h : host.Host) : M W (option error) :=
  call (EvCreate h) (Create api h).
Definition api_Remove (name : string) : M W (option error) :=
  call (EvRemove name) (Remove api name).

Definition Driver_GetState (h : host.Host) : M W (state.State * option error) :=
  call (EvGetState h) (GetState api h).
Definition Driver_Start (h : host.Host) : M W (option error) :=
  call (EvStart h) (Start api h).
Definition Driver_Remove (h : host.Host) : M W (option error) :=
  call (EvDriverRemove h) (DriverRemove api h).

Definition Host_Stop (h : host.Host) : M W (option error) :=
  call (EvStop h) (Stop api h).
Definition Host_RunSSHCommand (h : host.Host) (command : string)
  : M W (string * option error) :=
  call (EvRunSSHCommand h command) (RunSSHCommand api h command).
Definition Host_ConfigureAuth (h : host.Host) : M W (option error) :=
  call (EvConfigureAuth h) (ConfigureAuth api h).

Definition provision_DetectProvisioner (d : drivers.Driver)
  : M W (provision.Provisioner + error) :=
  call (EvDetectProvisioner d) (DetectProvisioner api d).
Definition Provisioner_Provision (p : provision.Provisioner)
  (s : swarm.Options) (a : auth.Options) (e : engine.Options) : M W (option error) :=
  call (EvProvision p s a e) (Provision api p s a e).

Definition Downloader_CacheMinikubeISOFromURL (url : string) : M W (option error) :=
  call (EvCacheMinikubeISOFromURL url) (CacheMinikubeISOFromURL api url).

Definition net_InterfaceByName (name : string)
  : M W (option Net.Interface * option error) :=
  call (EvInterfaceByName name) (InterfaceByName api name).

(** [i.Addrs()]: on a nil interface the method returns no address and an
    error without asking the system. *)
Definition Interface_Addrs (i : option Net.Interface)
  : M W (list Net.Addr * option error) :=
  match i with
  | Some ifi => call (EvAddrs ifi) (Addrs api ifi)
  | None => ret ([], Some (errorString "invalid network interface"))
  end.

Definition exec_Output (cmd : string) (args : list string) : M W (string + error) :=
  call (EvCommandOutput cmd args) (CommandOutput api cmd args).

Definition time_Sleep (seconds : Z) : M W unit := emit (EvSleep seconds).

Definition console_Out (text : string) : M W unit := emit (EvConsoleOut text).
Definition console_Warning (format : string) (args : list Arg) : M W unit :=
  emit (EvConsoleWarning format args).
Definition console_OutStyle (style format : string) (args : list Arg) : M W unit :=
  emit (EvConsoleOutStyle style format args).
Definition glog_Info (format : string) (args : list Arg) : M W unit :=
  emit (EvGlog "INFO" format args).
Definition glog_Warning (format : string) (args : list Arg) : M W unit :=
  emit (EvGlog "WARNING" format args).

(** *** engineOptions, preCreateHost, createHost *)

Definition engineOptions (config : cfg.MachineConfig) : engine.Options :=
  {| engine.Env := cfg.DockerEnv config;
     engine.InsecureRegistry :=
       DefaultServiceCIDR env :: cfg.InsecureRegistry config;
     engine.RegistryMirror := cfg.RegistryMirror config;
     engine.ArbitraryFlags := cfg.DockerOpt config |}.

(** The body of each case of preCreateHost. *)
Definition deprecation (text : string) : M W unit :=
  if ShowDriverDeprecationNotification env
  then console_Warning text []
  else ret tt.

Definition preCreateHost (config : cfg.MachineConfig) : M W (option error) :=
  (if cfg.VMDriver config =? "kvm" then deprecation kvmDeprecation
   else if cfg.VMDriver config =? "xhyve" then deprecation xhyveDeprecation
   else if cfg.VMDriver config =? "vmwarefusion"
        then deprecation vmwarefusionDeprecation
   else ret tt) ;;
  ret None.

(** [err == registry.ErrDriverNotFound]. *)
Definition is_ErrDriverNotFound (err : error) : bool :=
  match err with ErrDriverNotFound => true | _ => false end.

Definition createHost (config : cfg.MachineConfig) : M W (host.Host + error) :=
  err <- preCreateHost config ;;
  match err with
  | Some err => ret (inr err)
  | None =>
  console_OutStyle "starting-vm"
    "Creating %s VM (CPUs=%d, Memory=%dMB, Disk=%dMB) ..."
    [AStr (cfg.VMDriver config); AInt (cfg.CPUs config);
     AInt (cfg.Memory config); AInt (cfg.DiskSize config)] ;;
  def <- match registry_Driver api (cfg.VMDriver config) with
         | inr err =>
             (if is_ErrDriverNotFound err
              then exit (exit_Usage ("unsupported driver: " ++ cfg.VMDriver config))
              else ret tt) ;;
             exit (exit_WithError "error getting driver" err)
         | inl def => ret def
         end ;;
  cached <- (if negb (cfg.VMDriver config =? "none")
             then Downloader_CacheMinikubeISOFromURL (cfg.MinikubeISO config)
             else ret None) ;;
  match cached with
  | Some err => ret (inr (Wrap err "unable to cache ISO"))
  | None =>
  let driver := registry.ConfigCreator def config in
  match json_Marshal api driver with
  | inr err => ret (inr (Wrap err "marshal"))
  | inl data =>
  r <- api_NewHost (cfg.VMDriver config) data ;;
  match r with
  | inr err => ret (inr (Wrap err "new host"))
  | inl h =>
  let h := host.set_AuthOptions h
             (auth.mkOptions (Minipath env) (Minipath env)) in
  let h := host.set_EngineOptions h (engineOptions config) in
  err <- api_Create h ;;
  match err with
  | Some err =>
      (* Wait for all the logs to reach the client *)
      time_Sleep 2 ;;
      ret (inr (Wrap err "create"))
  | None =>
  err <- api_Save h ;;
  match err with
  | Some err => ret (inr (Wrap err "save"))
  | None => ret (inl h)
  end end end end end end.

(** *** StartHost *)

(** [h.HostOptions.EngineOptions.Env = e]. *)
Definition set_Env (h : host.Host) (e : list string) : host.Host :=
  let o := host.EngineOptions (host.HostOptions h) in
  host.set_EngineOptions h
    (engine.mkOptions (engine.ArbitraryFlags o) e
       (engine.InsecureRegistry o) (engine.RegistryMirror o)).

(** Lines 83 to 88 of StartHost: the notice of a driver mismatch. *)
Definition driverMismatchNotice (config : cfg.MachineConfig) (h : host.Host)
  : M W unit :=
  console_Out Str.nl ;;
  console_Warning
    "Ignoring --vm-driver=%s, as the existing %q VM was created using the %s driver."
    [AStr (cfg.VMDriver config); AStr GetMachineName;
     AStr (drivers.DriverName (host.Driver h))] ;;
  console_Warning
    "To switch drivers, you may create a new VM using `minikube start -p <name> --vm-driver=%s`"
    [AStr (cfg.VMDriver config)] ;;
  console_Warning
    "Alternatively, you may delete the existing VM using `minikube delete -p %s`"
    [AStr GetMachineName] ;;
  console_Out Str.nl.

(** StartHost from line 93 on: what it does with the loaded record [h]
    (state query, restart, engine options, provisioning, auth). *)
Definition StartHost_loaded (config : cfg.MachineConfig) (h : host.Host)
  : M W (host.Host + error) :=
  st <- Driver_GetState h ;;
  glog_Info "Machine state: " [AState (fst st)] ;;
  match snd st with
  | Some err => ret (inr (Wrap err "Error getting state for host"))
  | None =>
  failed <- (if state.eqb (fst st) state.Running then
               console_OutStyle "running"
                 "Re-using the currently running %s VM for %q ..."
                 [AStr (drivers.DriverName (host.Driver h)); AStr GetMachineName] ;;
               ret None
             else
               console_OutStyle "restarting"
                 "Restarting existing %s VM for %q ..."
                 [AStr (drivers.DriverName (host.Driver h)); AStr GetMachineName] ;;
               err <- Driver_Start h ;;
               match err with
               | Some err => ret (Some (Wrap err "start"))
               | None =>
                   err <- api_Save h ;;
                   match err with
                   | Some err => ret (Some (Wrap err "save"))
                   | None => ret None
                   end
               end) ;;
  match failed with
  | Some err => ret (inr err)
  | None =>
  let e := engineOptions config in
  glog_Info "engine options: %+v" [AEngine e] ;;
  (* Slightly counter-intuitive, but this is what DetectProvisioner &
     ConfigureAuth block on. *)
  console_OutStyle "waiting" "Waiting for SSH access ..." [] ;;
  r <- (if Nat.ltb 0 (length (engine.Env e)) then
          let h := set_Env h (engine.Env e) in
          r <- provision_DetectProvisioner (host.Driver h) ;;
          match r with
          | inr err => ret (inr (Wrap err "detecting provisioner"))
          | inl provisioner =>
              err <- Provisioner_Provision provisioner
                       (host.SwarmOptions (host.HostOptions h))
                       (host.AuthOptions (host.HostOptions h))
                       (host.EngineOptions (host.HostOptions h)) ;;
              match err with
              | Some err => ret (inr (Wrap err "provision"))
              | None => ret (inl h)
              end
          end
        else ret (inl h)) ;;
  match r with
  | inr err => ret (inr err)
  | inl h =>
  if negb (drivers.DriverName (host.Driver h) =? "none") then
    err <- Host_ConfigureAuth h ;;
    match err with
    | Some err =>
        ret (inr (RetriableError (Wrap err "Error configuring auth on host")))
    | None => ret (inl h)
    end
  else ret (inl h)
  end end end.

(** StartHost starts a host VM. *)
Definition StartHost (config : cfg.MachineConfig) : M W (host.Host + error) :=
  r <- api_Exists GetMachineName ;;
  match r with
  | inr err => ret (inr (Wrap err ("machine name: " ++ GetMachineName)))
  | inl exists_ =>
  if negb exists_ then
    glog_Info "Machine does not exist... provisioning new machine" [] ;;
    glog_Info "Provisioning machine with config: %+v" [AConfig config] ;;
    createHost config
  else
  glog_Info "Skipping create...Using existing machine configuration" [] ;;
  r <- api_Load GetMachineName ;;
  match r with
  | inr err =>
      ret (inr (Wrap err "Error loading existing host. Please try running [minikube delete], then run [minikube start] again."))
  | inl h =>
  (if negb (drivers.DriverName (host.Driver h) =? cfg.VMDriver config)
   then driverMismatchNotice config h
   else if exists_ && (GetMachineName =? DefaultMachineName env)
   then console_OutStyle "tip"
          "Tip: To create a new cluster, use 'minikube start -p <new name>' or use 'minikube delete' to delete this one."
          []
   else ret tt) ;;
  StartHost_loaded config h
  end end.

(** *** tryPowerOff, StopHost, DeleteHost, GetHostStatus *)

(** tryPowerOff runs the poweroff command on the guest VM to speed up
    deletion. *)
Definition tryPowerOff (h : host.Host) : M W unit :=
  if drivers.DriverName (host.Driver h) =? "none" then ret tt
  else
    st <- Driver_GetState h ;;
    match snd st with
    | Some err => glog_Warning "unable to get state: %v" [AErr (Some err)]
    | None =>
        if negb (state.eqb (fst st) state.Running)
        then glog_Info "host is in state %s" [AState (fst st)]
        else
          console_OutStyle "shutdown" "Powering off %q via SSH ..."
            [AStr GetMachineName] ;;
          r <- Host_RunSSHCommand h "sudo poweroff" ;;
          (* poweroff always results in an error, since the host disconnects. *)
          glog_Info "poweroff result: out=%s, err=%v" [AStr (fst r); AErr (snd r)]
    end.

(** StopHost stops the host VM, saving state to disk. *)
Definition StopHost : M W (option error) :=
  r <- api_Load GetMachineName ;;
  match r with
  | inr err => ret (Some (Wrap err "load"))
  | inl host =>
  console_OutStyle "stopping" "Stopping %q in %s ..."
    [AStr GetMachineName; AStr (host.DriverName host)] ;;
  err <- Host_Stop host ;;
  match err with
  | Some err =>
      match err with
      | ErrHostAlreadyInState _ state.Stopped => ret None
      | _ => ret (Some (RetriableError (Wrap err ("Stop: " ++ GetMachineName))))
      end
  | None => ret None
  end end.

(** DeleteHost deletes the host VM. *)
Definition DeleteHost : M W (option error) :=
  r <- api_Load GetMachineName ;;
  match r with
  | inr err => ret (Some (Wrap err "load"))
  | inl host =>
  tryPowerOff host ;;
  console_OutStyle "deleting-host" "Deleting %q from %s ..."
    [AStr GetMachineName; AStr (host.DriverName host)] ;;
  err <- Driver_Remove host ;;
  match err with
  | Some err => ret (Some (Wrap err "host remove"))
  | None =>
  err <- api_Remove GetMachineName ;;
  match err with
  | Some err => ret (Some (Wrap err "api remove"))
  | None => ret None
  end end end.

(** GetHostStatus gets the status of the host VM. *)
Definition GetHostStatus : M W (string + error) :=
  r <- api_Exists GetMachineName ;;
  match r with
  | inr err => ret (inr (Wrap err (GetMachineName ++ " exists")))
  | inl exists_ =>
  if negb exists_ then ret (inl (state.State_String state.None))
  else
  r <- api_Load GetMachineName ;;
  match r with
  | inr err => ret (inr (Wrap err "load"))
  | inl host =>
  st <- Driver_GetState host ;;
  match snd st with
  | Some err => ret (inr (Wrap err "state"))
  | None => ret (inl (state.State_String (fst st)))
  end end end.

(** *** getIPForInterface, GetVMHostIP *)

(** The loop of getIPForInterface: the first address that is an
    [*net.IPNet] and has a 4-byte form. *)
Fixpoint firstIPv4 (addrs : list Net.Addr) : option Net.IP :=
  match addrs with
  | [] => None
  | a :: rest =>
      match a with
      | Net.IPNet ip _ =>
          match Net.To4 ip with
          | Some ip4 => Some ip4
          | None => firstIPv4 rest
          end
      | _ => firstIPv4 rest
      end
  end.

Definition getIPForInterface (name : string) : M W (Net.IP + error) :=
  i <- net_InterfaceByName name ;;
  addrs <- Interface_Addrs (fst i) ;;
  match firstIPv4 (fst addrs) with
  | Some ip => ret (inl ip)
  | None => ret (inr (errorString ("Error finding IPV4 address for " ++ name)))
  end.

(** [re.FindStringSubmatch(s)[1]]: indexing the nil slice of a failed match
    panics. *)
Definition submatch1 (pre post s : string) : M W string :=
  match Regexp.FindStringSubmatch pre post s with
  | Some m =>
      match nth_error m 1 with
      | Some g => ret g
      | None => panic index_out_of_range
      end
  | None => panic index_out_of_range
  end.

(** GetVMHostIP gets the ip address to be used for mapping host -> VM and
    VM -> host. *)
Definition GetVMHostIP (host : host.Host) : M W (Net.IP + error) :=
  if host.DriverName host =? "kvm" then
    ret (inl (Net.ParseIP "192.168.42.1"))
  else if host.DriverName host =? "kvm2" then
    ret (inl (Net.ParseIP "192.168.39.1"))
  else if host.DriverName host =? "hyperv" then
    hypervVirtualSwitch <- submatch1 vswitch_pre vswitch_post (host.RawDriver host) ;;
    r <- getIPForInterface ("vEthernet (" ++ hypervVirtualSwitch ++ ")") ;;
    match r with
    | inr err =>
        ret (inr (Wrap err ("ip for interface (" ++ hypervVirtualSwitch ++ ")")))
    | inl ip => ret (inl ip)
    end
  else if host.DriverName host =? "virtualbox" then
    r <- exec_Output (VBoxManageCmd env)
           ["showvminfo"; host.Name host; "--machinereadable"] ;;
    match r with
    | inr err => ret (inr (Wrap err "vboxmanage"))
    | inl out =>
        iface <- submatch1 hostonly_pre hostonly_post out ;;
        r <- getIPForInterface iface ;;
        match r with
        | inr err => ret (inr (Wrap err "Error getting VM/Host IP address"))
        | inl ip => ret (inl ip)
        end
    end
  else if (host.DriverName host =? "xhyve") || (host.DriverName host =? "hyperkit") then
    ret (inl (Net.ParseIP "192.168.64.1"))
  else
    ret (inr (errorString
                "Error, attempted to get host ip address for unsupported driver")).

(** *** GetMountCleanupCommand, GetMountCommand *)

Definition GetMountCleanupCommand (path : string) : string :=
  "sudo umount " ++ path ++ ";".

Definition GetMountCommand (ip : Net.IP) (path port mountVersion : string)
  (uid gid msize : Z) : M W (string + error) :=
  t <- match Template.Parse mountTemplate with
       | Some t => ret t
       | None => panic "template: mountCommand: parse error"
       end ;;
  let data :=
    [("IP", Template.VString (Net.IP_String ip));
     ("Path", Template.VString path);
     ("Port", Template.VString port);
     ("Version", Template.VString mountVersion);
     ("UID", Template.VInt uid);
     ("GID", Template.VInt gid);
     ("Msize", Template.VInt msize)] in
  match Template.Execute t data with
  | inr err => ret (inr err)
  | inl buf => ret (inl buf)
  end.


End Cluster.

(** The three components of a run. *)
Definition outcome {W A} (r : Outcome A * W * list Event) : Outcome A := fst (fst r).
Definition world {W A} (r : Outcome A * W * list Event) : W := snd (fst r).
Definition trace {W A} (r : Outcome A * W * list Event) : list Event := snd r.

(** ** A store in memory

    One implementation of the collaborators, used to run the embedding on
    concrete inputs: the store is an association list, one machine has a
    power state, and any operation listed in [broken] fails. *)

Module Sim.

Inductive Op : Set :=
| OpExists | OpLoad | OpSave | OpNewHost | OpCreate | OpRemove
| OpGetState | OpStart | OpDriverRemove | OpStop | OpSSH | OpConfigureAuth
| OpDetectProvisioner | OpProvision | OpCacheISO | OpExec.

Definition Op_eqb (a b : Op) : bool :=
  match a, b with
  | OpExists, OpExists | OpLoad, OpLoad | OpSave, OpSave
  | OpNewHost, OpNewHost | OpCreate, OpCreate | OpRemove, OpRemove
  | OpGetState, OpGetState | OpStart, OpStart
  | OpDriverRemove, OpDriverRemove | OpStop, OpStop | OpSSH, OpSSH
  | OpConfigureAuth, OpConfigureAuth
  | OpDetectProvisioner, OpDetectProvisioner | OpProvision, OpProvision
  | OpCacheISO, OpCacheISO | OpExec, OpExec => true
  | _, _ => false
  end.

Record World : Type := mkWorld {
  store : list (string * host.Host);
  power : state.State;
  broken : list Op;
  ifaces : list (string * list Net.Addr);
  vboxinfo : string
}.

Definition fails (op : Op) (w : World) : bool := existsb (Op_eqb op) (broken w).

Definition failure (op : string) : error := errorString (op ++ " failed").

Definition set_store (w : World) (s : list (string * host.Host)) : World :=
  mkWorld s (power w) (broken w) (ifaces w) (vboxinfo w).
Definition set_power (w : World) (p : state.State) : World :=
  mkWorld (store w) p (broken w) (ifaces w) (vboxinfo w).

Fixpoint find {A} (k : string) (l : list (string * A)) : option A :=
  match l with
  | [] => None
  | (k', v) :: l' => if String.eqb k k' then Some v else find k l'
  end.

Fixpoint delete {A} (k : string) (l : list (string * A)) : list (string * A) :=
  match l with
  | [] => []
  | (k', v) :: l' => if String.eqb k k' then delete k l' else (k', v) :: delete k l'
  end.

Definition put {A} (k : string) (v : A) (l : list (string * A)) : list (string * A) :=
  (k, v) :: delete k l.

(** A bare operation: it fails when broken and has no other effect. *)
Definition bare (op : Op) (name : string) (w : World) : option error * World :=
  (if fails op w then Some (failure name) else None, w).

Definition registered : list string :=
  ["virtualbox"; "kvm2"; "hyperkit"; "hyperv"; "none"].

Definition machine : string := "minikube".

Definition defaultOptions : host.Options :=
  host.mkOptions (engine.mkOptions [] [] [] []) (swarm.mkOptions false)
    (auth.mkOptions EmptyString EmptyString).

Definition render (o : registry.DriverObject) : string :=
  Str.concat_all (map (fun kv => fst kv ++ "=" ++ snd kv ++ ";") o).

Definition api : API World :=
  {| Exists := fun name w =>
       if fails OpExists w then (inr (failure "exists"), w)
       else (inl (match find name (store w) with Some _ => true | None => false end), w);
     Load := fun name w =>
       if fails OpLoad w then (inr (failure "load"), w)
       else match find name (store w) with
            | Some h => (inl h, w)
            | None => (inr (errorString "machine does not exist"), w)
            end;
     Save := fun h w =>
       if fails OpSave w then (Some (failure "save"), w)
       else (None, set_store w (put (host.Name h) h (store w)));
     NewHost := fun kind raw w =>
       if fails OpNewHost w then (inr (failure "new host"), w)
       else (inl (host.mkHost machine kind (drivers.mkDriver kind) defaultOptions raw), w);
     Create := fun h w =>
       if fails OpCreate w then (Some (failure "create"), w)
       else (None, set_power (set_store w (put (host.Name h) h (store w))) state.Running);
     Remove := fun name w =>
       if fails OpRemove w then (Some (failure "remove"), w)
       else (None, set_store w (delete name (store w)));
     GetState := fun h w =>
       if fails OpGetState w then ((state.None, Some (failure "state")), w)
       else ((power w, None), w);
     Start := fun h w =>
       if fails OpStart w then (Some (failure "start"), w)
       else (None, set_power w state.Running);
     DriverRemove := fun h w =>
       if fails OpDriverRemove w then (Some (failure "driver remove"), w)
       else (None, set_power w state.None);
     Stop := fun h w =>
       if fails OpStop w then (Some (failure "stop"), w)
       else if state.eqb (power w) state.Stopped
       then (Some (ErrHostAlreadyInState (host.Name h) state.Stopped), w)
       else (None, set_power w state.Stopped);
     RunSSHCommand := fun h command w =>
       if fails OpSSH w then ((EmptyString, Some (failure "ssh")), w)
       else if command =? "sudo poweroff"
       then ((EmptyString, Some (errorString "connection closed")),
             set_power w state.Stopped)
       else ((EmptyString, None), w);
     ConfigureAuth := fun h => bare OpConfigureAuth "configure auth";
     DetectProvisioner := fun d w =>
       if fails OpDetectProvisioner w then (inr (failure "detect"), w)
       else (inl (provision.mkProvisioner "buildroot"), w);
     Provision := fun p s a e => bare OpProvision "provision";
     CacheMinikubeISOFromURL := fun url => bare OpCacheISO "download";
     registry_Driver := fun kind =>
       if existsb (String.eqb kind) registered
       then inl (registry.mkDriverDef
                   (fun c => [("Driver", cfg.VMDriver c); ("ISO", cfg.MinikubeISO c)]))
       else inr ErrDriverNotFound;
     json_Marshal := fun o => inl (render o);
     InterfaceByName := fun name w =>
       match find name (ifaces w) with
       | Some _ => ((Some (Net.mkInterface 1 name), None), w)
       | None => ((None, Some (errorString "no such network interface")), w)
       end;
     Addrs := fun i w =>
       match find (Net.IfName i) (ifaces w) with
       | Some l => ((l, None), w)
       | None => (([], Some (errorString "no such network interface")), w)
       end;
     CommandOutput := fun cmd args w =>
       if fails OpExec w then (inr (failure "exec"), w)
       else (inl (vboxinfo w), w) |}.

Definition env : Env :=
  {| MachineName := machine;
     ShowDriverDeprecationNotification := true;
     Minipath := "/home/user/.minikube";
     DefaultMachineName := "minikube";
     DefaultServiceCIDR := "10.96.0.0/12";
     VBoxManageCmd := "VBoxManage" |}.

(** No machine yet, nothing broken. *)
Definition fresh : World := mkWorld [] state.None [] [] EmptyString.

Definition config (driver : string) (insecure env_ : list string) : cfg.MachineConfig :=
  cfg.mkMachineConfig "https://storage.googleapis.com/minikube/iso/minikube.iso"
    2048 2 20000 driver env_ insecure [] [].

(** A persisted machine of the given driver kind. *)
Definition machine_of (driver raw : string) : host.Host :=
  host.mkHost machine driver (drivers.mkDriver driver)
    (host.mkOptions (engine.mkOptions [] [] ["10.96.0.0/12"] [])
       (swarm.mkOptions false)
       (auth.mkOptions "/home/user/.minikube" "/home/user/.minikube"))
    raw.

(** A world holding one persisted machine in power state [p]. *)
Definition holding (h : host.Host) (p : state.State) (b : list Op) : World :=
  mkWorld [(host.Name h, h)] p b [] EmptyString.


End Sim.

(** ** Concrete worlds *)

Module Examples.

Import Sim.

Definition vbox : host.Host := machine_of "virtualbox" "{}".
Definition running : World := holding vbox state.Running [].
Definition stopped : World := holding vbox state.Stopped [].



(** A Hyper-V switch with an IPv6 unicast address and an IPv4 anycast
    address. *)
Definition fe80_1 : Net.IP :=
  [xfe; x80; x00; x00; x00; x00; x00; x00; x00; x00; x00; x00; x00; x00; x00; x01].
Definition anycast : Net.Addr := Net.IPAddr (Net.ParseIP "10.0.0.1") EmptyString.
Definition switch_addrs : list Net.Addr :=
  [Net.IPNet fe80_1 [xff; xff; xff; xff; xff; xff; xff; xff;
                     x00; x00; x00; x00; x00; x00; x00; x00];
   anycast].
Definition windows : World :=
  mkWorld [] state.None [] [("vEthernet (minikube)", switch_addrs)] EmptyString.

(** A host-only interface: an IPv6 network address, then two IPv4 ones. *)
Definition vboxnet0_addrs : list Net.Addr :=
  [Net.IPNet fe80_1 [xff; xff; xff; xff; xff; xff; xff; xff;
                     x00; x00; x00; x00; x00; x00; x00; x00];
   Net.IPNet (Net.ParseIP "192.168.99.1") [xff; xff; xff; x00];
   Net.IPNet [x0a; x00; x00; x01] [xff; x00; x00; x00]].
Definition linux : World :=
  mkWorld [] state.None [] [("vboxnet0", vboxnet0_addrs)] EmptyString.

(** The address of an entry, whatever its dynamic type. *)
Definition addr_ip (a : Net.Addr) : Net.IP :=
  match a with
  | Net.IPNet ip _ => ip
  | Net.IPAddr ip _ => ip
  end.

(** The claim's reading of "has a valid IPv4 representation". *)
Definition has_IPv4 (a : Net.Addr) : bool :=
  match Net.To4 (addr_ip a) with Some _ => true | None => false end.

End Examples.


(** ** Vocabulary of the properties *)

(** The run [r] after the events [t]. *)
Definition prepend {W A} (t : list Event) (r : Outcome A * W * list Event)
  : Outcome A * W * list Event :=
  match r with
  | (o, w, t2) => (o, w, (t ++ t2)%list)
  end.

(** The script of the specification's mount example. *)
Definition mount_script : string :=
  Str.nl ++ "sudo mkdir -p /mnt/x || true;" ++ Str.nl ++
  "sudo mount -t 9p -o trans=tcp,port=5000,dfltuid=1000,dfltgid=1000,version=9p2000.L,msize=262144 10.0.0.2 /mnt/x;"
  ++ Str.nl ++ "sudo chmod 775 /mnt/x || true;".

Section Vocabulary.

Context {W : Type}.
Variable api : API W.
Variable env : Env.

(** The line DeleteHost prints between the power-off and the removal. *)
Definition deleting_notice (h : host.Host) : Event :=
  EvConsoleOutStyle "deleting-host" "Deleting %q from %s ..."
    [AStr (GetMachineName env); AStr (host.DriverName h)].

(** The driver kinds GetVMHostIP has a case for. *)
Definition recognized (kind : string) : bool :=
  existsb (String.eqb kind)
    ["kvm"; "kvm2"; "hyperv"; "virtualbox"; "xhyve"; "hyperkit"].

(** An [*net.IPNet] whose address has a 4-byte form. *)
Definition is_IPNet_v4 (a : Net.Addr) : bool :=
  match a with
  | Net.IPNet ip _ =>
      match Net.To4 ip with Some _ => true | None => false end
  | Net.IPAddr _ _ => false
  end.

(** The addresses the network API returns for an interface name: none when
    the interface is not found. *)
Definition enumerated (ifname : string) (w : W) : list Net.Addr :=
  match InterfaceByName api ifname w with
  | ((Some i, _), w1) => fst (fst (Addrs api i w1))
  | ((None, _), _) => []
  end.

(** The configuration with another driver kind requested. *)
Definition with_driver (config : cfg.MachineConfig) (kind : string) : cfg.MachineConfig :=
  cfg.mkMachineConfig (cfg.MinikubeISO config) (cfg.Memory config)
    (cfg.CPUs config) (cfg.DiskSize config) kind (cfg.DockerEnv config)
    (cfg.InsecureRegistry config) (cfg.RegistryMirror config)
    (cfg.DockerOpt config).

(** The driver object an event is addressed to. *)
Definition event_driver (e : Event) : option drivers.Driver :=
  match e with
  | EvSave h | EvCreate h | EvGetState h | EvStart h | EvDriverRemove h
  | EvStop h | EvRunSSHCommand h _ | EvConfigureAuth h => Some (host.Driver h)
  | EvDetectProvisioner d => Some d
  | _ => None
  end.

Definition on_driver (d : drivers.Driver) (e : Event) : Prop :=
  forall d', event_driver e = Some d' -> d' = d.

(** The events between the load and the state query; the notice only
    prints, so its events are read off a run on the one-point world. *)
Definition notice (config : cfg.MachineConfig) (h : host.Host) : list Event :=
  if negb (drivers.DriverName (host.Driver h) =? cfg.VMDriver config)
  then trace (driverMismatchNotice env config h tt)
  else if GetMachineName env =? DefaultMachineName env
  then [EvConsoleOutStyle "tip"
          "Tip: To create a new cluster, use 'minikube start -p <new name>' or use 'minikube delete' to delete this one."
          []]
  else [].




(** What preCreateHost prints. *)
Definition deprecation_warning (config : cfg.MachineConfig) : list Event :=
  if ShowDriverDeprecationNotification env then
    if cfg.VMDriver config =? "kvm" then [EvConsoleWarning kvmDeprecation []]
    else if cfg.VMDriver config =? "xhyve" then [EvConsoleWarning xhyveDeprecation []]
    else if cfg.VMDriver config =? "vmwarefusion"
         then [EvConsoleWarning vmwarefusionDeprecation []]
    else []
  else [].

(** The progress line of createHost. *)
Definition creating (config : cfg.MachineConfig) : Event :=
  EvConsoleOutStyle "starting-vm"
    "Creating %s VM (CPUs=%d, Memory=%dMB, Disk=%dMB) ..."
    [AStr (cfg.VMDriver config); AInt (cfg.CPUs config);
     AInt (cfg.Memory config); AInt (cfg.DiskSize config)].

End Vocabulary.


(** * The rest of cluster.go

    The remaining functions of the file: CheckIfHostExistsAndLoad and
    MountHost here, the functions that need further collaborators
    (GetHostDriverIP, GetHostDockerEnv, CreateSSHShell,
    EnsureMinikubeRunningOrExit) below. *)

Section Rest.

Context {W : Type}.
Variable api : API W.
Variable env : Env.

Local Open Scope go_scope.

Definition CheckIfHostExistsAndLoad (machineName : string)
  : M W (host.Host + error) :=
  r <- api_Exists api machineName ;;
  match r with
  | inr err =>
      ret (inr (Wrap err ("Error checking that machine exists: " ++ machineName)))
  | inl exists_ =>
  if negb exists_ then
    ret (inr (errorString
                ("Machine does not exist for api.Exists(" ++ machineName ++ ")")))
  else
  r <- api_Load api machineName ;;
  match r with
  | inr err => ret (inr (Wrap err ("Error loading store for: " ++ machineName)))
  | inl host => ret (inl host)
  end end.

(** MountHost runs the mount command from the 9p client on the VM to the 9p
    server on the host.  The [ip] argument is compared with nil, so it is an
    option here: [None] is the nil slice. *)
Definition MountHost (ip : option Net.IP) (path port mountVersion : string)
  (uid gid msize : Z) : M W (option error) :=
  r <- CheckIfHostExistsAndLoad (GetMachineName env) ;;
  match r with
  | inr err => ret (Some (Wrap err "Error checking that api exists and loading it"))
  | inl host =>
  r <- match ip with
       | None =>
           r <- GetVMHostIP api env host ;;
           match r with
           | inr err =>
               ret (inr (Wrap err
                           "Error getting the host IP address to use from within the VM"))
           | inl ip => ret (inl ip)
           end
       | Some ip => ret (inl ip)
       end ;;
  match r with
  | inr err => ret (Some err)
  | inl ip =>
  Host_RunSSHCommand api host (GetMountCleanupCommand path) ;;
  r <- GetMountCommand ip path port mountVersion uid gid msize ;;
  match r with
  | inr err => ret (Some (Wrap err "mount command"))
  | inl mountCmd =>
  r <- Host_RunSSHCommand api host mountCmd ;;
  match snd r with
  | Some err => ret (Some (Wrap err "running mount"))
  | None => ret None
  end end end end.

End Rest.

(** ** Functions with further collaborators

    GetHostDriverIP, GetHostDockerEnv, CreateSSHShell and
    EnsureMinikubeRunningOrExit call three more operations ([GetIP] of the
    driver, [CreateSSHClient] of the host, [Shell] of the client) and
    [exit.WithCode].  They run in a monad [M2] whose events and exits extend
    those of [M]; a computation of [M] is carried over by [lift]. *)

Module ssh.
Record Client : Type := mkClient { ClientName : string }.
End ssh.

(** Modelled from the spec: [MakeMiniPath] and [Unavailable] belong to the
    repository's constants and exit packages and are taken as parameters,
    next to the library functions [net.ParseIP] (nil is []),
    [net.JoinHostPort] and the [%q] verb of fmt. *)
Record Further (W : Type) : Type := mkFurther {
  GetIP : host.Host -> W -> (string + error) * W;
  CreateSSHClient : host.Host -> W -> (ssh.Client + error) * W;
  Client_Shell : ssh.Client -> list string -> W -> option error * W;
  net_ParseIP : string -> Net.IP;
  net_JoinHostPort : string -> string -> string;
  fmt_q : string -> string;
  MakeMiniPath : string -> string;
  Unavailable : Z
}.

Arguments GetIP {W}.
Arguments CreateSSHClient {W}.
Arguments Client_Shell {W}.
Arguments net_ParseIP {W}.
Arguments net_JoinHostPort {W}.
Arguments fmt_q {W}.
Arguments MakeMiniPath {W}.
Arguments Unavailable {W}.

Inductive Event2 : Type :=
| Ev (e : Event)
| EvGetIP (h : host.Host)
| EvCreateSSHClient (h : host.Host)
| EvShell (c : ssh.Client) (args : list string).

Inductive ExitCall2 : Type :=
| exit_of (x : ExitCall)
| exit_WithCode (code : Z) (msg : string).

Inductive Outcome2 (A : Type) : Type :=
| Ret2 (a : A)
| Exited2 (x : ExitCall2)
| Panicked2 (msg : string).

Arguments Ret2 {A}.
Arguments Exited2 {A}.
Arguments Panicked2 {A}.

Definition M2 (W A : Type) : Type := W -> Outcome2 A * W * list Event2.

Definition ret2 {W A} (a : A) : M2 W A := fun w => (Ret2 a, w, []).

Definition bind2 {W A B} (m : M2 W A) (f : A -> M2 W B) : M2 W B :=
  fun w =>
    match m w with
    | (Ret2 a, w1, t1) =>
        match f a w1 with
        | (o, w2, t2) => (o, w2, (t1 ++ t2)%list)
        end
    | (Exited2 x, w1, t1) => (Exited2 x, w1, t1)
    | (Panicked2 msg, w1, t1) => (Panicked2 msg, w1, t1)
    end.

Definition call2 {W A} (ev : Event2) (f : W -> A * W) : M2 W A :=
  fun w => match f w with (a, w1) => (Ret2 a, w1, [ev]) end.

Definition exit2 {W A} (x : ExitCall2) : M2 W A := fun w => (Exited2 x, w, []).

(** A computation of [M], with its events and its exit carried over. *)
Definition lift {W A} (m : M W A) : M2 W A :=
  fun w =>
    match m w with
    | (Ret a, w1, t) => (Ret2 a, w1, map Ev t)
    | (Exited x, w1, t) => (Exited2 (exit_of x), w1, map Ev t)
    | (Panicked msg, w1, t) => (Panicked2 msg, w1, map Ev t)
    end.

Declare Scope go2_scope.
Delimit Scope go2_scope with go2.
Notation "x <- c1 ;; c2" := (bind2 c1 (fun x => c2))
  (at level 100, c1 at next level, right associativity) : go2_scope.
Notation "c1 ;; c2" := (bind2 c1 (fun _ => c2))
  (at level 100, right associativity) : go2_scope.

Section Further.

Context {W : Type}.
Variable api : API W.
Variable more : Further W.
Variable env : Env.

Local Open Scope go2_scope.

Definition Driver_GetIP (h : host.Host) : M2 W (string + error) :=
  call2 (EvGetIP h) (GetIP more h).
Definition Host_CreateSSHClient (h : host.Host) : M2 W (ssh.Client + error) :=
  call2 (EvCreateSSHClient h) (CreateSSHClient more h).
Definition client_Shell (c : ssh.Client) (args : list string) : M2 W (option error) :=
  call2 (EvShell c args) (Client_Shell more c args).

(** GetHostDriverIP gets the ip address of the current minikube cluster. *)
Definition GetHostDriverIP (machineName : string) : M2 W (Net.IP + error) :=
  r <- lift (CheckIfHostExistsAndLoad api machineName) ;;
  match r with
  | inr err => ret2 (inr err)
  | inl host =>
  r <- Driver_GetIP host ;;
  match r with
  | inr err => ret2 (inr (Wrap err "getting IP"))
  | inl ipStr =>
  let ip := net_ParseIP more ipStr in
  match ip with
  | [] => ret2 (inr (errorString ("parsing IP: " ++ ipStr)))
  | _ => ret2 (inl ip)
  end end end.

(** GetHostDockerEnv gets the necessary docker env variables to allow the
    use of docker through minikube's vm.  The map is the list of its
    entries. *)
Definition GetHostDockerEnv : M2 W (list (string * string) + error) :=
  r <- lift (CheckIfHostExistsAndLoad api (GetMachineName env)) ;;
  match r with
  | inr err => ret2 (inr (Wrap err "Error checking that api exists and loading it"))
  | inl host =>
  r <- Driver_GetIP host ;;
  match r with
  | inr err => ret2 (inr (Wrap err "Error getting ip from host"))
  | inl ip =>
  let tcpPrefix := "tcp://" in
  let port := "2376" in
  let envMap :=
    [("DOCKER_TLS_VERIFY", "1");
     ("DOCKER_HOST", tcpPrefix ++ net_JoinHostPort more ip port);
     ("DOCKER_CERT_PATH", MakeMiniPath more "certs")] in
  ret2 (inl envMap)
  end end.

Definition CreateSSHShell (args : list string) : M2 W (option error) :=
  let machineName := GetMachineName env in
  r <- lift (CheckIfHostExistsAndLoad api machineName) ;;
  match r with
  | inr err => ret2 (Some (Wrap err "host exists and load"))
  | inl host =>
  st <- lift (Driver_GetState api host) ;;
  match snd st with
  | Some err => ret2 (Some (Wrap err "state"))
  | None =>
  if negb (state.eqb (fst st) state.Running) then
    ret2 (Some (errorString (fmt_q more machineName ++ " is not running")))
  else
  r <- Host_CreateSSHClient host ;;
  match r with
  | inr err => ret2 (Some (Wrap err "Creating ssh client"))
  | inl client => client_Shell client args
  end end end.

(** EnsureMinikubeRunningOrExit checks that minikube has a status available
    and that the status is `Running`, otherwise it will exit. *)
Definition EnsureMinikubeRunningOrExit (exitStatus : Z) : M2 W unit :=
  r <- lift (GetHostStatus api env) ;;
  (match r with
   | inr err => exit2 (exit_of (exit_WithError "Error getting machine status" err))
   | inl _ => ret2 tt
   end) ;;
  match r with
  | inl s =>
      if negb (s =? state.State_String state.Running) then
        exit2 (exit_WithCode (Unavailable more)
                 "minikube is not running, so the service cannot be accessed")
      else ret2 tt
  | inr _ => ret2 tt
  end.

End Further.

(** ** Concrete worlds for the rest of the file *)

Module Cases.

Import Sim.

(** A Hyper-V machine attached to the switch "minikube", on a host where the
    switch has an IPv4 network address. *)
Definition hyperv_raw : string :=
  "{" ++ vswitch_pre ++ "minikube" ++ vswitch_post ++ "}".
Definition hv : host.Host := machine_of "hyperv" hyperv_raw.
Definition switch : World :=
  mkWorld [] state.None [] [("vEthernet (minikube)", Examples.vboxnet0_addrs)]
    EmptyString.

(** VirtualBox reporting vboxnet0 as the second, host-only adapter. *)
Definition adapter_info : string :=
  "nic2=" ++ Str.dquote ++ "hostonly" ++ Str.dquote ++ Str.nl ++
  hostonly_pre ++ "vboxnet0" ++ hostonly_post ++ Str.nl.
Definition with_adapter : World :=
  mkWorld [] state.None [] [("vboxnet0", Examples.vboxnet0_addrs)] adapter_info.

(** A registry that fails for a reason of its own. *)
Definition registry_down : API World :=
  {| Exists := Exists api;
     Load := Load api;
     Save := Save api;
     NewHost := NewHost api;
     Create := Create api;
     Remove := Remove api;
     GetState := GetState api;
     Start := Start api;
     DriverRemove := DriverRemove api;
     Stop := Stop api;
     RunSSHCommand := RunSSHCommand api;
     ConfigureAuth := ConfigureAuth api;
     DetectProvisioner := DetectProvisioner api;
     Provision := Provision api;
     CacheMinikubeISOFromURL := CacheMinikubeISOFromURL api;
     registry_Driver := fun kind => inr (failure "registry");
     json_Marshal := json_Marshal api;
     InterfaceByName := InterfaceByName api;
     Addrs := Addrs api;
     CommandOutput := CommandOutput api |}.

(** The further collaborators: a driver that gives [text] as its address,
    a client named after the machine, a shell that succeeds. *)
Definition more (text : string) : Further World :=
  {| GetIP := fun h w => (inl text, w);
     CreateSSHClient := fun h w =>
       if fails OpSSH w then (inr (failure "ssh client"), w)
       else (inl (ssh.mkClient (host.Name h)), w);
     Client_Shell := fun c args w => (None, w);
     net_ParseIP := Net.ParseIP;
     net_JoinHostPort := fun h p => h ++ ":" ++ p;
     fmt_q := fun s => Str.dquote ++ s ++ Str.dquote;
     MakeMiniPath := fun s => "/home/user/.minikube/" ++ s;
     Unavailable := 69 |}.

End Cases.

(** ** Vocabulary of the further properties *)

(** The text GetMountCommand renders: the template with each field passed
    through the HTML escaper. *)
Definition mount_text (ip : Net.IP) (path port mountVersion : string)
  (uid gid msize : Z) : string :=
  Str.nl ++
  "sudo mkdir -p " ++ Template.htmlEscape path ++ " || true;" ++ Str.nl ++
  "sudo mount -t 9p -o trans=tcp,port=" ++ Template.htmlEscape port ++
  ",dfltuid=" ++ Template.htmlEscape (Str.itoa uid) ++
  ",dfltgid=" ++ Template.htmlEscape (Str.itoa gid) ++
  ",version=" ++ Template.htmlEscape mountVersion ++
  ",msize=" ++ Template.htmlEscape (Str.itoa msize) ++
  " " ++ Template.htmlEscape (Net.IP_String ip) ++
  " " ++ Template.htmlEscape path ++ ";" ++ Str.nl ++
  "sudo chmod 775 " ++ Template.htmlEscape path ++ " || true;".

(** A character the HTML escaper leaves as it is. *)
Definition plain_char (c : ascii) : bool :=
  negb (existsb (Nat.eqb (nat_of_ascii c)) [0; 34; 38; 39; 43; 60; 62]).

Fixpoint plain (s : string) : bool :=
  match s with
  | EmptyString => true
  | String c s' => plain_char c && plain s'
  end.


(** No character of [g] is [q] or a newline. *)
Fixpoint free_of (q : ascii) (g : string) : bool :=
  match g with
  | EmptyString => true
  | String c g' =>
      negb (Ascii.eqb c q) && negb (Regexp.is_newline c) && free_of q g'
  end.

Section Resolution.

Context {W : Type}.
Variable api : API W.

(** What getIPForInterface returns for an interface name. *)
Definition resolved (ifname : string) (w : W) : Net.IP + error :=
  match firstIPv4 (enumerated api ifname w) with
  | Some ip => inl ip
  | None => inr (errorString ("Error finding IPV4 address for " ++ ifname))
  end.

End Resolution.

(** Passing on an address, or wrapping the error with [msg]. *)
Definition wrapped (msg : string) (r : Net.IP + error) : Net.IP + error :=
  match r with
  | inl ip => inl ip
  | inr err => inr (Wrap err msg)
  end.

(** The arguments of the VirtualBox management tool for a machine. *)
Definition showvminfo (h : host.Host) : list string :=
  ["showvminfo"; host.Name h; "--machinereadable"].

(** The driver kinds preCreateHost has a deprecation notice for. *)
Definition deprecated (kind : string) : bool :=
  existsb (String.eqb kind) ["kvm"; "xhyve"; "vmwarefusion"].

(** Calls that take a machine down or run a command in it. *)
Definition is_teardown (e : Event) : bool :=
  match e with
  | EvRemove _ | EvDriverRemove _ | EvStop _ | EvRunSSHCommand _ _ => true
  | _ => false
  end.

Definition is_auth (e : Event) : bool :=
  match e with EvConfigureAuth _ => true | _ => false end.

Definition is_provisioning (e : Event) : bool :=
  match e with EvDetectProvisioner _ | EvProvision _ _ _ _ => true | _ => false end.

(** An error made by [errors.Wrap], as opposed to a retriable one. *)
Definition is_wrapped (err : error) : Prop := exists e msg, err = Wrap e msg.

(** The log lines at the head of StartHost. *)
Definition skipping : Event :=
  EvGlog "INFO" "Skipping create...Using existing machine configuration" [].

Definition provisioning (config : cfg.MachineConfig) : list Event :=
  [EvGlog "INFO" "Machine does not exist... provisioning new machine" [];
   EvGlog "INFO" "Provisioning machine with config: %+v" [AConfig config]].

(** The store's Remove. *)
Definition is_remove (e : Event) : bool :=
  match e with EvRemove _ => true | _ => false end.

(** No command over SSH but the power-off. *)
Definition only_poweroff (e : Event) : bool :=
  match e with
  | EvRunSSHCommand _ command => command =? "sudo poweroff"
  | _ => true
  end.

(** The parts of a run in [M2]. *)
Definition outcome2 {W A} (r : Outcome2 A * W * list Event2) : Outcome2 A := fst (fst r).
Definition world2 {W A} (r : Outcome2 A * W * list Event2) : W := snd (fst r).
Definition trace2 {W A} (r : Outcome2 A * W * list Event2) : list Event2 := snd r.

(** The outcome of [M] seen in [M2]. *)
Definition lifted {A} (o : Outcome A) : Outcome2 A :=
  match o with
  | Ret a => Ret2 a
  | Exited x => Exited2 (exit_of x)
  | Panicked msg => Panicked2 msg
  end.

Definition not_running (more_q : string -> string) (machineName : string) : error :=
  errorString (more_q machineName ++ " is not running").

Definition docker_env {W} (more : Further W) (ip : string) : list (string * string) :=
  [("DOCKER_TLS_VERIFY", "1");
   ("DOCKER_HOST", "tcp://" ++ net_JoinHostPort more ip "2376");
   ("DOCKER_CERT_PATH", MakeMiniPath more "certs")].


(** * Properties *)

(** ** Running a computation *)

Lemma outcome_prepend {W A} (t : list Event) (r : Outcome A * W * list Event) :
  outcome (prepend t r) = outcome r.
Proof. destruct r as [[o w] t2]. reflexivity. Qed.

Lemma world_prepend {W A} (t : list Event) (r : Outcome A * W * list Event) :
  world (prepend t r) = world r.
Proof. destruct r as [[o w] t2]. reflexivity. Qed.

Lemma trace_prepend {W A} (t : list Event) (r : Outcome A * W * list Event) :
  trace (prepend t r) = (t ++ trace r)%list.
Proof. destruct r as [[o w] t2]. reflexivity. Qed.

Lemma bind_ret {W A B} (a : A) (k : A -> M W B) (w : W) :
  bind (ret a) k w = k a w.
Proof.
  unfold bind, ret. destruct (k a w) as [[o w2] t2]. reflexivity.
Qed.

Lemma bind_call {W A B} (ev : Event) (f : W -> A * W) (k : A -> M W B) (w : W) :
  bind (call ev f) k w = prepend [ev] (k (fst (f w)) (snd (f w))).
Proof.
  unfold bind, call, prepend. destruct (f w) as [a w1]. reflexivity.
Qed.

Lemma bind_emit {W B} (ev : Event) (k : unit -> M W B) (w : W) :
  bind (emit ev) k w = prepend [ev] (k tt w).
Proof. reflexivity. Qed.

Lemma bind_run {W A B} (m : M W A) (k : A -> M W B) (w : W) (a : A) :
  outcome (m w) = Ret a ->
  bind m k w = prepend (trace (m w)) (k a (world (m w))).
Proof.
  unfold bind, outcome, world, trace, prepend.
  destruct (m w) as [[o w1] t1]. simpl. intros ->. reflexivity.
Qed.

Lemma bind_assoc {W A B C} (m : M W A) (f : A -> M W B) (g : B -> M W C) (w : W) :
  bind (bind m f) g w = bind m (fun x => bind (f x) g) w.
Proof.
  unfold bind. destruct (m w) as [[[a|x|msg] w1] t1]; try reflexivity.
  destruct (f a w1) as [[[b|x|msg] w2] t2]; try reflexivity.
  destruct (g b w2) as [[o w3] t3]. rewrite app_assoc. reflexivity.
Qed.

Lemma bind_exit {W A B} (x : ExitCall) (k : A -> M W B) (w : W) :
  bind (exit x) k w = (Exited x, w, []).
Proof. reflexivity. Qed.

Lemma bind_panic {W A B} (msg : string) (k : A -> M W B) (w : W) :
  bind (panic msg) k w = (Panicked msg, w, []).
Proof. reflexivity. Qed.

Lemma call_run {W A} (ev : Event) (f : W -> A * W) (w : W) :
  call ev f w = (Ret (fst (f w)), snd (f w), [ev]).
Proof. unfold call. destruct (f w). reflexivity. Qed.

Lemma effects_app (t1 t2 : list Event) :
  effects (t1 ++ t2) = (effects t1 ++ effects t2)%list.
Proof. unfold effects. apply filter_app. Qed.

Lemma count_app (p : Event -> bool) (t1 t2 : list Event) :
  count p (t1 ++ t2) = count p t1 + count p t2.
Proof. unfold count. rewrite filter_app, length_app. reflexivity. Qed.

Ltac break_match :=
  match goal with
  | |- context [match ?x with _ => _ end] => destruct x eqn:?
  end.

(** Unfolds the wrappers around the collaborators. *)
Ltac unfold_calls :=
  unfold api_Exists, api_Load, api_Save, api_NewHost, api_Create, api_Remove,
    Driver_GetState, Driver_Start, Driver_Remove, Host_Stop,
    Host_RunSSHCommand, Host_ConfigureAuth, provision_DetectProvisioner,
    Provisioner_Provision, Downloader_CacheMinikubeISOFromURL,
    net_InterfaceByName, exec_Output, time_Sleep, console_Out,
    console_Warning, console_OutStyle, glog_Info, glog_Warning,
    GetMachineName in *.

Ltac run_step :=
  match goal with
  | |- context [bind (bind ?m ?f) ?g ?w] => rewrite (bind_assoc m f g w)
  | |- context [bind (ret ?a) ?k ?w] => rewrite (bind_ret a k w)
  | |- context [bind (call ?ev ?f) ?k ?w] => rewrite (bind_call ev f k w)
  | |- context [bind (emit ?ev) ?k ?w] => rewrite (bind_emit ev k w)
  | |- context [bind (exit ?x) ?k ?w] => rewrite (bind_exit x k w)
  | |- context [bind (panic ?x) ?k ?w] => rewrite (bind_panic x k w)
  | |- context [call ?ev ?f ?w] => rewrite (call_run ev f w)
  | |- context [outcome (prepend ?t ?r)] => rewrite (outcome_prepend t r)
  | |- context [world (prepend ?t ?r)] => rewrite (world_prepend t r)
  | |- context [trace (prepend ?t ?r)] => rewrite (trace_prepend t r)
  end.

(** Runs a computation symbolically as far as the goal determines it. *)
Ltac run :=
  repeat first
    [ run_step
    | progress cbn [prepend outcome world trace fst snd ret exit panic emit
                    negb andb orb app state.eqb] ].

(** Splits the result of a call on a collaborator. *)
Ltac split_call :=
  match goal with
  | |- context [fst ?c] => destruct c as [? ?] eqn:?
  | |- context [snd ?c] => destruct c as [? ?] eqn:?
  end.

(** Follows every path of a computation. *)
Ltac walk := run; repeat (first [split_call | break_match]; run).

(** ** The mount command *)

(** C8.  For ip 10.0.0.2, path /mnt/x, port 5000, version 9p2000.L, uid and
    gid 1000 and msize 262144, GetMountCommand returns, with no error and no
    effect, a script that holds one mkdir (of /mnt/x), one [mount -t 9p],
    whose options are
    [trans=tcp,port=5000,dfltuid=1000,dfltgid=1000,version=9p2000.L,msize=262144 10.0.0.2 /mnt/x],
    and one [chmod 775], of /mnt/x; GetMountCleanupCommand of /mnt/x is
    exactly [sudo umount /mnt/x;]. *)
Theorem GetMountCommand_shape {W : Type} (w : W) :
  GetMountCommand (Net.ParseIP "10.0.0.2") "/mnt/x" "5000" "9p2000.L"
    1000 1000 262144 w = (Ret (inl mount_script), w, []) /\
  GetMountCommand [x0a; x00; x00; x02] "/mnt/x" "5000" "9p2000.L"
    1000 1000 262144 w = (Ret (inl mount_script), w, []) /\
  Str.occurrences "mkdir" mount_script = 1 /\
  Str.occurrences "mkdir -p /mnt/x " mount_script = 1 /\
  Str.occurrences "mount -t 9p" mount_script = 1 /\
  Str.occurrences
    "mount -t 9p -o trans=tcp,port=5000,dfltuid=1000,dfltgid=1000,version=9p2000.L,msize=262144 10.0.0.2 /mnt/x;"
    mount_script = 1 /\
  Str.occurrences
    "trans=tcp,port=5000,dfltuid=1000,dfltgid=1000,version=9p2000.L,msize=262144 10.0.0.2 /mnt/x"
    mount_script = 1 /\
  Str.occurrences "chmod 775" mount_script = 1 /\
  Str.occurrences "chmod 775 /mnt/x " mount_script = 1 /\
  GetMountCleanupCommand "/mnt/x" = "sudo umount /mnt/x;".
Proof.
  repeat split; vm_compute; reflexivity.
Qed.

Section Lifecycle.

Context {W : Type}.
Variable api : API W.
Variable env : Env.

Local Abbreviation name := (GetMachineName env).

(** ** GetHostStatus *)

(** C6.  When the store reports no record for the machine name,
    GetHostStatus returns the text of the None state and no error, after the
    existence check alone; when a record exists and loads, it returns the
    text of the state the driver reports in this very call. *)
Theorem GetHostStatus_absent_or_fresh (w : W) :
  (forall w1,
      Exists api name w = (inl false, w1) ->
      GetHostStatus api env w =
        (Ret (inl (state.State_String state.None)), w1, [EvExists name])) /\
  (forall w1 h w2 s w3,
      Exists api name w = (inl true, w1) ->
      Load api name w1 = (inl h, w2) ->
      GetState api h w2 = ((s, None), w3) ->
      GetHostStatus api env w =
        (Ret (inl (state.State_String s)), w3,
         [EvExists name; EvLoad name; EvGetState h])).
Proof.
  split.
  - intros w1 HE. unfold GetHostStatus. unfold_calls. run.
    rewrite HE. run. reflexivity.
  - intros w1 h w2 s w3 HE HL HS. unfold GetHostStatus. unfold_calls. run.
    rewrite HE. run. rewrite HL. run. rewrite HS. run. reflexivity.
Qed.

(** ** StopHost *)

(** C5.  When the record loads and the stop operation fails, StopHost
    returns no error if the failure is the already-in-state error for the
    Stopped state, and otherwise returns the failure wrapped ("Stop: <name>")
    in a retriable error. *)
Theorem StopHost_already_stopped_or_retriable (w w1 w2 : W) (h : host.Host) (err : error) :
  Load api name w = (inl h, w1) ->
  Stop api h w1 = (Some err, w2) ->
  ((exists n, err = ErrHostAlreadyInState n state.Stopped) ->
     outcome (StopHost api env w) = Ret None) /\
  ((forall n, err <> ErrHostAlreadyInState n state.Stopped) ->
     outcome (StopHost api env w) =
       Ret (Some (RetriableError (Wrap err ("Stop: " ++ name))))) /\
  world (StopHost api env w) = w2 /\
  effects (trace (StopHost api env w)) = [EvLoad name; EvStop h].
Proof.
  intros HL HS. unfold StopHost. unfold_calls. run.
  rewrite HL. run. rewrite HS. run.
  repeat split.
  - intros [n ->]. reflexivity.
  - intros Hne. destruct err as [m|c m| |n s|e]; try reflexivity.
    destruct s; try reflexivity. exfalso. apply (Hne n). reflexivity.
  - destruct err as [m|c m| |n s|e]; try reflexivity. destruct s; reflexivity.
  - destruct err as [m|c m| |n s|e]; try reflexivity. destruct s; reflexivity.
Qed.

(** ** DeleteHost *)

Lemma tryPowerOff_returns (h : host.Host) (w : W) :
  outcome (tryPowerOff api env h w) = Ret tt.
Proof.
  unfold tryPowerOff. unfold_calls.
  destruct (drivers.DriverName (host.Driver h) =? "none"); [reflexivity|].
  run. destruct (GetState api h w) as [[s [err|]] w2]; run; [reflexivity|].
  destruct (state.eqb s state.Running); run; reflexivity.
Qed.

Lemma state_eqb_Running (s : state.State) :
  state.eqb s state.Running = true <-> s = state.Running.
Proof. destruct s; simpl; split; congruence. Qed.

(** What the power-off step does, case by case. *)
Lemma tryPowerOff_cases (h : host.Host) (w : W) :
  (drivers.DriverName (host.Driver h) = "none" ->
     tryPowerOff api env h w = (Ret tt, w, [])) /\
  (drivers.DriverName (host.Driver h) <> "none" ->
     forall s err w2, GetState api h w = ((s, Some err), w2) ->
       world (tryPowerOff api env h w) = w2 /\
       effects (trace (tryPowerOff api env h w)) = [EvGetState h]) /\
  (drivers.DriverName (host.Driver h) <> "none" ->
     forall s w2, GetState api h w = ((s, None), w2) -> s <> state.Running ->
       world (tryPowerOff api env h w) = w2 /\
       effects (trace (tryPowerOff api env h w)) = [EvGetState h]) /\
  (drivers.DriverName (host.Driver h) <> "none" ->
     forall w2 r w3, GetState api h w = ((state.Running, None), w2) ->
       RunSSHCommand api h "sudo poweroff" w2 = (r, w3) ->
       world (tryPowerOff api env h w) = w3 /\
       effects (trace (tryPowerOff api env h w)) =
         [EvGetState h; EvRunSSHCommand h "sudo poweroff"]).
Proof.
  unfold tryPowerOff. unfold_calls.
  destruct (String.eqb_spec (drivers.DriverName (host.Driver h)) "none") as [Hn|Hn].
  - split; [intros _; reflexivity|].
    split; [|split]; intros Hc; contradiction.
  - split; [intros Hc; contradiction|].
    split; [|split]; intros _.
    + intros s err w2 HS. run. rewrite HS. run. split; reflexivity.
    + intros s w2 HS Hs. run. rewrite HS. run.
      destruct (state.eqb s state.Running) eqn:E.
      * apply state_eqb_Running in E. contradiction.
      * run. split; reflexivity.
    + intros w2 r w3 HS HR. run. rewrite HS. run. rewrite HR.
      split; reflexivity.
Qed.

(** C2.  DeleteHost first loads the record; when that fails it returns the
    failure (wrapped "load") and does nothing else.  With the record loaded it
    runs the power-off step, then the driver's remove, then the store's
    remove, in this order.  The power-off step never fails the deletion: it
    calls nothing for the "none" driver, only queries the state when the
    state query fails or the state is not Running, and sends [sudo poweroff]
    when it is Running, whatever the command returns.  A failure of the
    driver's remove is returned (wrapped "host remove") with no call of the
    store's remove. *)
Theorem DeleteHost_order (w : W) :
  (forall err w1,
      Load api name w = (inr err, w1) ->
      DeleteHost api env w = (Ret (Some (Wrap err "load")), w1, [EvLoad name])) /\
  (forall h w1,
      Load api name w = (inl h, w1) ->
      let off := tryPowerOff api env h w1 in
      outcome off = Ret tt /\
      (drivers.DriverName (host.Driver h) = "none" ->
         trace off = [] /\ world off = w1) /\
      (drivers.DriverName (host.Driver h) <> "none" ->
         forall s e w2, GetState api h w1 = ((s, e), w2) ->
           (e <> None \/ s <> state.Running ->
              effects (trace off) = [EvGetState h] /\ world off = w2) /\
           (e = None /\ s = state.Running ->
              effects (trace off) =
                [EvGetState h; EvRunSSHCommand h "sudo poweroff"] /\
              world off = snd (RunSSHCommand api h "sudo poweroff" w2))) /\
      (forall err w2,
          DriverRemove api h (world off) = (Some err, w2) ->
          DeleteHost api env w =
            (Ret (Some (Wrap err "host remove")), w2,
             EvLoad name :: trace off ++
               [deleting_notice env h; EvDriverRemove h])%list) /\
      (forall w2 r w3,
          DriverRemove api h (world off) = (None, w2) ->
          Remove api name w2 = (r, w3) ->
          DeleteHost api env w =
            (Ret (option_map (fun e => Wrap e "api remove") r), w3,
             EvLoad name :: trace off ++
               [deleting_notice env h; EvDriverRemove h; EvRemove name])%list)).
Proof.
  split.
  { intros err w1 HL. unfold DeleteHost. unfold_calls. run.
    rewrite HL. run. reflexivity. }
  intros h w1 HL off.
  pose proof (tryPowerOff_returns h w1) as Hret.
  pose proof (tryPowerOff_cases h w1) as (Hnone & Herr & Hother & Hrun).
  fold off in Hret.
  split; [exact Hret|]. split; [|split; [|split]].
  - intros Hn. subst off. rewrite (Hnone Hn). split; reflexivity.
  - intros Hn s e w2 HS. split.
    + intros Hc. destruct e as [err|].
      * destruct (Herr Hn s err w2 HS) as [Hw Ht]. split; assumption.
      * destruct Hc as [Hc|Hc]; [congruence|].
        destruct (Hother Hn s w2 HS Hc) as [Hw Ht]. split; assumption.
    + intros [-> ->].
      destruct (RunSSHCommand api h "sudo poweroff" w2) as [r w3] eqn:HR.
      destruct (Hrun Hn w2 r w3 HS HR) as [Hw Ht]. split; assumption.
  - intros err w2 HR. unfold DeleteHost, deleting_notice. unfold_calls. run.
    rewrite HL. run. rewrite (bind_run _ _ _ tt Hret). run.
    fold off. rewrite HR. run. destruct off as [[o' w'] t']. reflexivity.
  - intros w2 r w3 HR HA. unfold DeleteHost, deleting_notice. unfold_calls. run.
    rewrite HL. run. rewrite (bind_run _ _ _ tt Hret). run.
    fold off. rewrite HR. run. rewrite HA. destruct off as [[o' w'] t'].
    destruct r; reflexivity.
Qed.

(** ** Unsupported driver kinds *)

Lemma preCreateHost_output (config : cfg.MachineConfig) (w : W) :
  outcome (preCreateHost env config w) = Ret None /\
  world (preCreateHost env config w) = w /\
  effects (trace (preCreateHost env config w)) = [].
Proof.
  unfold preCreateHost, deprecation. unfold_calls.
  destruct (cfg.VMDriver config =? "kvm");
    [|destruct (cfg.VMDriver config =? "xhyve");
      [|destruct (cfg.VMDriver config =? "vmwarefusion")]];
    destruct (ShowDriverDeprecationNotification env); run; auto.
Qed.

Lemma createHost_unregistered (config : cfg.MachineConfig) (w : W) :
  registry_Driver api (cfg.VMDriver config) = inr ErrDriverNotFound ->
  outcome (createHost api env config w) =
    Exited (exit_Usage ("unsupported driver: " ++ cfg.VMDriver config)) /\
  world (createHost api env config w) = w /\
  effects (trace (createHost api env config w)) = [].
Proof.
  intros HR. destruct (preCreateHost_output config w) as (Ho & Hw & Ht).
  unfold createHost. rewrite (bind_run _ _ _ None Ho).
  unfold_calls. run. rewrite HR. cbn [is_ErrDriverNotFound]. run.
  rewrite Hw. unfold effects in *. rewrite filter_app, Ht. auto.
Qed.

Lemma preCreateHost_run (config : cfg.MachineConfig) (w : W) :
  preCreateHost env config w = (Ret None, w, deprecation_warning env config).
Proof.
  unfold preCreateHost, deprecation, deprecation_warning. unfold_calls.
  destruct (cfg.VMDriver config =? "kvm");
    [|destruct (cfg.VMDriver config =? "xhyve");
      [|destruct (cfg.VMDriver config =? "vmwarefusion")]];
    destruct (ShowDriverDeprecationNotification env); run; reflexivity.
Qed.

Lemma createHost_unregistered_run (config : cfg.MachineConfig) (w : W) :
  registry_Driver api (cfg.VMDriver config) = inr ErrDriverNotFound ->
  createHost api env config w =
    (Exited (exit_Usage ("unsupported driver: " ++ cfg.VMDriver config)), w,
     (deprecation_warning env config ++ [creating config])%list).
Proof.
  intros HR. unfold createHost, creating.
  rewrite (bind_run _ _ _ None (f_equal outcome (preCreateHost_run config w))).
  rewrite preCreateHost_run.
  unfold_calls. run. rewrite HR. cbn [is_ErrDriverNotFound]. run.
  reflexivity.
Qed.

(** C7, as the code has it.  For a driver kind GetVMHostIP has no case for,
    it returns the unsupported-driver error, leaves the world as it is and
    neither calls nor prints anything.  For a driver kind the registry does
    not know, creation ends in the usage exit "unsupported driver: <kind>"
    with the world as it is and no call on any collaborator, but not
    without printing: the console has the deprecation warning of the kind,
    if it has one, and the progress line by then.  StartHost has asked the
    store whether the record exists and written its two log lines before. *)
Theorem unsupported_driver_fails_after_printing (w : W) :
  (forall h : host.Host,
      recognized (host.DriverName h) = false ->
      GetVMHostIP api env h w =
        (Ret (inr (errorString
                     "Error, attempted to get host ip address for unsupported driver")),
         w, [])) /\
  (forall config : cfg.MachineConfig,
      registry_Driver api (cfg.VMDriver config) = inr ErrDriverNotFound ->
      createHost api env config w =
        (Exited (exit_Usage ("unsupported driver: " ++ cfg.VMDriver config)), w,
         (deprecation_warning env config ++ [creating config])%list) /\
      effects (trace (createHost api env config w)) = []) /\
  (forall (config : cfg.MachineConfig) (w1 : W),
      Exists api name w = (inl false, w1) ->
      registry_Driver api (cfg.VMDriver config) = inr ErrDriverNotFound ->
      StartHost api env config w =
        (Exited (exit_Usage ("unsupported driver: " ++ cfg.VMDriver config)), w1,
         (EvExists name :: provisioning config ++
          deprecation_warning env config ++ [creating config])%list) /\
      effects (trace (StartHost api env config w)) = [EvExists name]).
Proof.
  split; [|split].
  - intros h Hr. unfold recognized in Hr. cbn [existsb] in Hr.
    repeat (apply orb_false_elim in Hr; destruct Hr as [? Hr]).
    unfold GetVMHostIP.
    repeat match goal with H : (_ =? _) = false |- _ => rewrite H; clear H end.
    reflexivity.
  - intros config HR.
    split; [exact (createHost_unregistered_run config w HR)|].
    exact (proj2 (proj2 (createHost_unregistered config w HR))).
  - intros config w1 HE HR.
    assert (Hrun : StartHost api env config w =
                   (Exited (exit_Usage ("unsupported driver: " ++ cfg.VMDriver config)),
                    w1,
                    (EvExists name :: provisioning config ++
                     deprecation_warning env config ++ [creating config])%list)).
    { unfold StartHost, provisioning. unfold_calls. run. rewrite HE. run.
      rewrite (createHost_unregistered_run config w1 HR). reflexivity. }
    split; [exact Hrun|].
    destruct (createHost_unregistered config w1 HR) as (_ & _ & Ht).
    rewrite (createHost_unregistered_run config w1 HR) in Ht. cbn [trace snd] in Ht.
    rewrite Hrun. cbn [trace snd]. unfold effects in *. unfold provisioning.
    cbn [app filter is_output negb]. rewrite Ht. reflexivity.
Qed.

(** ** Address resolution *)

Lemma firstIPv4_Some (addrs : list Net.Addr) (ip : Net.IP) :
  firstIPv4 addrs = Some ip <->
  exists pre a mask post,
    addrs = (pre ++ Net.IPNet a mask :: post)%list /\
    Net.To4 a = Some ip /\
    forallb (fun x => negb (is_IPNet_v4 x)) pre = true.
Proof.
  induction addrs as [|x rest IH].
  - simpl. split; [discriminate|].
    intros (pre & a & mask & post & H & _). destruct pre; discriminate.
  - split.
    + simpl. intros H.
      destruct x as [xip xmask|xip zone].
      * destruct (Net.To4 xip) as [ip4|] eqn:E4.
        -- injection H as <-. exists [], xip, xmask, rest. auto.
        -- apply IH in H. destruct H as (pre & a & mask & post & -> & Ha & Hp).
           exists (Net.IPNet xip xmask :: pre), a, mask, post.
           simpl. rewrite E4. auto.
      * apply IH in H. destruct H as (pre & a & mask & post & -> & Ha & Hp).
        exists (Net.IPAddr xip zone :: pre), a, mask, post. auto.
    + intros (pre & a & mask & post & H & Ha & Hp).
      destruct pre as [|p pre]; simpl in H; inversion H; subst; clear H.
      * simpl. rewrite Ha. reflexivity.
      * simpl in Hp. apply andb_true_iff in Hp. destruct Hp as [Hp1 Hp].
        assert (Hrest : firstIPv4 (pre ++ Net.IPNet a mask :: post) = Some ip).
        { apply IH. exists pre, a, mask, post. auto. }
        simpl. destruct p as [pip pmask|pip zone]; [|exact Hrest].
        simpl in Hp1. destruct (Net.To4 pip); [discriminate|exact Hrest].
Qed.

Lemma firstIPv4_None (addrs : list Net.Addr) :
  firstIPv4 addrs = None <->
  forallb (fun x => negb (is_IPNet_v4 x)) addrs = true.
Proof.
  induction addrs as [|x rest IH]; simpl; [tauto|].
  destruct x as [xip xmask|xip zone]; simpl; [|exact IH].
  destruct (Net.To4 xip); simpl; [split; discriminate|exact IH].
Qed.

Lemma getIPForInterface_run (ifname : string) (w : W) :
  outcome (getIPForInterface api ifname w) =
  Ret (match firstIPv4 (enumerated api ifname w) with
       | Some ip => inl ip
       | None => inr (errorString ("Error finding IPV4 address for " ++ ifname))
       end).
Proof.
  unfold getIPForInterface, enumerated, Interface_Addrs. unfold_calls. run.
  destruct (InterfaceByName api ifname w) as [[[i|] e] w1]; run.
  - destruct (Addrs api i w1) as [[l e'] w2]; run.
    destruct (firstIPv4 l); reflexivity.
  - reflexivity.
Qed.

(** C9, as the code has it.  getIPForInterface goes through the addresses
    in the order the network API returns them (none for an unknown
    interface) and returns the 4-byte form of the first one that is an
    [*net.IPNet] with such a form, passing over addresses of any other
    dynamic type and over IPv6-only ones; it returns the error "Error
    finding IPV4 address for <name>" exactly when no address is an
    [*net.IPNet] with a 4-byte form; it ends in no other way. *)
Theorem getIPForInterface_first_IPNet_v4 (ifname : string) (w : W) :
  (forall ip : Net.IP,
      outcome (getIPForInterface api ifname w) = Ret (inl ip) <->
      exists pre a mask post,
        enumerated api ifname w = (pre ++ Net.IPNet a mask :: post)%list /\
        Net.To4 a = Some ip /\
        forallb (fun x => negb (is_IPNet_v4 x)) pre = true) /\
  (outcome (getIPForInterface api ifname w) =
     Ret (inr (errorString ("Error finding IPV4 address for " ++ ifname))) <->
   forallb (fun x => negb (is_IPNet_v4 x)) (enumerated api ifname w) = true) /\
  (exists r, outcome (getIPForInterface api ifname w) = Ret r).
Proof.
  rewrite getIPForInterface_run. split; [|split].
  - intros ip. rewrite <- firstIPv4_Some.
    destruct (firstIPv4 (enumerated api ifname w)); split; congruence.
  - rewrite <- firstIPv4_None.
    destruct (firstIPv4 (enumerated api ifname w)); split; congruence.
  - eexists. reflexivity.
Qed.

(** C10, at the failing input.  For a hyperv machine whose raw driver
    configuration is [{}], with no VSwitch entry, GetVMHostIP neither returns
    an address nor an error: indexing the nil match panics, before anything
    else happens. *)
Theorem GetVMHostIP_hyperv_without_VSwitch_panics
  (w : W) (n : string) (o : host.Options) :
  GetVMHostIP api env
    (host.mkHost n "hyperv" (drivers.mkDriver "hyperv") o "{}") w =
  (Panicked index_out_of_range, w, []).
Proof. reflexivity. Qed.

(** The same slip on the virtualbox path: management-tool output without a
    hostonlyadapter2 entry panics after the tool has run. *)
Lemma GetVMHostIP_virtualbox_without_adapter_panics (h : host.Host) (w w1 : W) (out : string) :
  host.DriverName h = "virtualbox" ->
  CommandOutput api (VBoxManageCmd env)
    ["showvminfo"; host.Name h; "--machinereadable"] w = (inl out, w1) ->
  Regexp.FindStringSubmatch hostonly_pre hostonly_post out = None ->
  outcome (GetVMHostIP api env h w) = Panicked index_out_of_range.
Proof.
  intros Hd HC HF. unfold GetVMHostIP, submatch1. rewrite Hd. cbn [String.eqb Ascii.eqb Bool.eqb].
  unfold_calls. run. rewrite HC. run. rewrite HF. run. reflexivity.
Qed.

(** An interface that does not exist is no crash: getIPForInterface returns
    its error. *)
Lemma getIPForInterface_unknown_interface (ifname : string) (w w1 : W) (e : option error) :
  InterfaceByName api ifname w = ((None, e), w1) ->
  getIPForInterface api ifname w =
    (Ret (inr (errorString ("Error finding IPV4 address for " ++ ifname))), w1,
     [EvInterfaceByName ifname]).
Proof.
  intros HI. unfold getIPForInterface, Interface_Addrs. unfold_calls. run.
  rewrite HI. run. reflexivity.
Qed.

(** ** StartHost *)

Lemma notice_is_output (config : cfg.MachineConfig) (h : host.Host) :
  effects (notice env config h) = [].
Proof.
  unfold notice.
  destruct (negb (drivers.DriverName (host.Driver h) =? cfg.VMDriver config)).
  - reflexivity.
  - destruct (name =? DefaultMachineName env); reflexivity.
Qed.

Lemma prepend_prepend {A} (t1 t2 : list Event) (r : Outcome A * W * list Event) :
  prepend t1 (prepend t2 r) = prepend (t1 ++ t2) r.
Proof. destruct r as [[o w] t]. simpl. rewrite app_assoc. reflexivity. Qed.

Lemma StartHost_existing (config : cfg.MachineConfig) (w w1 w2 : W) (h : host.Host) :
  Exists api name w = (inl true, w1) ->
  Load api name w1 = (inl h, w2) ->
  StartHost api env config w =
    prepend
      (EvExists name ::
       EvGlog "INFO" "Skipping create...Using existing machine configuration" [] ::
       EvLoad name :: notice env config h)
      (StartHost_loaded api env config h w2).
Proof.
  intros HE HL. unfold StartHost, notice, driverMismatchNotice. unfold_calls. run.
  rewrite HE. run. rewrite HL. run.
  destruct (negb (drivers.DriverName (host.Driver h) =? cfg.VMDriver config)).
  - run. repeat rewrite prepend_prepend. reflexivity.
  - destruct (MachineName env =? DefaultMachineName env); run;
      repeat rewrite prepend_prepend; reflexivity.
Qed.

Lemma StartHost_loaded_ignores_driver (config : cfg.MachineConfig) (kind : string)
  (h : host.Host) (w : W) :
  StartHost_loaded api env (with_driver config kind) h w =
  StartHost_loaded api env config h w.
Proof. reflexivity. Qed.

Lemma StartHost_loaded_facts (config : cfg.MachineConfig) (h : host.Host) (w : W) :
  let r := StartHost_loaded api env config h w in
  (exists x, outcome r = Ret x) /\
  count is_creation (trace r) = 0 /\
  count is_warning (trace r) = 0 /\
  Forall (on_driver (host.Driver h)) (trace r) /\
  (forall h', In (EvSave h') (trace r) -> h' = h) /\
  (forall h', outcome r = Ret (inl h') ->
     h' = h \/ h' = set_Env h (cfg.DockerEnv config)).
Proof.
  unfold StartHost_loaded, engineOptions. unfold_calls. cbn zeta. walk.
  all: cbn [engine.Env] in *.
  all: split; [eexists; reflexivity|].
  all: split; [reflexivity|].
  all: split; [reflexivity|].
  all: split; [repeat constructor; intros d' Hd; cbn in Hd; congruence|].
  all: split; [intros h' Hin; cbn [In] in Hin; intuition congruence|].
  all: intros h' Hh; inversion Hh; auto.
Qed.


Lemma count_effects (p : Event -> bool) (t : list Event) :
  (forall e, p e = true -> is_output e = false) ->
  count p (effects t) = count p t.
Proof.
  intros Hp. unfold count, effects. induction t as [|e t IH]; [reflexivity|].
  simpl. destruct (p e) eqn:Ep.
  - rewrite (Hp e Ep). simpl. rewrite Ep. simpl. rewrite IH. reflexivity.
  - destruct (is_output e); simpl; [exact IH|]. rewrite Ep. exact IH.
Qed.


Lemma effects_cons (e : Event) (t : list Event) :
  effects (e :: t) = if is_output e then effects t else e :: effects t.
Proof. unfold effects. simpl. destruct (is_output e); reflexivity. Qed.

Lemma count_cons (p : Event -> bool) (e : Event) (t : list Event) :
  count p (e :: t) = (if p e then 1 else 0) + count p t.
Proof. unfold count. simpl. destruct (p e); reflexivity. Qed.

Lemma notice_warnings (config : cfg.MachineConfig) (h : host.Host) :
  drivers.DriverName (host.Driver h) <> cfg.VMDriver config ->
  count is_warning (notice env config h) = 3.
Proof.
  intros Hne. unfold notice.
  destruct (String.eqb_spec (drivers.DriverName (host.Driver h)) (cfg.VMDriver config));
    [contradiction|reflexivity].
Qed.

Lemma notice_on_driver (config : cfg.MachineConfig) (h : host.Host) (d : drivers.Driver) :
  Forall (on_driver d) (notice env config h) /\
  count is_creation (notice env config h) = 0 /\
  (forall h', ~ In (EvSave h') (notice env config h)).
Proof.
  unfold notice.
  destruct (negb (drivers.DriverName (host.Driver h) =? cfg.VMDriver config));
    [|destruct (name =? DefaultMachineName env)].
  all: split; [repeat constructor; intros d' Hd; discriminate|].
  all: split; [reflexivity|].
  all: intros h' Hin; cbn in Hin; intuition discriminate.
Qed.

(** C4.  When the record exists and its driver kind differs from the one
    the config requests, StartHost prints its three warnings and, apart from
    console output, does what it does when the record's own kind is
    requested: same result, same world, same calls.  It ends by returning,
    creates nothing, addresses every call to the record's driver, saves no
    other record than the loaded one, and the machine it returns has the
    record's driver. *)
Theorem StartHost_driver_mismatch_is_advisory
  (config : cfg.MachineConfig) (w w1 w2 : W) (h : host.Host) :
  Exists api name w = (inl true, w1) ->
  Load api name w1 = (inl h, w2) ->
  drivers.DriverName (host.Driver h) <> cfg.VMDriver config ->
  let r := StartHost api env config w in
  let r0 := StartHost api env
              (with_driver config (drivers.DriverName (host.Driver h))) w in
  count is_warning (trace r) = 3 /\
  outcome r = outcome r0 /\ world r = world r0 /\
  effects (trace r) = effects (trace r0) /\
  (exists x, outcome r = Ret x) /\
  count is_creation (trace r) = 0 /\
  Forall (on_driver (host.Driver h)) (trace r) /\
  (forall h', In (EvSave h') (trace r) -> h' = h) /\
  (forall h', outcome r = Ret (inl h') ->
     host.Driver h' = host.Driver h /\ host.DriverName h' = host.DriverName h).
Proof.
  intros HE HL Hne r r0. subst r r0.
  rewrite (StartHost_existing config w w1 w2 h HE HL).
  rewrite (StartHost_existing _ w w1 w2 h HE HL).
  rewrite StartHost_loaded_ignores_driver.
  destruct (StartHost_loaded_facts config h w2)
    as (Hret & Hcre & Hwarn & Hdrv & Hsave & Hh).
  destruct (notice_on_driver config h (host.Driver h)) as (Nd & Nc & Ns).
  rewrite !outcome_prepend, !world_prepend, !trace_prepend.
  rewrite !count_app, !effects_app, !count_cons, !effects_cons.
  cbn [is_output is_warning is_creation]. rewrite !notice_is_output.
  rewrite (notice_warnings config h Hne), Hwarn, Hcre, Nc.
  split; [reflexivity|]. split; [reflexivity|]. split; [reflexivity|].
  split; [reflexivity|]. split; [exact Hret|]. split; [reflexivity|].
  split; [|split].
  - apply Forall_app. split; [|assumption].
    repeat (constructor; [intros d' Hd; discriminate|]). assumption.
  - intros h' Hin. apply in_app_or in Hin. destruct Hin as [Hin|Hin].
    + cbn [In] in Hin.
      destruct Hin as [Hin|[Hin|[Hin|Hin]]]; try discriminate.
      exfalso. exact (Ns h' Hin).
    + exact (Hsave h' Hin).
  - intros h' Hh'. destruct (Hh h' Hh') as [->| ->]; split; reflexivity.
Qed.

Lemma StartHost_fresh (config : cfg.MachineConfig) (w w1 : W) :
  Exists api name w = (inl false, w1) ->
  StartHost api env config w =
    prepend
      [EvExists name;
       EvGlog "INFO" "Machine does not exist... provisioning new machine" [];
       EvGlog "INFO" "Provisioning machine with config: %+v" [AConfig config]]
      (createHost api env config w1).
Proof.
  intros HE. unfold StartHost. unfold_calls. run. rewrite HE. run.
  repeat rewrite prepend_prepend. reflexivity.
Qed.








End Lifecycle.

(** * The properties on the store in memory *)

Import Examples.

Lemma GetHostStatus_absent_or_fresh_witness :
  GetHostStatus Sim.api Sim.env Sim.fresh =
    (Ret (inl (state.State_String state.None)), Sim.fresh, [EvExists "minikube"]) /\
  GetHostStatus Sim.api Sim.env stopped =
    (Ret (inl "Stopped"), stopped,
     [EvExists "minikube"; EvLoad "minikube"; EvGetState vbox]).
Proof.
  split.
  - apply (proj1 (GetHostStatus_absent_or_fresh Sim.api Sim.env Sim.fresh)).
    reflexivity.
  - apply (proj2 (GetHostStatus_absent_or_fresh Sim.api Sim.env stopped)
             stopped vbox stopped state.Stopped stopped); reflexivity.
Defined.

Lemma StopHost_already_stopped_or_retriable_witness :
  outcome (StopHost Sim.api Sim.env stopped) = Ret None /\
  outcome (StopHost Sim.api Sim.env (Sim.holding vbox state.Running [Sim.OpStop])) =
    Ret (Some (RetriableError (Wrap (Sim.failure "stop") "Stop: minikube"))).
Proof.
  split.
  - refine (proj1 (StopHost_already_stopped_or_retriable Sim.api Sim.env
                     stopped stopped stopped vbox
                     (ErrHostAlreadyInState "minikube" state.Stopped)
                     eq_refl eq_refl) _).
    exists "minikube". reflexivity.
  - refine (proj1 (proj2 (StopHost_already_stopped_or_retriable Sim.api Sim.env
                     (Sim.holding vbox state.Running [Sim.OpStop]) _ _ vbox
                     (Sim.failure "stop") eq_refl eq_refl)) _).
    intros n. discriminate.
Defined.

Lemma DeleteHost_order_witness :
  DeleteHost Sim.api Sim.env running =
    (Ret None, Sim.fresh,
     [EvLoad "minikube"; EvGetState vbox;
      EvConsoleOutStyle "shutdown" "Powering off %q via SSH ..." [AStr "minikube"];
      EvRunSSHCommand vbox "sudo poweroff";
      EvGlog "INFO" "poweroff result: out=%s, err=%v"
        [AStr EmptyString; AErr (Some (errorString "connection closed"))];
      EvConsoleOutStyle "deleting-host" "Deleting %q from %s ..."
        [AStr "minikube"; AStr "virtualbox"];
      EvDriverRemove vbox; EvRemove "minikube"]) /\
  outcome (DeleteHost Sim.api Sim.env
             (Sim.holding vbox state.Stopped [Sim.OpDriverRemove])) =
    Ret (Some (Wrap (Sim.failure "driver remove") "host remove")) /\
  count is_store_write
    (trace (DeleteHost Sim.api Sim.env
              (Sim.holding vbox state.Stopped [Sim.OpDriverRemove]))) = 0.
Proof.
  destruct (proj2 (DeleteHost_order Sim.api Sim.env running) vbox running eq_refl)
    as (_ & _ & _ & _ & Hremoved).
  destruct (proj2 (DeleteHost_order Sim.api Sim.env
                     (Sim.holding vbox state.Stopped [Sim.OpDriverRemove]))
              vbox _ eq_refl)
    as (_ & _ & _ & Hkept & _).
  split; [|split].
  - exact (Hremoved _ None _ eq_refl eq_refl).
  - rewrite (Hkept (Sim.failure "driver remove") _ eq_refl). reflexivity.
  - rewrite (Hkept (Sim.failure "driver remove") _ eq_refl). reflexivity.
Defined.

Lemma unsupported_driver_fails_after_printing_witness :
  let c := Sim.config "vmware" [] [] in
  GetVMHostIP Sim.api Sim.env (Sim.machine_of "none" "{}") running =
    (Ret (inr (errorString
                 "Error, attempted to get host ip address for unsupported driver")),
     running, []) /\
  StartHost Sim.api Sim.env c Sim.fresh =
    (Exited (exit_Usage "unsupported driver: vmware"), Sim.fresh,
     (EvExists "minikube" :: provisioning c ++ [creating c])%list) /\
  effects (trace (StartHost Sim.api Sim.env c Sim.fresh)) = [EvExists "minikube"].
Proof.
  cbv zeta. split.
  - apply (proj1 (unsupported_driver_fails_after_printing Sim.api Sim.env running)).
    reflexivity.
  - exact (proj2 (proj2 (unsupported_driver_fails_after_printing
                           Sim.api Sim.env Sim.fresh))
             (Sim.config "vmware" [] []) Sim.fresh eq_refl eq_refl).
Defined.

Lemma getIPForInterface_first_IPNet_v4_witness :
  outcome (getIPForInterface Sim.api "vboxnet0" linux) =
    Ret (inl [xc0; xa8; x63; x01]) /\
  outcome (getIPForInterface Sim.api "vboxnet9" linux) =
    Ret (inr (errorString "Error finding IPV4 address for vboxnet9")).
Proof.
  split.
  - apply (proj1 (getIPForInterface_first_IPNet_v4 Sim.api "vboxnet0" linux)).
    exists [Net.IPNet fe80_1 [xff; xff; xff; xff; xff; xff; xff; xff;
                              x00; x00; x00; x00; x00; x00; x00; x00]],
      (Net.ParseIP "192.168.99.1"), [xff; xff; xff; x00],
      [Net.IPNet [x0a; x00; x00; x01] [xff; x00; x00; x00]].
    repeat split.
  - apply (proj1 (proj2 (getIPForInterface_first_IPNet_v4 Sim.api "vboxnet9" linux))).
    reflexivity.
Defined.

(** A record made by the kvm2 driver, and a request for virtualbox. *)
Lemma StartHost_driver_mismatch_is_advisory_witness :
  let w := Sim.holding (Sim.machine_of "kvm2" "{}") state.Stopped [] in
  let r := StartHost Sim.api Sim.env (Sim.config "virtualbox" [] []) w in
  count is_warning (trace r) = 3 /\
  outcome r = Ret (inl (Sim.machine_of "kvm2" "{}")) /\
  Sim.power (world r) = state.Running /\
  Sim.store (world r) = [("minikube", Sim.machine_of "kvm2" "{}")].
Proof.
  cbv zeta.
  pose proof (StartHost_driver_mismatch_is_advisory Sim.api Sim.env
                (Sim.config "virtualbox" [] [])
                (Sim.holding (Sim.machine_of "kvm2" "{}") state.Stopped []) _ _
                (Sim.machine_of "kvm2" "{}") eq_refl eq_refl) as H.
  destruct H as (Hwarn & Hout & Hworld & _).
  - discriminate.
  - split; [exact Hwarn|].
    rewrite Hout, Hworld. repeat split.
Defined.



(** C7 fails as stated: creation with the kind vmwarefusion, which the
    registry does not know and GetVMHostIP has no case for, ends in the
    usage exit after two lines have gone to the console, the deprecation
    warning among them. *)
Lemma unsupported_driver_prints_before_failing :
  let c := Sim.config "vmwarefusion" [] [] in
  recognized "vmwarefusion" = false /\
  registry_Driver Sim.api "vmwarefusion" = inr ErrDriverNotFound /\
  createHost Sim.api Sim.env c Sim.fresh =
    (Exited (exit_Usage "unsupported driver: vmwarefusion"), Sim.fresh,
     [EvConsoleWarning vmwarefusionDeprecation []; creating c]) /\
  count is_warning (trace (createHost Sim.api Sim.env c Sim.fresh)) = 1 /\
  count is_output (trace (StartHost Sim.api Sim.env c Sim.fresh)) = 4.
Proof. cbv zeta. repeat split. Qed.


(** C9 fails as stated: the switch has an address with an IPv4 form (its
    anycast address, a [*net.IPAddr]), the first and only one, and
    getIPForInterface reports that it found none. *)
Lemma getIPForInterface_skips_other_address_types :
  enumerated Sim.api "vEthernet (minikube)" windows = switch_addrs /\
  List.find has_IPv4 switch_addrs = Some anycast /\
  Net.To4 (addr_ip anycast) = Some [x0a; x00; x00; x01] /\
  outcome (getIPForInterface Sim.api "vEthernet (minikube)" windows) =
    Ret (inr (errorString "Error finding IPV4 address for vEthernet (minikube)")).
Proof. repeat split. Qed.


(** * Properties of the rest of the file *)

(** ** The mount command, for every input *)

Lemma GetMountCommand_run {W : Type} (ip : Net.IP) (path port mountVersion : string)
  (uid gid msize : Z) (w : W) :
  GetMountCommand ip path port mountVersion uid gid msize w =
  (Ret (inl (mount_text ip path port mountVersion uid gid msize)), w, []).
Proof.
  reflexivity.
Qed.

(** ** GetMountCommand on any input *)

Lemma length_append (a b : string) :
  String.length (a ++ b) = String.length a + String.length b.
Proof. induction a as [|c a IH]; simpl; [reflexivity|]. rewrite IH. reflexivity. Qed.

Lemma htmlEscape_length (s : string) :
  String.length s <= String.length (Template.htmlEscape s).
Proof.
  induction s as [|c s IH]; simpl; [apply le_n|].
  rewrite length_append.
  assert (H : 1 <= String.length (Template.escape_char c)).
  { destruct c as [[] [] [] [] [] [] [] []]; vm_compute; repeat constructor. }
  lia.
Qed.

Lemma escape_char_plain (c : ascii) :
  plain_char c = true -> Template.escape_char c = String c EmptyString.
Proof. destruct c as [[] [] [] [] [] [] [] []]; vm_compute; congruence. Qed.

Lemma escape_char_special (c : ascii) :
  plain_char c = false -> 2 <= String.length (Template.escape_char c).
Proof.
  destruct c as [[] [] [] [] [] [] [] []]; vm_compute;
    first [discriminate | intros _; repeat constructor].
Qed.

Lemma htmlEscape_plain (s : string) :
  Template.htmlEscape s = s <-> plain s = true.
Proof.
  induction s as [|c s IH]; simpl; [tauto|].
  destruct (plain_char c) eqn:Ec; simpl.
  - rewrite (escape_char_plain c Ec). simpl. rewrite <- IH.
    split; [intros [= H]; exact H|intros ->; reflexivity].
  - split; [|discriminate]. intros H. exfalso.
    apply (f_equal String.length) in H. rewrite length_append in H.
    simpl in H. pose proof (escape_char_special c Ec).
    pose proof (htmlEscape_length s). lia.
Qed.

(** X1.  GetMountCommand never fails and has no effect: for every input it
    returns the template with each field passed through the HTML escaper of
    html/template.  A field the escaper leaves as it is, is exactly one with
    none of the characters NUL, double quote, ampersand, single quote, plus,
    less-than and greater-than; any other path, port or version reaches the
    script in escaped form. *)
Theorem GetMountCommand_escapes_fields {W : Type} (ip : Net.IP)
  (path port mountVersion : string) (uid gid msize : Z) (w : W) :
  GetMountCommand ip path port mountVersion uid gid msize w =
    (Ret (inl (mount_text ip path port mountVersion uid gid msize)), w, []) /\
  (forall s, Template.htmlEscape s = s <-> plain s = true) /\
  (forall s, String.length s <= String.length (Template.htmlEscape s)).
Proof.
  split; [apply GetMountCommand_run|].
  split; [exact htmlEscape_plain|exact htmlEscape_length].
Qed.

Section Mount.

Context {W : Type}.
Variable api : API W.
Variable env : Env.

Local Abbreviation name := (GetMachineName env).

(** ** CheckIfHostExistsAndLoad *)

(** X2.  CheckIfHostExistsAndLoad returns a record only when the store
    reports the name and the load succeeds, and then it has called Exists
    and Load and nothing else, and the world is the one the load left.  A
    name the store does not know is an error ("Machine does not exist ...")
    and no load is attempted; a failure of the existence check or of the
    load is returned wrapped.  Whatever the store answers, the calls are
    Exists alone or Exists and then Load. *)
Theorem CheckIfHostExistsAndLoad_cases (machineName : string) (w : W) :
  (forall err w1,
      Exists api machineName w = (inr err, w1) ->
      CheckIfHostExistsAndLoad api machineName w =
        (Ret (inr (Wrap err ("Error checking that machine exists: " ++ machineName))),
         w1, [EvExists machineName])) /\
  (forall w1,
      Exists api machineName w = (inl false, w1) ->
      CheckIfHostExistsAndLoad api machineName w =
        (Ret (inr (errorString
                     ("Machine does not exist for api.Exists(" ++ machineName ++ ")"))),
         w1, [EvExists machineName])) /\
  (forall w1 err w2,
      Exists api machineName w = (inl true, w1) ->
      Load api machineName w1 = (inr err, w2) ->
      CheckIfHostExistsAndLoad api machineName w =
        (Ret (inr (Wrap err ("Error loading store for: " ++ machineName))),
         w2, [EvExists machineName; EvLoad machineName])) /\
  (forall w1 h w2,
      Exists api machineName w = (inl true, w1) ->
      Load api machineName w1 = (inl h, w2) ->
      CheckIfHostExistsAndLoad api machineName w =
        (Ret (inl h), w2, [EvExists machineName; EvLoad machineName])) /\
  (forall h, outcome (CheckIfHostExistsAndLoad api machineName w) = Ret (inl h) <->
     exists w1 w2, Exists api machineName w = (inl true, w1) /\
                   Load api machineName w1 = (inl h, w2)) /\
  (trace (CheckIfHostExistsAndLoad api machineName w) = [EvExists machineName] \/
   trace (CheckIfHostExistsAndLoad api machineName w) =
     [EvExists machineName; EvLoad machineName]).
Proof.
  unfold CheckIfHostExistsAndLoad. unfold_calls. run.
  split; [|split; [|split; [|split; [|split]]]].
  - intros err w1 HE. rewrite HE. run. reflexivity.
  - intros w1 HE. rewrite HE. run. reflexivity.
  - intros w1 err w2 HE HL. rewrite HE. run. rewrite HL. run. reflexivity.
  - intros w1 h w2 HE HL. rewrite HE. run. rewrite HL. run. reflexivity.
  - intros h. destruct (Exists api machineName w) as [[[|]|err] w1] eqn:HE; run.
    + destruct (Load api machineName w1) as [[h'|err] w2] eqn:HL; run.
      * split.
        -- intros [= ->]. exists w1, w2. auto.
        -- intros (w1' & w2' & [= <-] & HL'). rewrite HL in HL'. congruence.
      * split; [discriminate|].
        intros (w1' & w2' & [= <-] & HL'). rewrite HL in HL'. discriminate.
    + split; [discriminate|]. intros (w1' & w2' & [=] & _).
    + split; [discriminate|]. intros (w1' & w2' & [=] & _).
  - destruct (Exists api machineName w) as [[[|]|err] w1] eqn:HE; run.
    + destruct (Load api machineName w1) as [[h'|err] w2] eqn:HL; run;
        right; reflexivity.
    + left; reflexivity.
    + left; reflexivity.
Qed.

Lemma CheckIfHostExistsAndLoad_loaded (machineName : string) (w w1 w2 : W) (h : host.Host) :
  Exists api machineName w = (inl true, w1) ->
  Load api machineName w1 = (inl h, w2) ->
  CheckIfHostExistsAndLoad api machineName w =
    (Ret (inl h), w2, [EvExists machineName; EvLoad machineName]).
Proof.
  intros HE HL. unfold CheckIfHostExistsAndLoad. unfold_calls. run.
  rewrite HE. run. rewrite HL. run. reflexivity.
Qed.

Lemma CheckIfHostExistsAndLoad_absent (machineName : string) (w w1 : W) :
  Exists api machineName w = (inl false, w1) ->
  CheckIfHostExistsAndLoad api machineName w =
    (Ret (inr (errorString
                 ("Machine does not exist for api.Exists(" ++ machineName ++ ")"))),
     w1, [EvExists machineName]).
Proof.
  intros HE. unfold CheckIfHostExistsAndLoad. unfold_calls. run.
  rewrite HE. run. reflexivity.
Qed.

(** ** MountHost *)

(** X3.  With the record loaded and an address supplied, MountHost sends
    the unmount command for the path and then the mount command
    GetMountCommand renders, over SSH, in this order.  What the unmount
    returns is ignored: the result is nil or the failure of the mount
    command wrapped "running mount".  The address resolver is not
    consulted. *)
Theorem MountHost_unmounts_then_mounts
  (ip : Net.IP) (path port mountVersion : string) (uid gid msize : Z)
  (w w1 w2 : W) (h : host.Host) :
  Exists api name w = (inl true, w1) ->
  Load api name w1 = (inl h, w2) ->
  let script := mount_text ip path port mountVersion uid gid msize in
  let cleanup := RunSSHCommand api h (GetMountCleanupCommand path) w2 in
  let mount := RunSSHCommand api h script (snd cleanup) in
  MountHost api env (Some ip) path port mountVersion uid gid msize w =
    (Ret (option_map (fun e => Wrap e "running mount") (snd (fst mount))),
     snd mount,
     [EvExists name; EvLoad name;
      EvRunSSHCommand h (GetMountCleanupCommand path);
      EvRunSSHCommand h script]).
Proof.
  intros HE HL script cleanup mount. unfold MountHost.
  rewrite (bind_run _ _ _ (inl h)
             (f_equal outcome (CheckIfHostExistsAndLoad_loaded _ w w1 w2 h HE HL))).
  rewrite (CheckIfHostExistsAndLoad_loaded _ w w1 w2 h HE HL).
  unfold_calls. run. fold cleanup.
  rewrite (bind_run _ _ _ _ (f_equal outcome (GetMountCommand_run _ _ _ _ _ _ _ _))).
  rewrite GetMountCommand_run. run. fold script. fold mount.
  destruct mount as [[out [err|]] w4]; reflexivity.
Qed.

Lemma bind_stop {A B} (m : M W A) (k : A -> M W B) (w : W) :
  (forall a, outcome (m w) <> Ret a) ->
  outcome (bind m k w) = match outcome (m w) with
                         | Ret _ => Panicked EmptyString
                         | Exited x => Exited x
                         | Panicked msg => Panicked msg
                         end.
Proof.
  unfold bind, outcome. destruct (m w) as [[[a|x|msg] w1] t1]; simpl; intros H.
  - exfalso. exact (H a eq_refl).
  - reflexivity.
  - reflexivity.
Qed.

(** X4.  MountHost needs the machine and an address.  When the store does
    not know the machine it returns an error after the existence check
    alone.  With no address supplied it asks GetVMHostIP: a failure there is
    returned wrapped and nothing is sent over SSH; an address found is used
    as a supplied one is, unmount first, then mount; a panic of GetVMHostIP
    is a panic of MountHost. *)
Theorem MountHost_without_address
  (path port mountVersion : string) (uid gid msize : Z) (w : W) :
  (forall ip w1,
      Exists api name w = (inl false, w1) ->
      MountHost api env ip path port mountVersion uid gid msize w =
        (Ret (Some (Wrap (errorString
                            ("Machine does not exist for api.Exists(" ++ name ++ ")"))
                      "Error checking that api exists and loading it")),
         w1, [EvExists name])) /\
  (forall w1 w2 h,
      Exists api name w = (inl true, w1) ->
      Load api name w1 = (inl h, w2) ->
      (forall err w3 t,
          GetVMHostIP api env h w2 = (Ret (inr err), w3, t) ->
          MountHost api env None path port mountVersion uid gid msize w =
            (Ret (Some (Wrap err
                          "Error getting the host IP address to use from within the VM")),
             w3, EvExists name :: EvLoad name :: t)) /\
      (forall ip w3 t,
          GetVMHostIP api env h w2 = (Ret (inl ip), w3, t) ->
          let script := mount_text ip path port mountVersion uid gid msize in
          let cleanup := RunSSHCommand api h (GetMountCleanupCommand path) w3 in
          let mount := RunSSHCommand api h script (snd cleanup) in
          MountHost api env None path port mountVersion uid gid msize w =
            (Ret (option_map (fun e => Wrap e "running mount") (snd (fst mount))),
             snd mount,
             EvExists name :: EvLoad name :: t ++
               [EvRunSSHCommand h (GetMountCleanupCommand path);
                EvRunSSHCommand h script])%list) /\
      (forall msg w3 t,
          GetVMHostIP api env h w2 = (Panicked msg, w3, t) ->
          outcome (MountHost api env None path port mountVersion uid gid msize w) =
            Panicked msg)).
Proof.
  split.
  - intros ip w1 HE.
    unfold MountHost.
    rewrite (bind_run _ _ _ _ (f_equal outcome (CheckIfHostExistsAndLoad_absent _ w w1 HE))).
    rewrite (CheckIfHostExistsAndLoad_absent _ w w1 HE). run. reflexivity.
  - intros w1 w2 h HE HL.
    pose proof (CheckIfHostExistsAndLoad_loaded name w w1 w2 h HE HL) as HC.
    split; [|split].
    + intros err w3 t HG. unfold MountHost.
      rewrite (bind_run _ _ _ _ (f_equal outcome HC)), HC. run.
      rewrite (bind_run _ _ _ _ (f_equal outcome HG)), HG. run.
      rewrite app_nil_r. reflexivity.
    + intros ip w3 t HG script cleanup mount. unfold MountHost.
      rewrite (bind_run _ _ _ _ (f_equal outcome HC)), HC. run.
      rewrite (bind_run _ _ _ _ (f_equal outcome HG)), HG. run.
      unfold_calls. run. fold cleanup.
      rewrite (bind_run _ _ _ _ (f_equal outcome (GetMountCommand_run _ _ _ _ _ _ _ _))).
      rewrite GetMountCommand_run. run. fold script. fold mount.
      destruct mount as [[out [err|]] w4]; reflexivity.
    + intros msg w3 t HG. unfold MountHost.
      rewrite (bind_run _ _ _ _ (f_equal outcome HC)), HC. run.
      rewrite bind_stop; rewrite HG; [reflexivity|discriminate].
Qed.
End Mount.

(** ** regexp: what a match of [pre(.*?)post] is *)

Lemma prefix_append (p b : string) : prefix p (p ++ b) = true.
Proof.
  induction p as [|c p IH]; simpl; [destruct b; reflexivity|].
  destruct (ascii_dec c c) as [_|Hn]; [exact IH|contradiction].
Qed.

Lemma prefix_split (p s : string) :
  prefix p s = true -> s = p ++ Str.drop (String.length p) s.
Proof.
  revert s. induction p as [|c p IH]; intros s H; [reflexivity|].
  destruct s as [|d s]; simpl in H; [discriminate|].
  destruct (ascii_dec c d) as [->|_]; [|discriminate].
  simpl. rewrite <- (IH s H). reflexivity.
Qed.

Lemma prefix_longer (p s t : string) :
  String.length p <= String.length s -> prefix p (s ++ t) = prefix p s.
Proof.
  revert s. induction p as [|c p IH]; intros s Hl.
  - destruct s, t; reflexivity.
  - destruct s as [|d s]; simpl in Hl; [lia|].
    simpl. destruct (ascii_dec c d); [|reflexivity].
    apply IH. lia.
Qed.

Lemma drop_append (p s : string) : Str.drop (String.length p) (p ++ s) = s.
Proof. induction p as [|c p IH]; simpl; [destruct s; reflexivity|exact IH]. Qed.


Lemma lazy_until_found (q : ascii) (post' g b : string) :
  free_of q g = true ->
  Regexp.lazy_until (String q post') (g ++ String q post' ++ b) = Some g.
Proof.
  induction g as [|c g IH]; intros Hf.
  - change (EmptyString ++ ?x) with x.
    destruct (String q post' ++ b) eqn:E; [discriminate|].
    unfold Regexp.lazy_until. rewrite <- E, prefix_append. reflexivity.
  - simpl in Hf. apply andb_true_iff in Hf. destruct Hf as [Hf Hg].
    apply andb_true_iff in Hf. destruct Hf as [Hq Hn].
    apply negb_true_iff in Hq, Hn.
    simpl. destruct (ascii_dec q c) as [->|_].
    + rewrite Ascii.eqb_refl in Hq. discriminate.
    + rewrite Hn. fold Regexp.lazy_until.
      change (Regexp.lazy_until (String q post') (g ++ String q (post' ++ b)))
        with (Regexp.lazy_until (String q post') (g ++ String q post' ++ b)).
      rewrite (IH Hg). reflexivity.
Qed.

Lemma occurrences_cons (p : string) (c : ascii) (s : string) :
  Str.occurrences p (String c s) =
  (if prefix p (String c s) then 1 else 0) + Str.occurrences p s.
Proof. reflexivity. Qed.

Lemma occurrences_at_end (p a : string) : 1 <= Str.occurrences p (a ++ p).
Proof.
  induction a as [|c a IH].
  - change (EmptyString ++ p) with p.
    destruct p as [|d p]; [simpl; lia|].
    unfold Str.occurrences; fold Str.occurrences.
    replace (prefix (String d p) (String d p)) with true; [lia|].
    symmetry. rewrite <- (prefix_append (String d p) EmptyString) at 1.
    f_equal. clear. induction (String d p) as [|x s IH]; simpl; congruence.
  - change (String c a ++ p) with (String c (a ++ p)).
    rewrite occurrences_cons. lia.
Qed.

Lemma append_assoc (a b c : string) : (a ++ b) ++ c = a ++ (b ++ c).
Proof. induction a as [|x a IH]; simpl; [reflexivity|]. rewrite IH. reflexivity. Qed.

Lemma FindStringSubmatch_found (pre post' a g b : string) (q : ascii) :
  Str.occurrences pre (a ++ pre) = 1 ->
  free_of q g = true ->
  Regexp.FindStringSubmatch pre (String q post')
    (a ++ pre ++ g ++ String q post' ++ b) =
  Some [pre ++ g ++ String q post'; g].
Proof.
  intros Ho Hf. induction a as [|c a IH].
  - change (EmptyString ++ ?x) with x.
    destruct (pre ++ g ++ String q post' ++ b) eqn:E.
    + destruct pre; [destruct g|]; discriminate.
    + unfold Regexp.FindStringSubmatch. rewrite <- E.
      rewrite prefix_append, drop_append, (lazy_until_found q post' g b Hf).
      reflexivity.
  - change (String c a ++ pre) with (String c (a ++ pre)) in Ho.
    rewrite occurrences_cons in Ho.
    pose proof (occurrences_at_end pre a) as Hge.
    destruct (prefix pre (String c (a ++ pre))) eqn:Ep; [lia|].
    simpl in Ho.
    assert (Ep' : prefix pre (String c a ++ pre ++ g ++ String q post' ++ b) = false).
    { rewrite <- append_assoc.
      rewrite prefix_longer; [exact Ep|].
      simpl. rewrite length_append. lia. }
    change (String c a ++ ?x) with (String c (a ++ x)) in *.
    unfold Regexp.FindStringSubmatch; fold Regexp.FindStringSubmatch.
    rewrite Ep'. apply IH. exact Ho.
Qed.

Lemma FindStringSubmatch_pair (pre post s : string) (l : list string) :
  Regexp.FindStringSubmatch pre post s = Some l ->
  exists g, l = [pre ++ g ++ post; g].
Proof.
  induction s as [|c s IH];
    unfold Regexp.FindStringSubmatch; fold Regexp.FindStringSubmatch.
  - destruct (if prefix pre EmptyString then _ else _) as [g|];
      intros [=]; eauto.
  - destruct (if prefix pre (String c s) then _ else _) as [g|].
    + intros [= <-]. eauto.
    + exact IH.
Qed.

Section Resolver.

Context {W : Type}.
Variable api : API W.
Variable env : Env.


(** ** GetVMHostIP *)

(** X5.  For the kinds kvm, kvm2, xhyve and hyperkit GetVMHostIP returns a
    fixed gateway address (192.168.42.1, 192.168.39.1, 192.168.64.1 and
    192.168.64.1), in 16-byte form, whatever the machine and the world are;
    it calls nothing and leaves the world as it is. *)
Theorem GetVMHostIP_fixed_gateways (h : host.Host) (w : W) :
  (host.DriverName h = "kvm" ->
     GetVMHostIP api env h w = (Ret (inl (Net.IPv4 xc0 xa8 x2a x01)), w, [])) /\
  (host.DriverName h = "kvm2" ->
     GetVMHostIP api env h w = (Ret (inl (Net.IPv4 xc0 xa8 x27 x01)), w, [])) /\
  (host.DriverName h = "xhyve" \/ host.DriverName h = "hyperkit" ->
     GetVMHostIP api env h w = (Ret (inl (Net.IPv4 xc0 xa8 x40 x01)), w, [])).
Proof.
  unfold GetVMHostIP. split; [|split].
  - intros ->. reflexivity.
  - intros ->. reflexivity.
  - intros [-> | ->]; reflexivity.
Qed.

Lemma getIPForInterface_resolved (ifname : string) (w : W) :
  outcome (getIPForInterface api ifname w) = Ret (resolved api ifname w).
Proof. apply getIPForInterface_run. Qed.

Lemma hyperv_branch (h : host.Host) (w : W) :
  host.DriverName h = "hyperv" ->
  GetVMHostIP api env h w =
    bind (submatch1 vswitch_pre vswitch_post (host.RawDriver h))
      (fun sw =>
         bind (getIPForInterface api ("vEthernet (" ++ sw ++ ")"))
           (fun r => ret (wrapped ("ip for interface (" ++ sw ++ ")") r))) w.
Proof.
  intros Hd. unfold GetVMHostIP. rewrite Hd.
  cbn [String.eqb Ascii.eqb Bool.eqb]. unfold bind, wrapped.
  destruct (submatch1 vswitch_pre vswitch_post (host.RawDriver h) w)
    as [[[sw|x|m] w1] t1]; try reflexivity.
  destruct (getIPForInterface api ("vEthernet (" ++ sw ++ ")") w1)
    as [[[[ip|err]|x|m] w2] t2]; reflexivity.
Qed.

Lemma virtualbox_branch (h : host.Host) (w : W) :
  host.DriverName h = "virtualbox" ->
  GetVMHostIP api env h w =
    bind (exec_Output api (VBoxManageCmd env) (showvminfo h))
      (fun r =>
         match r with
         | inr err => ret (inr (Wrap err "vboxmanage"))
         | inl out =>
             bind (submatch1 hostonly_pre hostonly_post out)
               (fun iface =>
                  bind (getIPForInterface api iface)
                    (fun r => ret (wrapped "Error getting VM/Host IP address" r)))
         end) w.
Proof.
  intros Hd. unfold GetVMHostIP. rewrite Hd.
  cbn [String.eqb Ascii.eqb Bool.eqb]. unfold bind, wrapped, showvminfo.
  destruct (exec_Output api (VBoxManageCmd env)
              ["showvminfo"; host.Name h; "--machinereadable"] w)
    as [[[[out|err]|x|m] w1] t1]; try reflexivity.
  destruct (submatch1 hostonly_pre hostonly_post out w1)
    as [[[iface|x|m] w2] t2]; try reflexivity.
  destruct (getIPForInterface api iface w2)
    as [[[[ip|err]|x|m] w3] t3]; reflexivity.
Qed.

Lemma submatch1_found (pre post s whole g : string) (w : W) :
  Regexp.FindStringSubmatch pre post s = Some [whole; g] ->
  submatch1 pre post s w = (Ret g, w, []).
Proof. intros H. unfold submatch1. rewrite H. reflexivity. Qed.

Lemma submatch1_none (pre post s : string) (w : W) :
  Regexp.FindStringSubmatch pre post s = None ->
  submatch1 pre post s w = (Panicked index_out_of_range, w, []).
Proof. intros H. unfold submatch1. rewrite H. reflexivity. Qed.

Lemma resolve_then_wrap (ifname msg : string) (w : W) :
  bind (getIPForInterface api ifname) (fun r => ret (wrapped msg r)) w =
    (Ret (wrapped msg (resolved api ifname w)),
     world (getIPForInterface api ifname w),
     trace (getIPForInterface api ifname w)).
Proof.
  rewrite (bind_run _ _ _ _ (getIPForInterface_resolved ifname w)).
  cbn [ret prepend]. rewrite app_nil_r. reflexivity.
Qed.

(** X6.  For a hyperv machine whose raw driver configuration holds a
    VSwitch entry (the key not occurring before it, the name free of double
    quotes and newlines), GetVMHostIP resolves the interface
    [vEthernet (<name>)]: it returns what getIPForInterface returns for it,
    an error wrapped "ip for interface (<name>)", and calls nothing else. *)
Theorem GetVMHostIP_hyperv_switch (h : host.Host) (a sw b : string) (w : W) :
  host.DriverName h = "hyperv" ->
  host.RawDriver h = a ++ vswitch_pre ++ sw ++ vswitch_post ++ b ->
  Str.occurrences vswitch_pre (a ++ vswitch_pre) = 1 ->
  free_of (ascii_of_nat 34) sw = true ->
  let ifname := "vEthernet (" ++ sw ++ ")" in
  GetVMHostIP api env h w =
    (Ret (wrapped ("ip for interface (" ++ sw ++ ")") (resolved api ifname w)),
     world (getIPForInterface api ifname w),
     trace (getIPForInterface api ifname w)).
Proof.
  intros Hd Hraw Ho Hf ifname.
  rewrite (hyperv_branch h w Hd), Hraw.
  pose proof (FindStringSubmatch_found vswitch_pre "," a sw b (ascii_of_nat 34) Ho Hf)
    as Hm.
  change (String (ascii_of_nat 34) ",") with vswitch_post in Hm.
  rewrite (bind_run _ _ _ _ (f_equal outcome (submatch1_found _ _ _ _ _ w Hm))).
  rewrite (submatch1_found _ _ _ _ _ w Hm). cbn [world trace fst snd].
  rewrite resolve_then_wrap. reflexivity.
Qed.

(** X7.  For a virtualbox machine GetVMHostIP runs the management tool
    with [showvminfo <name> --machinereadable].  When the tool fails, the
    failure is returned wrapped "vboxmanage" and no interface is looked up.
    When its output holds a hostonlyadapter2 entry (the key not occurring
    before it, the value free of double quotes and newlines), the interface
    of that name is resolved, an error wrapped "Error getting VM/Host IP
    address". *)
Theorem GetVMHostIP_virtualbox_adapter (h : host.Host) (w : W) :
  host.DriverName h = "virtualbox" ->
  (forall err w1,
      CommandOutput api (VBoxManageCmd env) (showvminfo h) w = (inr err, w1) ->
      GetVMHostIP api env h w =
        (Ret (inr (Wrap err "vboxmanage")), w1,
         [EvCommandOutput (VBoxManageCmd env) (showvminfo h)])) /\
  (forall a iface b w1,
      CommandOutput api (VBoxManageCmd env) (showvminfo h) w =
        (inl (a ++ hostonly_pre ++ iface ++ hostonly_post ++ b), w1) ->
      Str.occurrences hostonly_pre (a ++ hostonly_pre) = 1 ->
      free_of (ascii_of_nat 34) iface = true ->
      GetVMHostIP api env h w =
        (Ret (wrapped "Error getting VM/Host IP address" (resolved api iface w1)),
         world (getIPForInterface api iface w1),
         EvCommandOutput (VBoxManageCmd env) (showvminfo h) ::
           trace (getIPForInterface api iface w1))).
Proof.
  intros Hd. rewrite (virtualbox_branch h w Hd). unfold exec_Output. split.
  - intros err w1 HC. run. rewrite HC. reflexivity.
  - intros a iface b w1 HC Ho Hf. run. rewrite HC. cbn [fst snd].
    pose proof (FindStringSubmatch_found hostonly_pre EmptyString a iface b
                  (ascii_of_nat 34) Ho Hf) as Hm.
    change (String (ascii_of_nat 34) EmptyString) with hostonly_post in Hm.
    rewrite (bind_run _ _ _ _ (f_equal outcome (submatch1_found _ _ _ _ _ w1 Hm))).
    rewrite (submatch1_found _ _ _ _ _ w1 Hm). cbn [world trace fst snd].
    rewrite resolve_then_wrap. reflexivity.
Qed.

Lemma submatch1_cases (pre post s : string) (w : W) :
  (Regexp.FindStringSubmatch pre post s = None /\
   submatch1 pre post s w = (Panicked index_out_of_range, w, [])) \/
  (exists g, submatch1 pre post s w = (Ret g, w, []) /\
             Regexp.FindStringSubmatch pre post s <> None).
Proof.
  destruct (Regexp.FindStringSubmatch pre post s) as [l|] eqn:E.
  - right. destruct (FindStringSubmatch_pair pre post s l E) as [g ->].
    exists g. split; [|discriminate]. unfold submatch1. rewrite E. reflexivity.
  - left. split; [reflexivity|]. unfold submatch1. rewrite E. reflexivity.
Qed.

(** X8.  GetVMHostIP never ends the process, and it panics in exactly two
    situations: a hyperv machine whose raw driver configuration has no match
    for the VSwitch pattern, and a virtualbox machine whose management tool
    ran but printed no match for the hostonlyadapter2 pattern.  In every
    other case it returns an address or an error. *)
Theorem GetVMHostIP_panics_exactly (h : host.Host) (w : W) :
  (forall x, outcome (GetVMHostIP api env h w) <> Exited x) /\
  ((exists msg, outcome (GetVMHostIP api env h w) = Panicked msg) <->
   (host.DriverName h = "hyperv" /\
    Regexp.FindStringSubmatch vswitch_pre vswitch_post (host.RawDriver h) = None) \/
   (host.DriverName h = "virtualbox" /\
    exists out w1,
      CommandOutput api (VBoxManageCmd env) (showvminfo h) w = (inl out, w1) /\
      Regexp.FindStringSubmatch hostonly_pre hostonly_post out = None)).
Proof.
  destruct (String.eqb_spec (host.DriverName h) "hyperv") as [Hh|Hh].
  { rewrite (hyperv_branch h w Hh).
    destruct (submatch1_cases vswitch_pre vswitch_post (host.RawDriver h) w)
      as [[Hn Hs]|[g [Hs Hn]]].
    - rewrite bind_stop; rewrite Hs; [|discriminate]. cbn [outcome fst].
      split; [discriminate|].
      split; [intros _; left; auto|intros _; eexists; reflexivity].
    - rewrite (bind_run _ _ _ _ (f_equal outcome Hs)), Hs.
      cbn [world trace fst snd]. rewrite resolve_then_wrap. cbn [prepend outcome fst].
      split; [discriminate|]. split; [intros [m [=]]|].
      intros [[_ Hc]|[Hc _]]; [contradiction|].
      rewrite Hh in Hc. discriminate. }
  destruct (String.eqb_spec (host.DriverName h) "virtualbox") as [Hv|Hv].
  { rewrite (virtualbox_branch h w Hv). unfold exec_Output. run.
    destruct (CommandOutput api (VBoxManageCmd env) (showvminfo h) w)
      as [[out|err] w1] eqn:HC; cbn [fst snd].
    - destruct (submatch1_cases hostonly_pre hostonly_post out w1)
        as [[Hn Hs]|[g [Hs Hn]]].
      + rewrite bind_stop; rewrite Hs; [|discriminate].
        cbn [outcome fst]. split; [discriminate|].
        split; [intros _; right; split; [exact Hv|exists out, w1; auto]
               |intros _; eexists; reflexivity].
      + rewrite (bind_run _ _ _ _ (f_equal outcome Hs)), Hs.
        cbn [world trace fst snd]. rewrite resolve_then_wrap.
        cbn [prepend outcome fst].
        split; [discriminate|]. split; [intros [m [=]]|].
        intros [[Hc _]|[_ (out' & w1' & [= <- <-] & Hc)]]; [contradiction|].
        contradiction.
    - cbn [ret prepend outcome fst]. split; [discriminate|].
      split; [intros [m [=]]|].
      intros [[Hc _]|[_ (out' & w1' & [=] & _)]]. contradiction. }
  unfold GetVMHostIP.
  apply String.eqb_neq in Hh, Hv. rewrite Hh, Hv.
  destruct (host.DriverName h =? "kvm"), (host.DriverName h =? "kvm2"),
    ((host.DriverName h =? "xhyve") || (host.DriverName h =? "hyperkit"));
    cbn [ret outcome fst];
    (split; [discriminate|]; split; [intros [m [=]]|]);
    apply String.eqb_neq in Hh, Hv;
    intros [[Hc _]|[Hc _]]; contradiction.
Qed.

Lemma To4_length (ip ip4 : Net.IP) : Net.To4 ip = Some ip4 -> length ip4 = 4.
Proof.
  unfold Net.To4. destruct (Nat.eqb (length ip) 4) eqn:E4.
  - intros [= <-]. apply Nat.eqb_eq. exact E4.
  - destruct (Nat.eqb (length ip) 16) eqn:E16; [|discriminate].
    apply Nat.eqb_eq in E16.
    destruct (_ && _ && _); [|discriminate].
    intros H. assert (Hs : ip4 = skipn 12 ip) by congruence.
    rewrite Hs, length_skipn, E16. reflexivity.
Qed.

Lemma firstIPv4_length (addrs : list Net.Addr) (ip : Net.IP) :
  firstIPv4 addrs = Some ip -> length ip = 4.
Proof.
  induction addrs as [|x rest IH]; simpl; [discriminate|].
  destruct x as [xip m|xip z]; [|exact IH].
  destruct (Net.To4 xip) as [ip4|] eqn:E; [|exact IH].
  intros [= <-]. exact (To4_length xip ip4 E).
Qed.

(** ** getIPForInterface *)

(** X9.  An address getIPForInterface returns is always four bytes long,
    also when the interface reports it in IPv4-mapped 16-byte form.  The
    function asks the system for the interface and, only when it is found,
    for its addresses; it calls nothing else. *)
Theorem getIPForInterface_four_bytes (ifname : string) (w : W) :
  (forall ip, outcome (getIPForInterface api ifname w) = Ret (inl ip) ->
              length ip = 4) /\
  (trace (getIPForInterface api ifname w) = [EvInterfaceByName ifname] /\
   (exists e w1, InterfaceByName api ifname w = ((None, e), w1)) \/
   exists i e w1,
     InterfaceByName api ifname w = ((Some i, e), w1) /\
     trace (getIPForInterface api ifname w) = [EvInterfaceByName ifname; EvAddrs i]).
Proof.
  split.
  - intros ip. rewrite getIPForInterface_resolved. unfold resolved.
    destruct (firstIPv4 (enumerated api ifname w)) as [ip'|] eqn:E; [|discriminate].
    intros [= <-]. exact (firstIPv4_length _ _ E).
  - unfold getIPForInterface, Interface_Addrs. unfold_calls. run.
    destruct (InterfaceByName api ifname w) as [[[i|] e] w1]; run.
    + right. exists i, e, w1. split; [reflexivity|].
      destruct (Addrs api i w1) as [[l e'] w2]; run.
      destruct (firstIPv4 l); reflexivity.
    + left. split; [reflexivity|]. exists e, w1. reflexivity.
Qed.

End Resolver.


Section Lifecycle2.

Context {W : Type}.
Variable api : API W.
Variable env : Env.

Local Abbreviation name := (GetMachineName env).

(** ** preCreateHost *)

(** X10.  preCreateHost never blocks creation: it returns no error, calls
    no collaborator and leaves the world as it is.  It prints one warning
    when the driver kind is kvm, xhyve or vmwarefusion and the deprecation
    notice is switched on, and nothing otherwise. *)
Theorem preCreateHost_only_warns (config : cfg.MachineConfig) (w : W) :
  outcome (preCreateHost env config w) = Ret None /\
  world (preCreateHost env config w) = w /\
  effects (trace (preCreateHost env config w)) = [] /\
  length (trace (preCreateHost env config w)) =
    (if deprecated (cfg.VMDriver config) && ShowDriverDeprecationNotification env
     then 1 else 0) /\
  count is_warning (trace (preCreateHost env config w)) =
    length (trace (preCreateHost env config w)).
Proof.
  unfold preCreateHost, deprecation, deprecated. unfold_calls. cbn [existsb].
  destruct (cfg.VMDriver config =? "kvm");
    [|destruct (cfg.VMDriver config =? "xhyve");
      [|destruct (cfg.VMDriver config =? "vmwarefusion")]];
    destruct (ShowDriverDeprecationNotification env); run; auto.
Qed.

(** ** createHost *)

Lemma count_output (p : Event -> bool) (t : list Event) :
  (forall e, p e = true -> is_output e = false) ->
  effects t = [] -> count p t = 0.
Proof.
  intros Hp Ht. rewrite <- (count_effects p t Hp), Ht. reflexivity.
Qed.

Ltac in_createHost config w :=
  let Ho := fresh "Ho" in
  let Hw := fresh "Hw" in
  let Ht := fresh "Ht" in
  destruct (preCreateHost_output env config w) as (Ho & Hw & Ht);
  unfold createHost; rewrite (bind_run _ _ _ None Ho); rewrite Hw;
  rewrite ?outcome_prepend, ?world_prepend, ?trace_prepend.

(** X11.  A machine createHost returns is the one NewHost made for the
    requested driver kind and the marshalled driver configuration, with the
    certificate directory and the store path set to the minikube path and
    the engine options computed from the config; name, driver and raw
    configuration are NewHost's.  It has been passed to Create and then to
    Save. *)
Theorem createHost_builds_record (config : cfg.MachineConfig) (w : W) (h : host.Host) :
  outcome (createHost api env config w) = Ret (inl h) ->
  exists def data h0 w1 w2 w3,
    registry_Driver api (cfg.VMDriver config) = inl def /\
    json_Marshal api (registry.ConfigCreator def config) = inl data /\
    NewHost api (cfg.VMDriver config) data w1 = (inl h0, w2) /\
    h = host.set_EngineOptions
          (host.set_AuthOptions h0 (auth.mkOptions (Minipath env) (Minipath env)))
          (engineOptions env config) /\
    host.Name h = host.Name h0 /\ host.Driver h = host.Driver h0 /\
    host.DriverName h = host.DriverName h0 /\
    host.RawDriver h = host.RawDriver h0 /\
    Create api h w2 = (None, w3) /\
    Save api h w3 = (None, world (createHost api env config w)).
Proof.
  in_createHost config w. unfold_calls. walk.
  all: intros H; inversion H; subst; clear H.
  all: do 6 eexists.
  all: repeat (split; [first [reflexivity | eassumption]|]).
  all: eassumption.
Qed.


(** X13.  When the registry fails with anything but its not-found error,
    createHost ends the process through exit.WithError ("error getting
    driver", with the cause); it has called no collaborator and the world is
    as it was. *)
Theorem createHost_registry_failure (config : cfg.MachineConfig) (w : W) (err : error) :
  registry_Driver api (cfg.VMDriver config) = inr err ->
  err <> ErrDriverNotFound ->
  outcome (createHost api env config w) =
    Exited (exit_WithError "error getting driver" err) /\
  world (createHost api env config w) = w /\
  effects (trace (createHost api env config w)) = [].
Proof.
  intros HR Hne. in_createHost config w. rewrite effects_app, Ht.
  unfold_calls. run. rewrite HR.
  destruct err; try contradiction; run; auto.
Qed.

(** ** StartHost *)


(** The four ways through the head of StartHost. *)
Lemma StartHost_cases (config : cfg.MachineConfig) (w : W) :
  (exists err w1,
      Exists api name w = (inr err, w1) /\
      StartHost api env config w =
        (Ret (inr (Wrap err ("machine name: " ++ name))), w1, [EvExists name])) \/
  (exists w1,
      Exists api name w = (inl false, w1) /\
      StartHost api env config w =
        prepend (EvExists name :: provisioning config) (createHost api env config w1)) \/
  (exists w1 err w2,
      Exists api name w = (inl true, w1) /\
      Load api name w1 = (inr err, w2) /\
      StartHost api env config w =
        (Ret (inr (Wrap err "Error loading existing host. Please try running [minikube delete], then run [minikube start] again.")),
         w2, [EvExists name; skipping; EvLoad name])) \/
  (exists w1 h w2,
      Exists api name w = (inl true, w1) /\
      Load api name w1 = (inl h, w2) /\
      StartHost api env config w =
        prepend (EvExists name :: skipping :: EvLoad name :: notice env config h)
          (StartHost_loaded api env config h w2)).
Proof.
  destruct (Exists api name w) as [[[|]|err] w1] eqn:HE.
  - destruct (Load api name w1) as [[h|err] w2] eqn:HL.
    + right. right. right. exists w1, h, w2. split; [reflexivity|].
      split; [exact HL|]. exact (StartHost_existing api env config w w1 w2 h HE HL).
    + right. right. left. exists w1, err, w2. split; [reflexivity|].
      split; [exact HL|]. unfold StartHost. unfold_calls. run.
      rewrite HE. run. rewrite HL. run. reflexivity.
  - right. left. exists w1. split; [reflexivity|].
    exact (StartHost_fresh api env config w w1 HE).
  - left. exists err, w1. split; [reflexivity|].
    unfold StartHost. unfold_calls. run. rewrite HE. run. reflexivity.
Qed.

(** X14.  StartHost stops at the first failure of the store or of the state
    query: a failed existence check is returned wrapped with the machine
    name and nothing else is called; a failed load is returned wrapped with
    the advice to delete and start again, and the driver is not asked
    anything; a failed state query is returned wrapped whatever state came
    with it, and the machine is neither started nor provisioned. *)
Theorem StartHost_store_failures (config : cfg.MachineConfig) (w : W) :
  (forall err w1,
      Exists api name w = (inr err, w1) ->
      StartHost api env config w =
        (Ret (inr (Wrap err ("machine name: " ++ name))), w1, [EvExists name])) /\
  (forall w1 err w2,
      Exists api name w = (inl true, w1) ->
      Load api name w1 = (inr err, w2) ->
      StartHost api env config w =
        (Ret (inr (Wrap err "Error loading existing host. Please try running [minikube delete], then run [minikube start] again.")),
         w2, [EvExists name; skipping; EvLoad name])) /\
  (forall w1 h w2 s err w3,
      Exists api name w = (inl true, w1) ->
      Load api name w1 = (inl h, w2) ->
      GetState api h w2 = ((s, Some err), w3) ->
      outcome (StartHost api env config w) =
        Ret (inr (Wrap err "Error getting state for host")) /\
      world (StartHost api env config w) = w3 /\
      effects (trace (StartHost api env config w)) =
        [EvExists name; EvLoad name; EvGetState h]).
Proof.
  split; [|split].
  - intros err w1 HE. unfold StartHost. unfold_calls. run. rewrite HE. run.
    reflexivity.
  - intros w1 err w2 HE HL. unfold StartHost. unfold_calls. run.
    rewrite HE. run. rewrite HL. run. reflexivity.
  - intros w1 h w2 s err w3 HE HL HS.
    rewrite (StartHost_existing api env config w w1 w2 h HE HL).
    rewrite outcome_prepend, world_prepend, trace_prepend, effects_app.
    rewrite !effects_cons. cbn [is_output]. rewrite notice_is_output.
    unfold StartHost_loaded. unfold_calls. run. rewrite HS. run. auto.
Qed.

(** X15.  An existing machine the driver reports in any state but Running
    is started and then saved, the record as it was loaded, before the
    engine options are looked at.  A failed Start is returned wrapped
    "start" with no Save; a failed Save is returned wrapped "save"; in both
    cases nothing is provisioned.  After a successful Save the rest of the
    call starts nothing and writes nothing to the store. *)
Theorem StartHost_restarts_then_saves
  (config : cfg.MachineConfig) (w w1 w2 w3 : W) (h : host.Host) (s : state.State) :
  Exists api name w = (inl true, w1) ->
  Load api name w1 = (inl h, w2) ->
  GetState api h w2 = ((s, None), w3) ->
  s <> state.Running ->
  let r := StartHost api env config w in
  let head := [EvExists name; EvLoad name; EvGetState h; EvStart h] in
  (forall err w4,
      Start api h w3 = (Some err, w4) ->
      outcome r = Ret (inr (Wrap err "start")) /\ world r = w4 /\
      effects (trace r) = head) /\
  (forall w4 err w5,
      Start api h w3 = (None, w4) ->
      Save api h w4 = (Some err, w5) ->
      outcome r = Ret (inr (Wrap err "save")) /\ world r = w5 /\
      effects (trace r) = (head ++ [EvSave h])%list) /\
  (forall w4 w5,
      Start api h w3 = (None, w4) ->
      Save api h w4 = (None, w5) ->
      exists rest,
        effects (trace r) = (head ++ EvSave h :: rest)%list /\
        count is_start rest = 0 /\ count is_store_write rest = 0).
Proof.
  intros HE HL HS Hs. cbv zeta.
  rewrite (StartHost_existing api env config w w1 w2 h HE HL).
  rewrite outcome_prepend, world_prepend, trace_prepend, effects_app.
  rewrite !effects_cons. cbn [is_output]. rewrite notice_is_output.
  assert (Hb : state.eqb s state.Running = false).
  { destruct s; try reflexivity. contradiction. }
  unfold StartHost_loaded, engineOptions. unfold_calls. cbn zeta. run.
  rewrite HS. run. rewrite Hb.
  split; [|split].
  - intros err w4 HT. run. rewrite HT. run. auto.
  - intros w4 err w5 HT HV. run. rewrite HT. run. rewrite HV. run. auto.
  - intros w4 w5 HT HV. run. rewrite HT. run. rewrite HV. walk.
    all: eexists; split; [reflexivity|split; reflexivity].
Qed.

Ltac not_output := intros e He; destruct e; simpl in *; congruence.

Lemma createHost_quiet (config : cfg.MachineConfig) (w : W) :
  count is_teardown (trace (createHost api env config w)) = 0 /\
  count is_auth (trace (createHost api env config w)) = 0 /\
  count is_provisioning (trace (createHost api env config w)) = 0 /\
  (forall err, outcome (createHost api env config w) = Ret (inr err) ->
               is_wrapped err).
Proof.
  split; [|split; [|split]].
  4: { intros err. in_createHost config w. unfold_calls. walk.
       all: intros H; inversion H; subst; clear H.
       all: eexists; eexists; reflexivity. }
  - in_createHost config w. rewrite count_app.
    rewrite (count_output is_teardown _ ltac:(not_output) Ht).
    unfold_calls. walk; reflexivity.
  - in_createHost config w. rewrite count_app.
    rewrite (count_output is_auth _ ltac:(not_output) Ht).
    unfold_calls. walk; reflexivity.
  - in_createHost config w. rewrite count_app.
    rewrite (count_output is_provisioning _ ltac:(not_output) Ht).
    unfold_calls. walk; reflexivity.
Qed.

Lemma StartHost_loaded_quiet (config : cfg.MachineConfig) (h : host.Host) (w : W) :
  let r := StartHost_loaded api env config h w in
  count is_teardown (trace r) = 0 /\
  count is_auth (trace r) <= 1 /\
  (drivers.DriverName (host.Driver h) = "none" -> count is_auth (trace r) = 0) /\
  (cfg.DockerEnv config = [] -> count is_provisioning (trace r) = 0) /\
  (forall err, outcome r = Ret (inr err) ->
     (exists e, err = RetriableError (Wrap e "Error configuring auth on host") /\
                count is_auth (trace r) = 1) \/
     is_wrapped err).
Proof.
  unfold StartHost_loaded, engineOptions. unfold_calls. cbn zeta. walk.
  all: cbn [engine.Env] in *.
  all: split; [reflexivity|].
  all: split; [unfold count; cbn; lia|].
  all: split;
    [ intros Hnone; first
        [ reflexivity
        | exfalso; cbn in *; rewrite Hnone in *; discriminate ]
    | ].
  all: split;
    [ intros Hnil; first
        [ reflexivity
        | exfalso;
          match goal with
          | H : Nat.ltb 0 (length _) = true |- _ => rewrite Hnil in H; discriminate H
          end ]
    | ].
  all: intros err Herr; inversion Herr; subst;
    first [ left; eexists; split; reflexivity
          | right; eexists; eexists; reflexivity ].
Qed.

Lemma notice_quiet (config : cfg.MachineConfig) (h : host.Host) (p : Event -> bool) :
  (forall e, p e = true -> is_output e = false) ->
  count p (notice env config h) = 0.
Proof.
  intros Hp. apply count_output; [exact Hp|]. apply notice_is_output.
Qed.


(** X17.  StartHost never takes a machine down: whatever the config and the
    world, it calls neither the store's Remove, nor the driver's Remove or
    Stop, nor runs a command over SSH. *)
Theorem StartHost_never_tears_down (config : cfg.MachineConfig) (w : W) :
  count is_teardown (trace (StartHost api env config w)) = 0.
Proof.
  destruct (StartHost_cases config w)
    as [(err & w1 & HE & ->)|[(w1 & HE & ->)|[(w1 & err & w2 & HE & HL & ->)
       |(w1 & h & w2 & HE & HL & ->)]]].
  - reflexivity.
  - destruct (createHost_quiet config w1) as (Ht & _).
    rewrite trace_prepend, count_app, Ht. reflexivity.
  - reflexivity.
  - destruct (StartHost_loaded_quiet config h w2) as (Ht & _).
    rewrite trace_prepend, !count_app, !count_cons.
    rewrite (notice_quiet config h is_teardown ltac:(not_output)), Ht. reflexivity.
Qed.

(** ** DeleteHost, StopHost, GetHostStatus: what they leave alone *)


(** X18.  DeleteHost always returns, nil or one failure wrapped with the
    name of its step: a failed load ("load", and nothing else was called), a
    failed Remove of the driver ("host remove", and the store's Remove was
    not called) or a failed Remove of the store ("api remove").  It returns
    nil only after the store's Remove succeeded.  It never creates, saves or
    starts a machine and never calls Stop; the store's Remove is called at
    most once; the only command it ever runs over SSH is [sudo poweroff]. *)
Theorem DeleteHost_only_removes (w : W) :
  let r := DeleteHost api env w in
  (exists x, outcome r = Ret x) /\
  (outcome r = Ret None ->
     exists w1, Remove api name w1 = (None, world r) /\
                count is_remove (trace r) = 1) /\
  (forall err, outcome r = Ret (Some err) ->
     (exists e, Load api name w = (inr e, world r) /\ err = Wrap e "load" /\
                trace r = [EvLoad name]) \/
     (exists e h w1, DriverRemove api h w1 = (Some e, world r) /\
                     err = Wrap e "host remove" /\
                     count is_remove (trace r) = 0) \/
     (exists e w1, Remove api name w1 = (Some e, world r) /\
                   err = Wrap e "api remove")) /\
  count is_creation (trace r) = 0 /\
  count is_save (trace r) = 0 /\
  count is_start (trace r) = 0 /\
  count (fun e => match e with EvStop _ => true | _ => false end) (trace r) = 0 /\
  count (fun e => match e with EvRemove _ => true | _ => false end) (trace r) <= 1 /\
  forallb only_poweroff (trace r) = true.
Proof.
  unfold DeleteHost, tryPowerOff. unfold_calls. walk.
  all: subst.
  all: split; [eexists; reflexivity|].
  all: split;
    [ intros H; first
        [ discriminate H
        | eexists; split; [eassumption|reflexivity] ]
    | ].
  all: split;
    [ intros err' H; first
        [ discriminate H
        | injection H as <-; first
            [ left; eexists; split; [reflexivity|split; reflexivity]
            | right; left; do 3 eexists; split; [eassumption|split; reflexivity]
            | right; right; do 2 eexists; split; [eassumption|reflexivity] ] ]
    | ].
  all: repeat (split; [first [reflexivity | unfold count; cbn; lia]|]).
  all: reflexivity.
Qed.

(** X19.  StopHost returns a failed load wrapped "load" without calling
    Stop, and nil when Stop succeeds.  It always returns, and it never
    writes to the store, never starts a machine and never calls the driver's
    Remove. *)
Theorem StopHost_load_and_success (w : W) :
  let r := StopHost api env w in
  (forall err w1,
      Load api name w = (inr err, w1) ->
      r = (Ret (Some (Wrap err "load")), w1, [EvLoad name])) /\
  (forall h w1 w2,
      Load api name w = (inl h, w1) ->
      Stop api h w1 = (None, w2) ->
      outcome r = Ret None /\ world r = w2 /\
      effects (trace r) = [EvLoad name; EvStop h]) /\
  (exists x, outcome r = Ret x) /\
  count is_store_write (trace r) = 0 /\
  count is_start (trace r) = 0 /\
  count (fun e => match e with EvDriverRemove _ => true | _ => false end)
    (trace r) = 0.
Proof.
  cbv zeta. split; [|split].
  - intros err w1 HL. unfold StopHost. unfold_calls. run. rewrite HL. run.
    reflexivity.
  - intros h w1 w2 HL HS. unfold StopHost. unfold_calls. run. rewrite HL. run.
    rewrite HS. run. auto.
  - unfold StopHost. unfold_calls. walk.
    all: split; [eexists; reflexivity|].
    all: split; [reflexivity|split; reflexivity].
Qed.

(** X20.  GetHostStatus returns each failure wrapped with the name of its
    step: "<name> exists" for the existence check, "load" for the load,
    "state" for the state query.  It only
    queries: it never writes to the store, starts, stops or removes
    anything, and it always returns. *)
Theorem GetHostStatus_failures_and_queries (w : W) :
  let r := GetHostStatus api env w in
  (forall err w1,
      Exists api name w = (inr err, w1) ->
      r = (Ret (inr (Wrap err (name ++ " exists"))), w1, [EvExists name])) /\
  (forall w1 err w2,
      Exists api name w = (inl true, w1) ->
      Load api name w1 = (inr err, w2) ->
      r = (Ret (inr (Wrap err "load")), w2, [EvExists name; EvLoad name])) /\
  (forall w1 h w2 s err w3,
      Exists api name w = (inl true, w1) ->
      Load api name w1 = (inl h, w2) ->
      GetState api h w2 = ((s, Some err), w3) ->
      r = (Ret (inr (Wrap err "state")), w3,
           [EvExists name; EvLoad name; EvGetState h])) /\
  (exists x, outcome r = Ret x) /\
  count is_store_write (trace r) = 0 /\
  count is_start (trace r) = 0 /\
  count is_teardown (trace r) = 0.
Proof.
  cbv zeta. unfold GetHostStatus. unfold_calls. run.
  split; [|split; [|split]].
  - intros err w1 HE. rewrite HE. run. reflexivity.
  - intros w1 err w2 HE HL. rewrite HE. run. rewrite HL. run. reflexivity.
  - intros w1 h w2 s err w3 HE HL HS. rewrite HE. run. rewrite HL. run.
    rewrite HS. run. reflexivity.
  - walk.
    all: split; [eexists; reflexivity|].
    all: split; [reflexivity|split; reflexivity].
Qed.
End Lifecycle2.

(** ** The functions with further collaborators *)

Lemma lift_run {W A} (m : M W A) (w : W) :
  lift m w = (lifted (outcome (m w)), world (m w), map Ev (trace (m w))).
Proof.
  unfold lift, lifted, outcome, world, trace.
  destruct (m w) as [[[a|x|msg] w1] t]; reflexivity.
Qed.

Section FurtherProperties.

Context {W : Type}.
Variable api : API W.
Variable more : Further W.
Variable env : Env.

Local Abbreviation name := (GetMachineName env).

Lemma CheckIfHostExistsAndLoad_returns (machineName : string) (w : W) :
  exists r, outcome (CheckIfHostExistsAndLoad api machineName w) = Ret r.
Proof.
  unfold CheckIfHostExistsAndLoad. unfold_calls. run.
  destruct (Exists api machineName w) as [[[|]|err] w1]; run.
  - destruct (Load api machineName w1) as [[h|err] w2]; run; eexists; reflexivity.
  - eexists; reflexivity.
  - eexists; reflexivity.
Qed.

Ltac load_first machineName w :=
  rewrite (lift_run (CheckIfHostExistsAndLoad api machineName) w);
  let r := fresh "r" in let Hr := fresh "Hr" in
  destruct (CheckIfHostExistsAndLoad_returns machineName w) as (r & Hr);
  rewrite Hr; cbn [lifted];
  generalize dependent (world (CheckIfHostExistsAndLoad api machineName w));
  generalize dependent (trace (CheckIfHostExistsAndLoad api machineName w)).

(** ** GetHostDriverIP *)

(** X21.  GetHostDriverIP always returns.  An address it returns is never
    nil: it is what net.ParseIP makes of the text the driver of the loaded
    machine gave.  A failure to find or load the machine is returned as
    CheckIfHostExistsAndLoad gave it, and the driver is not asked; a failure
    of the driver is returned wrapped "getting IP"; a text that does not
    parse gives the error "parsing IP: <text>". *)
Theorem GetHostDriverIP_parsed (machineName : string) (w : W) :
  let load := CheckIfHostExistsAndLoad api machineName w in
  let r := GetHostDriverIP api more machineName w in
  (exists v, outcome2 r = Ret2 v) /\
  (forall ip, outcome2 r = Ret2 (inl ip) ->
     ip <> [] /\
     exists h text,
       outcome load = Ret (inl h) /\
       fst (GetIP more h (world load)) = inl text /\
       ip = net_ParseIP more text) /\
  (forall err, outcome load = Ret (inr err) ->
     r = (Ret2 (inr err), world load, map Ev (trace load))) /\
  (forall h err, outcome load = Ret (inl h) ->
     fst (GetIP more h (world load)) = inr err ->
     outcome2 r = Ret2 (inr (Wrap err "getting IP"))) /\
  (forall h text, outcome load = Ret (inl h) ->
     fst (GetIP more h (world load)) = inl text ->
     net_ParseIP more text = [] ->
     outcome2 r = Ret2 (inr (errorString ("parsing IP: " ++ text)))).
Proof.
  cbv zeta. unfold GetHostDriverIP, bind2, Driver_GetIP, call2, ret2.
  load_first machineName w. intros t w1.
  destruct r as [h|err].
  - destruct (GetIP more h w1) as [[text|err] w2] eqn:HG; simpl.
    + destruct (net_ParseIP more text) as [|b ip] eqn:HP; unfold outcome2; simpl.
      * split; [eexists; reflexivity|]. split; [discriminate|].
        split; [discriminate|]. split; [intros ? ? [= <-]; rewrite HG; discriminate|].
        intros h' text' [= <-]; rewrite HG; intros [= <-] _. reflexivity.
      * split; [eexists; reflexivity|].
        split; [|split; [discriminate|split; [intros ? ? [= <-]; rewrite HG; discriminate|]]].
        -- intros ip' [= <-]. split; [discriminate|].
           exists h, text. rewrite HP. split; [reflexivity|split; [rewrite HG; reflexivity|reflexivity]].
        -- intros h' text' [= <-]; rewrite HG; intros [= <-] HP'. congruence.
    + split; [eexists; reflexivity|]. split; [discriminate|].
      split; [discriminate|]. split; [|intros ? ? [= <-]; rewrite HG; discriminate].
      intros h' err' [= <-]; rewrite HG; intros [= <-]. reflexivity.
  - simpl. split; [eexists; reflexivity|]. split; [discriminate|].
    split; [intros err' [= <-]; rewrite app_nil_r; reflexivity|].
    split; intros ? ? [=].
Qed.

(** ** GetHostDockerEnv *)

(** X22.  GetHostDockerEnv makes the calls GetHostDriverIP makes for the
    configured machine and leaves the same world.  It returns the three
    docker variables, DOCKER_HOST being tcp:// followed by what
    net.JoinHostPort makes of the driver's text and port 2376: the text is
    not parsed, so it succeeds whenever GetHostDriverIP does, and also when
    the text is no address.  Every error it returns is a wrapped one. *)
Theorem GetHostDockerEnv_uses_driver_text (w : W) :
  let load := CheckIfHostExistsAndLoad api name w in
  let r := GetHostDockerEnv api more env w in
  let a := GetHostDriverIP api more name w in
  trace2 r = trace2 a /\ world2 r = world2 a /\
  (forall h text, outcome load = Ret (inl h) ->
     fst (GetIP more h (world load)) = inl text ->
     outcome2 r = Ret2 (inl (docker_env more text))) /\
  (forall m, outcome2 r = Ret2 (inl m) ->
     exists h text, outcome load = Ret (inl h) /\
                    fst (GetIP more h (world load)) = inl text /\
                    m = docker_env more text) /\
  (forall ip, outcome2 a = Ret2 (inl ip) -> exists m, outcome2 r = Ret2 (inl m)) /\
  (forall err, outcome2 r = Ret2 (inr err) -> is_wrapped err).
Proof.
  cbv zeta. unfold GetHostDockerEnv, GetHostDriverIP, bind2, Driver_GetIP, call2, ret2.
  load_first (GetMachineName env) w. intros t w1.
  destruct r as [h|err].
  - destruct (GetIP more h w1) as [[text|err] w2] eqn:HG; simpl.
    + destruct (net_ParseIP more text) as [|b ip] eqn:HP; unfold outcome2; simpl.
      all: split; [reflexivity|]; split; [reflexivity|].
      all: split; [intros h' text' [= <-]; rewrite HG; intros [= <-]; reflexivity|].
      all: split; [|split; [|discriminate]].
      all: try (intros m [= <-]; exists h, text;
                split; [reflexivity|split; [rewrite HG; reflexivity|reflexivity]]).
      all: intros; eexists; reflexivity.
    + split; [reflexivity|]. split; [reflexivity|].
      split; [intros ? ? [= <-]; rewrite HG; discriminate|]. split; [discriminate|]. split; [discriminate|].
      intros err' [= <-]. eexists; eexists; reflexivity.
  - simpl. split; [reflexivity|]. split; [reflexivity|].
    split; [intros ? ? [=]|]. split; [discriminate|]. split; [discriminate|].
    intros err' [= <-]. eexists; eexists; reflexivity.
Qed.

(** ** CreateSSHShell *)

Ltac in_trace H :=
  repeat match type of H with
  | In _ (_ ++ _)%list => apply in_app_or in H; destruct H as [H|H]
  | In _ (map Ev _) =>
      apply in_map_iff in H; let e := fresh "e" in destruct H as (e & H & _)
  | In _ (_ :: _) => destruct H as [H|H]
  | In _ [] => destruct H
  | _ = _ => first [discriminate H | injection H as H; subst]
  end.

(** X23.  CreateSSHShell opens a client only on a machine that was loaded
    and whose driver reported Running, without a failure, in this run.  In
    any other state it returns the error "<name> is not running" after the
    state query, and neither a client nor a shell is made.  On a running
    machine whose client is made, the shell is run with the arguments given
    and what it returns is the result, unwrapped. *)
Theorem CreateSSHShell_needs_running (args : list string) (w : W) :
  let load := CheckIfHostExistsAndLoad api name w in
  let r := CreateSSHShell api more env args w in
  (forall h, In (EvCreateSSHClient h) (trace2 r) ->
     outcome load = Ret (inl h) /\
     fst (GetState api h (world load)) = (state.Running, None)) /\
  (forall c a, In (EvShell c a) (trace2 r) ->
     a = args /\
     exists h w2, In (EvCreateSSHClient h) (trace2 r) /\
                  fst (CreateSSHClient more h w2) = inl c) /\
  (forall h s, outcome load = Ret (inl h) ->
     fst (GetState api h (world load)) = (s, None) ->
     s <> state.Running ->
     r = (Ret2 (Some (not_running (fmt_q more) name)),
          snd (GetState api h (world load)),
          map Ev (trace load ++ [EvGetState h]))) /\
  (forall h c w3, outcome load = Ret (inl h) ->
     fst (GetState api h (world load)) = (state.Running, None) ->
     CreateSSHClient more h (snd (GetState api h (world load))) = (inl c, w3) ->
     r = (Ret2 (fst (Client_Shell more c args w3)),
          snd (Client_Shell more c args w3),
          (map Ev (trace load) ++
           [Ev (EvGetState h); EvCreateSSHClient h; EvShell c args])%list)).
Proof.
  cbv zeta.
  unfold CreateSSHShell, bind2, Host_CreateSSHClient, client_Shell, call2, ret2.
  load_first (GetMachineName env) w. intros t w1.
  destruct r as [h|err].
  - rewrite (lift_run (Driver_GetState api h) w1).
    unfold Driver_GetState. rewrite call_run. cbn [lifted outcome world trace fst snd].
    destruct (GetState api h w1) as [[s [err|]] w2] eqn:HS; cbn [fst snd].
    + unfold trace2; simpl.
      split; [|split; [|split]].
      * intros h' H. in_trace H.
      * intros c a H. in_trace H.
      * intros h' s' [= <-]. rewrite HS. intros [=].
      * intros h' c w3 [= <-]. rewrite HS. intros [=].
    + destruct (state.eqb s state.Running) eqn:HR; cbn [negb].
      * apply state_eqb_Running in HR. subst s.
        destruct (CreateSSHClient more h w2) as [[c|err] w3] eqn:HC; cbn [fst snd].
        -- destruct (Client_Shell more c args w3) as [res w4] eqn:HSh.
           unfold trace2; simpl.
           split; [|split; [|split]].
           ++ intros h' H. in_trace H. rewrite HS. split; reflexivity.
           ++ intros c' a H. in_trace H.
              split; [reflexivity|]. exists h, w2. split.
              ** apply in_or_app. right. right. left. reflexivity.
              ** rewrite HC. reflexivity.
           ++ intros h' s' [= <-]. rewrite HS. intros [= <-] Hne.
              exfalso. apply Hne. reflexivity.
           ++ intros h' c' w3' [= <-]. rewrite HS. cbn [fst snd]. intros _.
              rewrite HC. intros [= <- <-]. rewrite HSh. reflexivity.
        -- unfold trace2; simpl.
           split; [|split; [|split]].
           ++ intros h' H. in_trace H. rewrite HS. split; reflexivity.
           ++ intros c' a H. in_trace H.
           ++ intros h' s' [= <-]. rewrite HS. intros [= <-] Hne.
              exfalso. apply Hne. reflexivity.
           ++ intros h' c' w3' [= <-]. rewrite HS. cbn [fst snd]. intros _.
              rewrite HC. intros [=].
      * unfold trace2; simpl.
        split; [|split; [|split]].
        -- intros h' H. in_trace H.
        -- intros c a H. in_trace H.
        -- intros h' s' [= <-]. rewrite HS. intros [= <-] _.
           rewrite map_app. reflexivity.
        -- intros h' c w3 [= <-]. rewrite HS. intros [= ->].
           discriminate HR.
  - unfold trace2; simpl.
    split; [|split; [|split]].
    + intros h' H. in_trace H.
    + intros c a H. in_trace H.
    + intros h' s' [=].
    + intros h' c w3 [=].
Qed.

(** ** EnsureMinikubeRunningOrExit *)

Lemma GetHostStatus_returns (w : W) :
  exists r, outcome (GetHostStatus api env w) = Ret r.
Proof.
  unfold GetHostStatus. unfold_calls. walk.
  all: eexists; reflexivity.
Qed.

Lemma GetHostStatus_absent (w w1 : W) :
  Exists api name w = (inl false, w1) ->
  GetHostStatus api env w = (Ret (inl EmptyString), w1, [EvExists name]).
Proof.
  intros HE. unfold GetHostStatus. unfold_calls. run. rewrite HE. run. reflexivity.
Qed.

(** X24.  EnsureMinikubeRunningOrExit makes the calls of GetHostStatus and
    no other.  It returns exactly when the status is "Running".  A failure
    of GetHostStatus ends the process through exit.WithError; any other
    status, the empty one of an absent machine included, ends it through
    exit.WithCode with exit.Unavailable.  The exitStatus argument has no
    part in the outcome. *)
Theorem EnsureMinikubeRunningOrExit_cases (exitStatus : Z) (w : W) :
  let status := GetHostStatus api env w in
  let r := EnsureMinikubeRunningOrExit api more env exitStatus w in
  let unavailable :=
    exit_WithCode (Unavailable more)
      "minikube is not running, so the service cannot be accessed" in
  trace2 r = map Ev (trace status) /\ world2 r = world status /\
  (outcome2 r = Ret2 tt <-> outcome status = Ret (inl "Running")) /\
  (forall err, outcome status = Ret (inr err) ->
     outcome2 r = Exited2 (exit_of (exit_WithError "Error getting machine status" err))) /\
  (forall s, outcome status = Ret (inl s) -> s <> "Running" ->
     outcome2 r = Exited2 unavailable) /\
  (forall w1, Exists api name w = (inl false, w1) -> outcome2 r = Exited2 unavailable) /\
  (forall code, outcome2 r = Exited2 (exit_WithCode code "minikube is not running, so the service cannot be accessed") -> code = Unavailable more).
Proof.
  cbv zeta.
  assert (Habsent : forall w1, Exists api name w = (inl false, w1) ->
                               outcome (GetHostStatus api env w) = Ret (inl EmptyString)).
  { intros w1 HE. rewrite (GetHostStatus_absent w w1 HE). reflexivity. }
  unfold EnsureMinikubeRunningOrExit, bind2, exit2, ret2.
  rewrite (lift_run (GetHostStatus api env) w).
  destruct (GetHostStatus_returns w) as (r & Hr). rewrite Hr in *. cbn [lifted].
  generalize (world (GetHostStatus api env w)) (trace (GetHostStatus api env w)).
  intros w1 t. destruct r as [s|err].
  - change (state.State_String state.Running) with "Running".
    destruct (s =? "Running") eqn:E; cbn [negb]; unfold outcome2, trace2, world2; simpl.
    + apply String.eqb_eq in E. subst s.
      rewrite !app_nil_r.
      split; [reflexivity|]. split; [reflexivity|].
      split; [split; reflexivity|]. split; [discriminate|].
      split; [intros s [= <-] Hne; exfalso; apply Hne; reflexivity|].
      split; [intros w0 HE; discriminate (Habsent w0 HE)|].
      discriminate.
    + apply String.eqb_neq in E.
      rewrite !app_nil_r.
      split; [reflexivity|]. split; [reflexivity|].
      split; [split; [discriminate|intros [= ->]; exfalso; apply E; reflexivity]|].
      split; [discriminate|].
      split; [reflexivity|]. split; [reflexivity|].
      intros code [= ->]. reflexivity.
  - unfold outcome2, trace2, world2; simpl. rewrite !app_nil_r.
    split; [reflexivity|]. split; [reflexivity|].
    split; [split; discriminate|].
    split; [intros err' [= <-]; reflexivity|].
    split; [discriminate|].
    split; [intros w0 HE; discriminate (Habsent w0 HE)|].
    discriminate.
Qed.

End FurtherProperties.


(** * The further properties on the store in memory *)

Import Cases.

Lemma CheckIfHostExistsAndLoad_cases_witness :
  CheckIfHostExistsAndLoad Sim.api "minikube" Sim.fresh =
    (Ret (inr (errorString "Machine does not exist for api.Exists(minikube)")),
     Sim.fresh, [EvExists "minikube"]) /\
  CheckIfHostExistsAndLoad Sim.api "minikube" running =
    (Ret (inl vbox), running, [EvExists "minikube"; EvLoad "minikube"]).
Proof.
  split.
  - apply (proj1 (proj2 (CheckIfHostExistsAndLoad_cases Sim.api "minikube" Sim.fresh))).
    reflexivity.
  - exact (proj1 (proj2 (proj2 (proj2 (CheckIfHostExistsAndLoad_cases
                                         Sim.api "minikube" running))))
             running vbox running eq_refl eq_refl).
Defined.

(** Mounting /mnt/x from 10.0.0.2 on the running machine. *)
Lemma MountHost_unmounts_then_mounts_witness :
  MountHost Sim.api Sim.env (Some [x0a; x00; x00; x02])
    "/mnt/x" "5640" "9p2000.L" 1000 1000 262144 running =
    (Ret None, running,
     [EvExists "minikube"; EvLoad "minikube";
      EvRunSSHCommand vbox "sudo umount /mnt/x;";
      EvRunSSHCommand vbox
        (mount_text [x0a; x00; x00; x02] "/mnt/x" "5640" "9p2000.L" 1000 1000 262144)]).
Proof.
  exact (MountHost_unmounts_then_mounts Sim.api Sim.env [x0a; x00; x00; x02]
           "/mnt/x" "5640" "9p2000.L" 1000 1000 262144
           running running running vbox eq_refl eq_refl).
Defined.

(** No machine: an error; a kvm2 machine and no address: the fixed gateway
    is mounted; a VirtualBox machine without a host-only adapter: a panic. *)
Lemma MountHost_without_address_witness :
  outcome (MountHost Sim.api Sim.env None "/mnt/x" "5640" "9p2000.L" 0 0 0 Sim.fresh) =
    Ret (Some (Wrap (errorString "Machine does not exist for api.Exists(minikube)")
                 "Error checking that api exists and loading it")) /\
  outcome (MountHost Sim.api Sim.env None "/mnt/x" "5640" "9p2000.L" 0 0 0
             (Sim.holding (Sim.machine_of "kvm2" "{}") state.Running [])) = Ret None /\
  outcome (MountHost Sim.api Sim.env None "/mnt/x" "5640" "9p2000.L" 0 0 0 running) =
    Panicked index_out_of_range.
Proof.
  split; [|split].
  - rewrite (proj1 (MountHost_without_address Sim.api Sim.env
                      "/mnt/x" "5640" "9p2000.L" 0 0 0 Sim.fresh)
               None Sim.fresh eq_refl).
    reflexivity.
  - destruct (proj2 (MountHost_without_address Sim.api Sim.env
                       "/mnt/x" "5640" "9p2000.L" 0 0 0
                       (Sim.holding (Sim.machine_of "kvm2" "{}") state.Running []))
                _ _ (Sim.machine_of "kvm2" "{}") eq_refl eq_refl) as (_ & Hfound & _).
    rewrite (Hfound (Net.IPv4 xc0 xa8 x27 x01) _ [] eq_refl). reflexivity.
  - destruct (proj2 (MountHost_without_address Sim.api Sim.env
                       "/mnt/x" "5640" "9p2000.L" 0 0 0 running)
                _ _ vbox eq_refl eq_refl) as (_ & _ & Hpanic).
    exact (Hpanic index_out_of_range running
             [EvCommandOutput "VBoxManage" ["showvminfo"; "minikube"; "--machinereadable"]]
             eq_refl).
Defined.

Lemma GetVMHostIP_fixed_gateways_witness :
  GetVMHostIP Sim.api Sim.env (Sim.machine_of "kvm2" "{}") running =
    (Ret (inl (Net.ParseIP "192.168.39.1")), running, []) /\
  GetVMHostIP Sim.api Sim.env (Sim.machine_of "hyperkit" "{}") running =
    (Ret (inl (Net.ParseIP "192.168.64.1")), running, []).
Proof.
  split.
  - apply (proj1 (proj2 (GetVMHostIP_fixed_gateways Sim.api Sim.env
                           (Sim.machine_of "kvm2" "{}") running))).
    reflexivity.
  - apply (proj2 (proj2 (GetVMHostIP_fixed_gateways Sim.api Sim.env
                           (Sim.machine_of "hyperkit" "{}") running))).
    right. reflexivity.
Defined.

Lemma GetVMHostIP_hyperv_switch_witness :
  GetVMHostIP Sim.api Sim.env hv switch =
    (Ret (inl [xc0; xa8; x63; x01]), switch,
     [EvInterfaceByName "vEthernet (minikube)";
      EvAddrs (Net.mkInterface 1 "vEthernet (minikube)")]).
Proof.
  exact (GetVMHostIP_hyperv_switch Sim.api Sim.env hv "{" "minikube" "}" switch
           eq_refl eq_refl eq_refl eq_refl).
Defined.

Lemma GetVMHostIP_virtualbox_adapter_witness :
  GetVMHostIP Sim.api Sim.env vbox with_adapter =
    (Ret (inl [xc0; xa8; x63; x01]), with_adapter,
     [EvCommandOutput "VBoxManage" ["showvminfo"; "minikube"; "--machinereadable"];
      EvInterfaceByName "vboxnet0"; EvAddrs (Net.mkInterface 1 "vboxnet0")]) /\
  GetVMHostIP Sim.api Sim.env vbox (Sim.holding vbox state.Running [Sim.OpExec]) =
    (Ret (inr (Wrap (Sim.failure "exec") "vboxmanage")),
     Sim.holding vbox state.Running [Sim.OpExec],
     [EvCommandOutput "VBoxManage" ["showvminfo"; "minikube"; "--machinereadable"]]).
Proof.
  split.
  - exact (proj2 (GetVMHostIP_virtualbox_adapter Sim.api Sim.env vbox with_adapter
                    eq_refl)
             ("nic2=" ++ Str.dquote ++ "hostonly" ++ Str.dquote ++ Str.nl)
             "vboxnet0" Str.nl with_adapter eq_refl eq_refl eq_refl).
  - exact (proj1 (GetVMHostIP_virtualbox_adapter Sim.api Sim.env vbox
                    (Sim.holding vbox state.Running [Sim.OpExec]) eq_refl)
             (Sim.failure "exec") _ eq_refl).
Defined.

(** VirtualBox output without the adapter entry: a panic; a Hyper-V record
    with the switch entry: none. *)
Lemma GetVMHostIP_panics_exactly_witness :
  (exists msg, outcome (GetVMHostIP Sim.api Sim.env vbox running) = Panicked msg) /\
  ~ (exists msg, outcome (GetVMHostIP Sim.api Sim.env hv switch) = Panicked msg).
Proof.
  split.
  - apply (proj2 (proj2 (GetVMHostIP_panics_exactly Sim.api Sim.env vbox running))).
    right. split; [reflexivity|].
    exists EmptyString, running. split; reflexivity.
  - intros H.
    apply (proj1 (proj2 (GetVMHostIP_panics_exactly Sim.api Sim.env hv switch))) in H.
    destruct H as [[_ H]|[H _]]; discriminate H.
Defined.

Lemma getIPForInterface_four_bytes_witness :
  length (Net.ParseIP "192.168.99.1") = 16 /\
  exists ip, outcome (getIPForInterface Sim.api "vboxnet0" linux) = Ret (inl ip) /\
             length ip = 4.
Proof.
  split; [reflexivity|].
  exists [xc0; xa8; x63; x01]. split; [reflexivity|].
  exact (proj1 (getIPForInterface_four_bytes Sim.api "vboxnet0" linux)
           [xc0; xa8; x63; x01] eq_refl).
Defined.

(** A first start on a fresh store: the record returned is the one NewHost
    made, with its name. *)
Lemma createHost_builds_record_witness :
  let r := createHost Sim.api Sim.env (Sim.config "virtualbox" [] []) Sim.fresh in
  exists h data h0 w1 w2,
    outcome r = Ret (inl h) /\
    NewHost Sim.api "virtualbox" data w1 = (inl h0, w2) /\
    host.Name h = host.Name h0 /\
    Sim.store (world r) = [("minikube", h)].
Proof.
  cbv zeta.
  pose (h := host.set_EngineOptions
               (host.set_AuthOptions
                  (host.mkHost "minikube" "virtualbox" (drivers.mkDriver "virtualbox")
                     Sim.defaultOptions
                     "Driver=virtualbox;ISO=https://storage.googleapis.com/minikube/iso/minikube.iso;")
                  (auth.mkOptions "/home/user/.minikube" "/home/user/.minikube"))
               (engineOptions Sim.env (Sim.config "virtualbox" [] []))).
  destruct (createHost_builds_record Sim.api Sim.env (Sim.config "virtualbox" [] [])
              Sim.fresh h eq_refl)
    as (def & data & h0 & w1 & w2 & w3 & _ & _ & Hnew & _ & Hname & _).
  exists h, data, h0, w1, w2.
  split; [reflexivity|]. split; [exact Hnew|]. split; [exact Hname|reflexivity].
Defined.


Lemma createHost_registry_failure_witness :
  outcome (createHost registry_down Sim.env (Sim.config "virtualbox" [] []) Sim.fresh) =
    Exited (exit_WithError "error getting driver" (Sim.failure "registry")) /\
  world (createHost registry_down Sim.env (Sim.config "virtualbox" [] []) Sim.fresh) =
    Sim.fresh.
Proof.
  destruct (createHost_registry_failure registry_down Sim.env
              (Sim.config "virtualbox" [] []) Sim.fresh (Sim.failure "registry")
              eq_refl)
    as (Hout & Hworld & _).
  - discriminate.
  - split; [exact Hout|exact Hworld].
Defined.

(** A store that cannot load the record it has. *)
Lemma StartHost_store_failures_witness :
  StartHost Sim.api Sim.env (Sim.config "virtualbox" [] [])
    (Sim.holding vbox state.Running [Sim.OpLoad]) =
    (Ret (inr (Wrap (Sim.failure "load") "Error loading existing host. Please try running [minikube delete], then run [minikube start] again.")),
     Sim.holding vbox state.Running [Sim.OpLoad],
     [EvExists "minikube"; skipping; EvLoad "minikube"]).
Proof.
  exact (proj1 (proj2 (StartHost_store_failures Sim.api Sim.env
                         (Sim.config "virtualbox" [] [])
                         (Sim.holding vbox state.Running [Sim.OpLoad])))
           _ (Sim.failure "load") _ eq_refl eq_refl).
Defined.

(** A stopped machine whose driver cannot start it, and one it can. *)
Lemma StartHost_restarts_then_saves_witness :
  outcome (StartHost Sim.api Sim.env (Sim.config "virtualbox" [] [])
             (Sim.holding vbox state.Stopped [Sim.OpStart])) =
    Ret (inr (Wrap (Sim.failure "start") "start")) /\
  exists rest,
    effects (trace (StartHost Sim.api Sim.env (Sim.config "virtualbox" [] []) stopped)) =
      ([EvExists "minikube"; EvLoad "minikube"; EvGetState vbox; EvStart vbox] ++
       EvSave vbox :: rest)%list /\
    count is_start rest = 0.
Proof.
  split.
  - refine (proj1 (proj1 (StartHost_restarts_then_saves Sim.api Sim.env
                            (Sim.config "virtualbox" [] [])
                            (Sim.holding vbox state.Stopped [Sim.OpStart]) _ _ _
                            vbox state.Stopped eq_refl eq_refl eq_refl _)
                     (Sim.failure "start") _ eq_refl)).
    discriminate.
  - destruct (proj2 (proj2 (StartHost_restarts_then_saves Sim.api Sim.env
                              (Sim.config "virtualbox" [] []) stopped _ _ _
                              vbox state.Stopped eq_refl eq_refl eq_refl
                              ltac:(discriminate)))
                _ _ eq_refl eq_refl) as (rest & Heff & Hstart & _).
    exists rest. split; [exact Heff|exact Hstart].
Defined.


(** Deleting the running machine: nil, after one Remove of the store; a
    driver that cannot remove it: the failure wrapped, and no Remove of the
    store. *)
Lemma DeleteHost_only_removes_witness :
  (exists w1,
     Remove Sim.api "minikube" w1 =
       (None, world (DeleteHost Sim.api Sim.env running)) /\
     count is_remove (trace (DeleteHost Sim.api Sim.env running)) = 1) /\
  count is_remove
    (trace (DeleteHost Sim.api Sim.env
              (Sim.holding vbox state.Stopped [Sim.OpDriverRemove]))) = 0.
Proof.
  split.
  - exact (proj1 (proj2 (DeleteHost_only_removes Sim.api Sim.env running)) eq_refl).
  - destruct (proj1 (proj2 (proj2 (DeleteHost_only_removes Sim.api Sim.env
                                     (Sim.holding vbox state.Stopped
                                        [Sim.OpDriverRemove]))))
                (Wrap (Sim.failure "driver remove") "host remove") eq_refl)
      as [(e & _ & He & _)|[(e & h & w1 & _ & _ & Hnone)|(e & w1 & _ & He)]].
    + discriminate He.
    + exact Hnone.
    + discriminate He.
Defined.

Lemma StopHost_load_and_success_witness :
  outcome (StopHost Sim.api Sim.env running) = Ret None /\
  world (StopHost Sim.api Sim.env running) = stopped /\
  StopHost Sim.api Sim.env Sim.fresh =
    (Ret (Some (Wrap (errorString "machine does not exist") "load")), Sim.fresh,
     [EvLoad "minikube"]).
Proof.
  destruct (proj1 (proj2 (StopHost_load_and_success Sim.api Sim.env running))
              vbox running stopped eq_refl eq_refl) as (Hout & Hworld & _).
  split; [exact Hout|]. split; [exact Hworld|].
  exact (proj1 (StopHost_load_and_success Sim.api Sim.env Sim.fresh)
           (errorString "machine does not exist") Sim.fresh eq_refl).
Defined.

(** A driver that cannot tell the state. *)
Lemma GetHostStatus_failures_and_queries_witness :
  GetHostStatus Sim.api Sim.env (Sim.holding vbox state.Running [Sim.OpGetState]) =
    (Ret (inr (Wrap (Sim.failure "state") "state")),
     Sim.holding vbox state.Running [Sim.OpGetState],
     [EvExists "minikube"; EvLoad "minikube"; EvGetState vbox]).
Proof.
  exact (proj1 (proj2 (proj2 (GetHostStatus_failures_and_queries Sim.api Sim.env
                                (Sim.holding vbox state.Running [Sim.OpGetState]))))
           _ vbox _ state.None (Sim.failure "state") _ eq_refl eq_refl eq_refl).
Defined.

(** A driver that answers with an address, and one that answers with
    something else. *)
Lemma GetHostDriverIP_parsed_witness :
  outcome2 (GetHostDriverIP Sim.api (more "192.168.99.100") "minikube" running) =
    Ret2 (inl (Net.ParseIP "192.168.99.100")) /\
  Net.ParseIP "192.168.99.100" <> [] /\
  outcome2 (GetHostDriverIP Sim.api (more "localhost") "minikube" running) =
    Ret2 (inr (errorString "parsing IP: localhost")).
Proof.
  split; [reflexivity|]. split.
  - exact (proj1 (proj1 (proj2 (GetHostDriverIP_parsed Sim.api (more "192.168.99.100")
                                  "minikube" running))
                    (Net.ParseIP "192.168.99.100") eq_refl)).
  - exact (proj2 (proj2 (proj2 (proj2 (GetHostDriverIP_parsed Sim.api (more "localhost")
                                         "minikube" running))))
             vbox "localhost" eq_refl eq_refl eq_refl).
Defined.

(** The text of the driver goes into DOCKER_HOST as it is. *)
Lemma GetHostDockerEnv_uses_driver_text_witness :
  outcome2 (GetHostDockerEnv Sim.api (more "localhost") Sim.env running) =
    Ret2 (inl [("DOCKER_TLS_VERIFY", "1");
               ("DOCKER_HOST", "tcp://localhost:2376");
               ("DOCKER_CERT_PATH", "/home/user/.minikube/certs")]).
Proof.
  exact (proj1 (proj2 (proj2 (GetHostDockerEnv_uses_driver_text Sim.api (more "localhost")
                                Sim.env running)))
           vbox "localhost" eq_refl eq_refl).
Defined.

(** A stopped machine gets no client; a running one gets the shell. *)
Lemma CreateSSHShell_needs_running_witness :
  CreateSSHShell Sim.api (more "192.168.99.100") Sim.env ["ls"] stopped =
    (Ret2 (Some (not_running (fmt_q (more "192.168.99.100")) "minikube")), stopped,
     [Ev (EvExists "minikube"); Ev (EvLoad "minikube"); Ev (EvGetState vbox)]) /\
  CreateSSHShell Sim.api (more "192.168.99.100") Sim.env ["ls"] running =
    (Ret2 None, running,
     [Ev (EvExists "minikube"); Ev (EvLoad "minikube"); Ev (EvGetState vbox);
      EvCreateSSHClient vbox; EvShell (ssh.mkClient "minikube") ["ls"]]).
Proof.
  split.
  - refine (proj1 (proj2 (proj2 (CreateSSHShell_needs_running Sim.api
                                   (more "192.168.99.100") Sim.env ["ls"] stopped)))
              vbox state.Stopped eq_refl eq_refl _).
    discriminate.
  - exact (proj2 (proj2 (proj2 (CreateSSHShell_needs_running Sim.api
                                  (more "192.168.99.100") Sim.env ["ls"] running)))
             vbox (ssh.mkClient "minikube") running eq_refl eq_refl eq_refl).
Defined.

(** No machine: exit.WithCode with exit.Unavailable, whatever exitStatus
    is; a running machine: a return. *)
Lemma EnsureMinikubeRunningOrExit_cases_witness :
  outcome2 (EnsureMinikubeRunningOrExit Sim.api (more "192.168.99.100") Sim.env 1
              Sim.fresh) =
    Exited2 (exit_WithCode 69
               "minikube is not running, so the service cannot be accessed") /\
  outcome2 (EnsureMinikubeRunningOrExit Sim.api (more "192.168.99.100") Sim.env 1
              running) = Ret2 tt.
Proof.
  split.
  - exact (proj1 (proj2 (proj2 (proj2 (proj2 (proj2
             (EnsureMinikubeRunningOrExit_cases Sim.api (more "192.168.99.100")
                Sim.env 1 Sim.fresh))))))
             Sim.fresh eq_refl).
  - apply (proj2 (proj1 (proj2 (proj2
             (EnsureMinikubeRunningOrExit_cases Sim.api (more "192.168.99.100")
                Sim.env 1 running))))).
    reflexivity.
Defined.
